(** * Flash-loan arbitrage bot: opportunity scanner and trade executor

    A shallow embedding of [server/opportunityScanner.ts] (class
    [OpportunityScanner]) and of the trade executor (class [TradeExecutor],
    [executeArbitrageTrade] and [validateOpportunity]), together with the
    manual-execution route of [server/routes.ts].

    Modelling conventions.
    - A JavaScript [number] that carries a price, an amount or a percentage
      is an exact rational ([Q]); [parseFloat] of a numeric string is the
      rational it denotes.  IEEE rounding, NaN and the infinities are outside
      the model.  Integer quantities ([BigInt], [Date.now()], integer
      configuration columns) are [Z].
    - [a >= b], [a > b], [a < b] on numbers are [Qle_bool] tests.
    - The in-memory [Map<string, ArbitrageOpportunity>] is a [gmap string _].
    - Every reading of [Date.now()] and [Math.random()] and every answer of
      an external collaborator (storage, chain RPC, quote source) is an input
      of the model, collected in a world record.
    - Side effects on collaborators are recorded, in program order, as a
      list of events. *)

From Stdlib Require Import Ascii String QArith Qabs Qminmax Qround ZArith List Lia.
From stdpp Require Import gmap strings pretty.
Import ListNotations.

Local Open Scope string_scope.
Local Open Scope list_scope.
Local Open Scope Z_scope.

(** ** JavaScript numeric comparisons on the rational model *)

Definition js_ge (a b : Q) : bool := Qle_bool b a.
Definition js_gt (a b : Q) : bool := negb (Qle_bool a b).
Definition js_lt (a b : Q) : bool := negb (Qle_bool b a).

(** ** Data model ([opportunityScanner.ts], lines 7-45) *)

Record TokenInfo := {
  address : string;
  symbol : string;
  decimals : Z;
}.

Record TokenMeta := {
  metaSymbol : string;
  metaDecimals : Z;
}.

(** A fulfilled quote of the quote source.  [toAmount] and [fromAmount]
    hold the values of [parseFloat(quote.toAmount)] and
    [parseFloat(quote.fromAmount)]. *)
Record DexQuote := {
  toAmount : Q;
  fromAmount : Q;
  dex : string;
  fromToken : TokenMeta;
  toToken : TokenMeta;
}.

Record Route := {
  buy : list string;
  sell : list string;
}.

Record ArbitrageOpportunity := {
  id : string;
  tokenIn : TokenInfo;
  tokenOut : TokenInfo;
  buyDex : string;
  sellDex : string;
  buyPrice : Q;
  sellPrice : Q;
  profitPercent : Q;
  netProfitPercent : Q;
  estimatedProfitUsd : Q;
  flashLoanAmount : Z;
  estimatedGasCostUsd : Q;
  flashLoanFeeUsd : Q;
  route : Route;
  timestamp : Z;
  isValid : bool;
}.

Record ScannerConfig := {
  minProfitPercent : Q;
  minNetProfitPercent : Q;
  minProfitUsd : Q;
  maxGasPriceGwei : Q;
  scanIntervalMs : Z;
  tokenPairs : list (string * string);
  dexList : list string;
}.

(** The stored bot configuration (the columns of [shared/schema.ts] that the
    scanner and the executor read).  A [None] is a null column. *)
Module BotConfig.
Record t := {
  privateKey : option string;
  enableRealTrading : option bool;
  useSimulation : option bool;
  networkMode : string;
  maxGasPriceGwei : option Z;
  oneinchApiKey : option string;
  flashLoanContract : option string;
  flashLoanAmount : option Z;
  minProfitPercent : option Q;
  minNetProfitPercent : option Q;
  minNetProfitUsd : option Q;
  scanInterval : option Z;
  telegramProfitThresholdUsd : option Q;
}.
End BotConfig.

(** [x || d] on an integer column: null and 0 are both falsy. *)
Definition z_or (x : option Z) (d : Z) : Z :=
  match x with
  | Some v => if Z.eqb v 0 then d else v
  | None => d
  end.

(** [parseFloat(x?.toString() || d)] on a numeric column. *)
Definition q_or (x : option Q) (d : Q) : Q :=
  match x with
  | Some v => v
  | None => d
  end.

(** ** The price comparator ([scanTokenPair], lines 372-394) *)

Definition price (q : DexQuote) : Q := (toAmount q / fromAmount q)%Q.

Definition estimatedGas : Z := 500000.
Definition maticPriceUsd : Q := 7 # 10.
Definition flashLoanFeePercent : Q := 5 # 10000.

(** [BigInt(estimatedGas) * BigInt(Math.floor(gasGwei * 1e9))] *)
Definition gasCostWei (gasGwei : Q) : Z :=
  estimatedGas * Qfloor (gasGwei * inject_Z (10 ^ 9))%Q.

(** [parseFloat(ethers.formatEther(gasCostWei))] *)
Definition gasCostEth (gasGwei : Q) : Q :=
  (inject_Z (gasCostWei gasGwei) / inject_Z (10 ^ 18))%Q.

Definition gasCostUsd (gasGwei : Q) : Q :=
  (gasCostEth gasGwei * maticPriceUsd)%Q.

Definition flashLoanFee (loanAmount : Z) : Q :=
  (inject_Z loanAmount * flashLoanFeePercent)%Q.

Definition priceDiff (price1 price2 : Q) : Q := Qabs (price1 - price2).
Definition avgPrice (price1 price2 : Q) : Q := ((price1 + price2) / 2)%Q.

Definition grossPercent (price1 price2 : Q) : Q :=
  (priceDiff price1 price2 / avgPrice price1 price2 * 100)%Q.

Definition grossProfitUsd (loanAmount : Z) (price1 price2 : Q) : Q :=
  (priceDiff price1 price2 * inject_Z loanAmount)%Q.

Definition netProfitUsd (loanAmount : Z) (gasUsd : Q) (price1 price2 : Q) : Q :=
  (grossProfitUsd loanAmount price1 price2 - gasUsd - flashLoanFee loanAmount)%Q.

Definition netPercent (loanAmount : Z) (gasUsd : Q) (price1 price2 : Q) : Q :=
  (netProfitUsd loanAmount gasUsd price1 price2 / inject_Z loanAmount * 100)%Q.

(** The [if] of lines 399-403. *)
Definition qualifies (config : ScannerConfig) (loanAmount : Z) (gasUsd : Q)
    (price1 price2 : Q) : bool :=
  js_ge (grossPercent price1 price2) (minProfitPercent config) &&
  js_ge (netPercent loanAmount gasUsd price1 price2) (minNetProfitPercent config) &&
  js_ge (netProfitUsd loanAmount gasUsd price1 price2) (minProfitUsd config).

(** The readings of [Date.now()] and [Math.random()] that one candidate
    consumes: the clock inside the id, the nine base-36 characters of the
    id, and the clock stored as [timestamp]. *)
Record Fresh := {
  idNow : Z;
  idRand : string;
  stamp : Z;
}.

Definition opportunityId (tIn tOut : string) (f : Fresh) : string :=
  (tIn ++ "-" ++ tOut ++ "-" ++ pretty (idNow f) ++ "-" ++ idRand f)%string.

(** The object literal of lines 404-435. *)
Definition mkOpportunity (tIn tOut : string) (loanAmount : Z) (gasUsd : Q)
    (f : Fresh) (quote1 quote2 : DexQuote) : ArbitrageOpportunity :=
  let price1 := price quote1 in
  let price2 := price quote2 in
  {| id := opportunityId tIn tOut f;
     tokenIn := {| address := tIn;
                   symbol := metaSymbol (fromToken quote1);
                   decimals := metaDecimals (fromToken quote1) |};
     tokenOut := {| address := tOut;
                    symbol := metaSymbol (toToken quote1);
                    decimals := metaDecimals (toToken quote1) |};
     buyDex := if js_lt price1 price2 then dex quote1 else dex quote2;
     sellDex := if js_lt price1 price2 then dex quote2 else dex quote1;
     buyPrice := Qmin price1 price2;
     sellPrice := Qmax price1 price2;
     profitPercent := grossPercent price1 price2;
     netProfitPercent := netPercent loanAmount gasUsd price1 price2;
     estimatedProfitUsd := netProfitUsd loanAmount gasUsd price1 price2;
     flashLoanAmount := loanAmount;
     estimatedGasCostUsd := gasUsd;
     flashLoanFeeUsd := flashLoanFee loanAmount;
     route := {| buy := [tIn; tOut]; sell := [tOut; tIn] |};
     timestamp := stamp f;
     isValid := true |}.

(** ** Collaborator calls, recorded as events *)

Record QuoteRequest := {
  quoteSrc : string;
  quoteDst : string;
  quoteAmount : Z;
}.

(** The parameter object of [dexAggregator.buildSwapTransaction]. *)
Record SwapRequest := {
  src : string;
  dst : string;
  amount : Z;
  from : string;
  slippage : Z;
  disableEstimate : bool;
  allowPartialFill : bool;
}.

(** The tuple that [AbiCoder.encode] packs for the contract. *)
Record ArbParams := {
  buyRouter : string;
  buyData : string;
  sellRouter : string;
  sellData : string;
  minProfit : Z;
}.

Record FlashLoanRequest := {
  assets : list string;
  amounts : list Z;
  receiverAddress : string;
  params : ArbParams;
}.

(** [EvLog type level step] is one [storage.createActivityLog]; [step] is
    the [step] field of the entry's metadata, empty when it has none. *)
Inductive Event :=
| EvLog (type level step : string)
| EvGetBotConfig
| EvGasPrice
| EvGetQuote (r : QuoteRequest)
| EvRegistrySet (o : ArbitrageOpportunity)
| EvCallback (o : ArbitrageOpportunity)
| EvBroadcast (o : ArbitrageOpportunity)
| EvExecute (o : ArbitrageOpportunity) (isSimulation : bool)
| EvUpdateBotStatus (activeOpportunities : nat)
| EvNativeBalance (addr : string) (chainId : Z)
| EvBuildSwap (r : SwapRequest)
| EvGetCode (addr : string)
| EvFlashLoan (r : FlashLoanRequest) (signerKey : string)
| EvCreateTransaction (txHash status : string)
| EvTelegram (kind : string).

(** ** The scanner ([OpportunityScanner.scan] and [scanTokenPair]) *)

Record ScanWorld := {
  (** [parseFloat((await web3Provider.getGasPrice()).gasPriceGwei)];
      [None] when the RPC call throws *)
  gasPriceGwei : option Q;
  (** the answer of [storage.getBotConfig] during the cycle *)
  botConfig : option BotConfig.t;
  (** for the k-th configured token pair, the settled results of the quote
      promises, in order; [None] is a rejected promise *)
  settledQuotes : nat -> list (option DexQuote);
  (** the clock and random readings of the candidate of quotes i and j of
      the k-th token pair *)
  fresh : nat -> nat -> nat -> Fresh;
  (** [Date.now()] read at line 290, before the eviction pass *)
  evictNow : Z;
  hasCallback : bool;
  hasBroadcast : bool;
}.

Section ScanTokenPair.

Variables (config : ScannerConfig) (tIn tOut : string) (loanAmount : Z)
  (gasGwei : Q) (freshAt : nat -> nat -> Fresh).

(** The body of the inner loop for one pair (i, j) of settled quotes. *)
Definition compareQuotes (i j : nat) (quote1 quote2 : option DexQuote)
    : list ArbitrageOpportunity :=
  match quote1, quote2 with
  | Some q1, Some q2 =>
      if qualifies config loanAmount (gasCostUsd gasGwei) (price q1) (price q2)
      then [mkOpportunity tIn tOut loanAmount (gasCostUsd gasGwei)
              (freshAt i j) q1 q2]
      else []
  | _, _ => []
  end.

(** [for (let j = i + 1; j < dexQuotes.length; j++)], entered at index [j]
    with the remaining quotes [rest]. *)
Fixpoint innerLoop (i : nat) (quote1 : option DexQuote) (j : nat)
    (rest : list (option DexQuote)) : list ArbitrageOpportunity :=
  match rest with
  | [] => []
  | quote2 :: rest' =>
      compareQuotes i j quote1 quote2 ++ innerLoop i quote1 (S j) rest'
  end.

(** [for (let i = 0; i < dexQuotes.length; i++)], entered at index [i]. *)
Fixpoint outerLoop (i : nat) (dexQuotes : list (option DexQuote))
    : list ArbitrageOpportunity :=
  match dexQuotes with
  | [] => []
  | quote1 :: rest => innerLoop i quote1 (S i) rest ++ outerLoop (S i) rest
  end.

End ScanTokenPair.

(** [botConfig?.flashLoanAmount || 10000] *)
Definition configuredLoanAmount (bc : option BotConfig.t) : Z :=
  z_or (bc ≫= BotConfig.flashLoanAmount) 10000.

(** [ethers.parseUnits(loanAmount.toString(), 6)] *)
Definition loanAmountWei (loanAmount : Z) : Z := loanAmount * 10 ^ 6.

(** The three quote requests of lines 338-357: the direct one and the two
    issued inside [simulateSecondDexQuote] and [simulateThirdDexQuote]. *)
Definition quoteRequests (tIn tOut : string) (loanAmount : Z) : list Event :=
  let r := {| quoteSrc := tIn; quoteDst := tOut;
              quoteAmount := loanAmountWei loanAmount |} in
  [EvGetQuote r; EvGetQuote r; EvGetQuote r].

(** [scanTokenPair] for the k-th configured pair: the opportunities it
    returns and the collaborator calls it makes. *)
Definition scanTokenPair (w : ScanWorld) (config : ScannerConfig)
    (gasGwei : Q) (k : nat) (tp : string * string)
    : list ArbitrageOpportunity * list Event :=
  let loanAmount := configuredLoanAmount (botConfig w) in
  (outerLoop config (fst tp) (snd tp) loanAmount gasGwei (fresh w k) 0
     (settledQuotes w k),
   EvGetBotConfig :: quoteRequests (fst tp) (snd tp) loanAmount).

(** [config.tokenPairs.map(...)] joined by [Promise.allSettled] and
    flattened into [newOpportunities].  The pairs run concurrently in the
    source; their calls are listed here pair after pair. *)
Fixpoint scanPairs (w : ScanWorld) (config : ScannerConfig) (gasGwei : Q)
    (k : nat) (pairs : list (string * string))
    : list ArbitrageOpportunity * list Event :=
  match pairs with
  | [] => ([], [])
  | tp :: pairs' =>
      let r := scanTokenPair w config gasGwei k tp in
      let rs := scanPairs w config gasGwei (S k) pairs' in
      (fst r ++ fst rs, snd r ++ snd rs)
  end.

(** [botConfig?.useSimulation !== false] *)
Definition isSimulationMode (bc : option BotConfig.t) : bool :=
  match bc ≫= BotConfig.useSimulation with
  | Some false => false
  | _ => true
  end.

(** One turn of [for (const opp of newOpportunities)], lines 242-287.  The
    executor is started in the background: the scan only records the
    hand-over. *)
Definition dispatchOne (w : ScanWorld) (opp : ArbitrageOpportunity)
    : list Event :=
  [EvRegistrySet opp]
  ++ (if hasCallback w then [EvCallback opp] else [])
  ++ (if hasBroadcast w then [EvBroadcast opp] else [])
  ++ [EvGetBotConfig; EvLog "scanner" "info" "";
      EvExecute opp (isSimulationMode (botConfig w))].

Fixpoint dispatchAll (w : ScanWorld) (reg : gmap string ArbitrageOpportunity)
    (opps : list ArbitrageOpportunity)
    : gmap string ArbitrageOpportunity * list Event :=
  match opps with
  | [] => (reg, [])
  | opp :: opps' =>
      let r := dispatchAll w (<[id opp := opp]> reg) opps' in
      (fst r, dispatchOne w opp ++ snd r)
  end.

Definition staleMs : Z := 60000.

Definition isStale (now : Z) (opp : ArbitrageOpportunity) : bool :=
  Z.gtb (now - timestamp opp) staleMs.

(** The eviction pass of lines 290-295. *)
Definition evictStale (now : Z) (reg : gmap string ArbitrageOpportunity)
    : gmap string ArbitrageOpportunity :=
  filter (fun kv => isStale now (snd kv) = false) reg.

Definition gasPreparation : list Event :=
  [EvLog "scanner" "info" "1_preparation"; EvGasPrice].

Definition gasSkipEntry : Event := EvLog "scanner" "warning" "1_gas_check_failed".

(** The registry after the insertion loop of a cycle that passed the gas
    gate, before the eviction pass. *)
Definition scanInserted (w : ScanWorld) (config : ScannerConfig) (gasGwei : Q)
    (reg : gmap string ArbitrageOpportunity)
    : gmap string ArbitrageOpportunity :=
  fst (dispatchAll w reg (fst (scanPairs w config gasGwei 0 (tokenPairs config)))).

(** [scan]: the registry after the cycle and the collaborator calls made.
    Storage calls are taken to succeed; a throwing gas-price call lands in
    the [catch] of lines 301-311. *)
Definition scan (w : ScanWorld) (config : ScannerConfig)
    (reg : gmap string ArbitrageOpportunity)
    : gmap string ArbitrageOpportunity * list Event :=
  match gasPriceGwei w with
  | None => (reg, gasPreparation ++ [EvLog "scanner" "error" ""])
  | Some gasGwei =>
      if js_gt gasGwei (maxGasPriceGwei config) then
        (reg, gasPreparation ++ [gasSkipEntry])
      else
        let found := scanPairs w config gasGwei 0 (tokenPairs config) in
        let newOpportunities := fst found in
        let d := dispatchAll w reg newOpportunities in
        let reg' := evictStale (evictNow w) (fst d) in
        (reg',
         gasPreparation
         ++ [EvLog "scanner" "info" "2_dex_connection"; EvGetBotConfig;
             EvLog "scanner" "info" "3_pair_analysis"]
         ++ snd found
         ++ [match newOpportunities with
             | [] => EvLog "scanner" "info" "4_no_results"
             | _ :: _ => EvLog "scanner" "success" "4_results"
             end]
         ++ snd d
         ++ [EvUpdateBotStatus (size reg')])
  end.

(** [getOpportunities()]: the values of the map.  The insertion order
    that a JavaScript [Map] keeps is not modelled. *)
Definition getOpportunities (reg : gmap string ArbitrageOpportunity)
    : list ArbitrageOpportunity :=
  snd <$> map_to_list reg.

(** ** The trade executor ([TradeExecutor]) *)

(** The answer of [buildSwapTransaction]; [toAmount] holds
    [parseFloat(swap.toAmount)], [tx] is the optional [tx] object. *)
Module SwapTx.
Record call := {
  to : option string;
  data : option string;
}.
Record t := {
  toAmount : Q;
  dex : string;
  tx : option call;
}.
End SwapTx.

Module FlashLoanResult.
Record t := {
  success : bool;
  txHash : option string;
  error : option string;
}.
End FlashLoanResult.

(** The [Error] values raised inside [executeArbitrageTrade], one
    constructor per [throw] site. *)
Inductive ExecError :=
| ErrConfigNotFound          (* Bot configuration not found *)
| ErrRealTradingDisabled     (* Real trading is disabled in configuration *)
| ErrInvalidKeyFormat        (* Invalid private key format. Must be 64 hex characters (or 66 with 0x prefix) *)
| ErrKeyNotConfigured        (* Private key not configured for real trading. ... *)
| ErrGasPriceTooHigh (gas : Q) (max : option Z)
| ErrApiKeyMissing           (* 1inch API key not configured for real trading. ... *)
| ErrKeyRequired             (* Private key is required but not configured *)
| ErrBuildBuy (cause : string)
| ErrBuildSell (cause : string)
| ErrContractMissing         (* Arbitrage contract not deployed. Please deploy ... *)
| ErrInvalidBuyRouter (router : string)
| ErrInvalidSellRouter (router : string)
| ErrBuyDataMissing
| ErrSellDataMissing
| ErrContractNotDeployed (contract : string)
| ErrFlashLoan (cause : string)
| ErrThrown (cause : string). (* raised by a collaborator or by ethers *)

Inductive Message :=
| MsgSimulation (profit : Q)      (* Simulation successful - profit $... *)
| MsgReal (txHash : string)        (* Real trade executed - TX ... *)
| MsgFailed (e : ExecError).       (* Trade execution failed: ... *)

(** [executionTime], a difference of two clock readings, is left out. *)
Module TradeExecutionResult.
Record t := {
  success : bool;
  txHash : option string;
  profitUsd : option Q;
  gasCostUsd : option Q;
  message : Message;
  error : option ExecError;
}.
End TradeExecutionResult.

Record ExecWorld := {
  (** [storage.getBotConfig(userId)] *)
  storedConfig : option BotConfig.t;
  (** [process.env.PRIVATE_KEY] and [process.env.ARBITRAGE_CONTRACT] *)
  envPrivateKey : option string;
  envArbitrageContract : option string;
  (** [new ethers.Wallet(key).address]; [None] when the constructor throws *)
  walletAddress : string -> option string;
  (** [parseFloat((await getNativeBalance(addr, chain)).balanceFormatted)] *)
  nativeBalance : string -> Z -> option Q;
  (** the gas price read at execution time *)
  currentGasGwei : option Q;
  (** the quote source; [inl m] is an exception with message [m] *)
  buildSwapTransaction : SwapRequest -> string + SwapTx.t;
  isAddress : string -> bool;
  getCode : string -> option string;
  (** [aaveFlashLoanV3.executeFlashLoan(userId, request, key)] *)
  executeFlashLoan : FlashLoanRequest -> string -> option FlashLoanResult.t;
  (** the n-th [Math.random().toString(16).substring(2)] of the attempt *)
  randomHex : nat -> string;
}.

(** *** Strings the way the source tests them

    Strings are byte strings; [trim] strips the ASCII white space and line
    terminators (codes 9 to 13 and 32), and [String.length] counts bytes,
    which is the JavaScript length on ASCII keys. *)

Definition isSpace (c : ascii) : bool :=
  let n := nat_of_ascii c in
  (Nat.eqb n 32 || (Nat.leb 9 n && Nat.leb n 13))%bool.

Fixpoint trimStart (s : string) : string :=
  match s with
  | EmptyString => EmptyString
  | String c s' => if isSpace c then trimStart s' else s
  end.

Fixpoint trimEnd (s : string) : string :=
  match s with
  | EmptyString => EmptyString
  | String c s' =>
      match trimEnd s' with
      | EmptyString => if isSpace c then EmptyString else String c EmptyString
      | r => String c r
      end
  end.

Definition trim (s : string) : string := trimEnd (trimStart s).

(** A string value in a boolean position: undefined, null and the empty
    string are falsy. *)
Definition truthy (s : option string) : bool :=
  match s with
  | Some (String _ _) => true
  | _ => false
  end.

(** [a || b] on optional strings. *)
Definition str_or (a b : option string) : option string :=
  if truthy a then a else b.

Definition startsWith (p s : string) : bool := String.prefix p s.

(** Lines 76-81: the key from the configuration or the environment, with
    the [0x] prefix added when it is missing. *)
Definition resolvePrivateKey (cfgKey envKey : option string) : option string :=
  let privateKey := str_or (trim <$> cfgKey) envKey in
  if truthy privateKey then
    (fun k => if startsWith "0x" k then k else ("0x" ++ k)%string) <$> privateKey
  else privateKey.

(** *** A writer monad with exceptions for the pipeline *)

Definition Exec (A : Type) : Type := list Event * (ExecError + A).

Definition ret {A} (a : A) : Exec A := ([], inr a).

Definition bind {A B} (m : Exec A) (k : A -> Exec B) : Exec B :=
  match m with
  | (t, inl e) => (t, inl e)
  | (t, inr a) => let r := k a in (t ++ fst r, snd r)
  end.

Definition emit (e : Event) : Exec unit := ([e], inr tt).

Definition throw {A} (e : ExecError) : Exec A := ([], inl e).

Definition tryCatch {A} (m : Exec A) (handler : ExecError -> Exec A) : Exec A :=
  match m with
  | (t, inl e) => let r := handler e in (t ++ fst r, snd r)
  | (t, inr a) => (t, inr a)
  end.

(** An awaited collaborator call that may throw. *)
Definition await {A} (e : Event) (answer : option A) (cause : string) : Exec A :=
  match answer with
  | Some a => ([e], inr a)
  | None => ([e], inl (ErrThrown cause))
  end.

Definition when (b : bool) (m : Exec unit) : Exec unit :=
  if b then m else ret tt.

Declare Scope exec_scope.
Delimit Scope exec_scope with exec.
Notation "x <- m ;; k" := (bind m (fun x => k))
  (at level 100, m at next level, k at level 200, right associativity)
  : exec_scope.
Notation "m ;; k" := (bind m (fun _ => k))
  (at level 100, k at level 200, right associativity) : exec_scope.

Definition log (level step : string) : Exec unit :=
  emit (EvLog "trade_execution" level step).

Local Open Scope exec_scope.

(** A synchronous library call that may throw (no collaborator event). *)
Definition attempt {A} (answer : option A) (cause : string) : Exec A :=
  match answer with
  | Some a => ret a
  | None => throw (ErrThrown cause)
  end.

Definition flag (b : option bool) : bool :=
  match b with
  | Some true => true
  | _ => false
  end.

Definition chainIdOf (config : BotConfig.t) : Z :=
  if String.eqb (BotConfig.networkMode config) "mainnet" then 137 else 80002.

(** Lines 45-121: the first log entry, the configuration, the real-trading
    switch and the private key.  Returns the configuration and the
    normalised key. *)
Definition configAndKey (w : ExecWorld) (isSimulation : bool)
    : Exec (BotConfig.t * option string) :=
  log "info" "1_validation" ;;
  emit EvGetBotConfig ;;
  config <- match storedConfig w with
            | Some c => ret c
            | None => throw ErrConfigNotFound
            end ;;
  when (negb isSimulation && negb (flag (BotConfig.enableRealTrading config)))
    (throw ErrRealTradingDisabled) ;;
  let privateKey := resolvePrivateKey (BotConfig.privateKey config) (envPrivateKey w) in
  when (truthy privateKey &&
        negb (Nat.eqb (String.length (default "" privateKey)) 66))
    (log "error" "2_validation_failed" ;; throw ErrInvalidKeyFormat) ;;
  when (negb isSimulation && negb (truthy privateKey))
    (log "error" "2_validation_failed" ;; throw ErrKeyNotConfigured) ;;
  log "info" "2_key_validation" ;;
  ret (config, privateKey).

Definition minMaticRequired : Q := 1 # 10.

(** Lines 123-164: the balance check.  Its [throw] sits inside the [try]
    whose [catch] only writes a warning. *)
Definition balanceCheck (w : ExecWorld) (isSimulation : bool)
    (privateKey : option string) (chainId : Z) : Exec unit :=
  when (negb isSimulation && truthy privateKey)
    (tryCatch
       (addr <- attempt (walletAddress w (default "" privateKey)) "invalid private key" ;;
        currentMatic <- await (EvNativeBalance addr chainId)
                          (nativeBalance w addr chainId) "getNativeBalance" ;;
        log "info" "3_balance_check" ;;
        when (js_lt currentMatic minMaticRequired)
          (throw (ErrThrown "Insufficient MATIC balance")))
       (fun _ => log "warning" "3_balance_check_failed")).

(** [config.maxGasPriceGwei || 60] *)
Definition gasCeiling (config : BotConfig.t) : Q :=
  inject_Z (z_or (BotConfig.maxGasPriceGwei config) 60).

(** Lines 166-196: the gas check. *)
Definition gasCheck (w : ExecWorld) (config : BotConfig.t) : Exec unit :=
  gas <- await EvGasPrice (currentGasGwei w) "getGasPrice" ;;
  log "info" "4_gas_check" ;;
  when (js_gt gas (gasCeiling config))
    (log "error" "4_gas_too_high" ;;
     throw (ErrGasPriceTooHigh gas (BotConfig.maxGasPriceGwei config))).

(** [`0x${Math.random()...}${Math.random()...}`] *)
Definition pseudoTxHash (w : ExecWorld) : string :=
  ("0x" ++ randomHex w 0 ++ randomHex w 1)%string.

(** Lines 198-265: the simulation branch. *)
Definition simulationBranch (w : ExecWorld) (config : BotConfig.t)
    (opportunity : ArbitrageOpportunity) : Exec TradeExecutionResult.t :=
  log "info" "5_mock_transaction" ;;
  log "success" "7_completed" ;;
  let mockTxHash := pseudoTxHash w in
  emit (EvCreateTransaction mockTxHash "success") ;;
  let profitThreshold := q_or (BotConfig.telegramProfitThresholdUsd config) 10 in
  when (js_ge (estimatedProfitUsd opportunity) profitThreshold)
    (emit (EvTelegram "trade_success")) ;;
  ret {| TradeExecutionResult.success := true;
         TradeExecutionResult.txHash := Some mockTxHash;
         TradeExecutionResult.profitUsd := Some (estimatedProfitUsd opportunity);
         TradeExecutionResult.gasCostUsd := Some (estimatedGasCostUsd opportunity);
         TradeExecutionResult.message := MsgSimulation (estimatedProfitUsd opportunity);
         TradeExecutionResult.error := None |}.

(** [ethers.parseUnits(amount, decimals)] on an integer amount. *)
Definition parseUnits (amount decimals : Z) : Z := amount * 10 ^ decimals.

Definition DEX_ROUTERS : list (string * string) :=
  [("1inch", "0x1111111254EEB25477B68fb85Ed929f73A960582");
   ("QuickSwap", "0xa5E0829CaCEd8fFDD4De3c43696c57F7D7A678ff");
   ("Uniswap V3", "0xE592427A0AEce92De3Edee1F18E0157C05861564");
   ("SushiSwap", "0x1b02dA8Cb0d097eB8D57A175b88c7D8b47997506");
   ("Curve", "0x445FE580eF8d70FF569aB36e80c647af338db351");
   ("Balancer", "0xBA12222222228d8Ba445958a75a0704d566BF2C8")].

Fixpoint routerOf (table : list (string * string)) (name : string)
    : option string :=
  match table with
  | [] => None
  | (n, a) :: table' => if String.eqb n name then Some a else routerOf table' name
  end.

(** [swap.tx?.to || DEX_ROUTERS[dexName] || arbitrageContractAddress] *)
Definition routerAddress (swap : SwapTx.t) (dexName contract : string) : string :=
  default contract
    (str_or (SwapTx.tx swap ≫= SwapTx.to)
       (str_or (routerOf DEX_ROUTERS dexName) (Some contract))).

Definition swapRequest (tokenFrom tokenTo : string) (amt : Z) (wallet : string)
    : SwapRequest :=
  {| src := tokenFrom; dst := tokenTo; amount := amt; from := wallet;
     slippage := 1; disableEstimate := false; allowPartialFill := false |}.

(** Lines 343-390: the buy leg. *)
Definition buildBuySwap (w : ExecWorld) (opportunity : ArbitrageOpportunity)
    (loanAmount : Z) (wallet : string) : Exec SwapTx.t :=
  log "info" "5.2_build_buy_swap" ;;
  let r := swapRequest (address (tokenIn opportunity))
             (address (tokenOut opportunity)) loanAmount wallet in
  match buildSwapTransaction w r with
  | inr buySwap =>
      emit (EvBuildSwap r) ;; log "success" "5.3_buy_swap_ready" ;; ret buySwap
  | inl cause =>
      emit (EvBuildSwap r) ;; log "error" "5.3_buy_swap_failed" ;;
      throw (ErrBuildBuy cause)
  end.

(** Lines 392-442: the sell leg, sized at
    [Math.floor(parseFloat(buySwap.toAmount))]. *)
Definition buildSellSwap (w : ExecWorld) (opportunity : ArbitrageOpportunity)
    (buySwap : SwapTx.t) (wallet : string) : Exec SwapTx.t :=
  let sellAmount := Qfloor (SwapTx.toAmount buySwap) in
  log "info" "5.4_build_sell_swap" ;;
  let r := swapRequest (address (tokenOut opportunity))
             (address (tokenIn opportunity)) sellAmount wallet in
  match buildSwapTransaction w r with
  | inr sellSwap =>
      emit (EvBuildSwap r) ;; log "success" "5.5_sell_swap_ready" ;; ret sellSwap
  | inl cause =>
      emit (EvBuildSwap r) ;; log "error" "5.5_sell_swap_failed" ;;
      throw (ErrBuildSell cause)
  end.

(** Lines 461-646: the contract address, the routers, the deployed-code
    check, the flash-loan call and the pending record. *)
Definition flashLoanStage (w : ExecWorld) (config : BotConfig.t)
    (opportunity : ArbitrageOpportunity) (key : string) (chainId loanAmount : Z)
    (buySwap sellSwap : SwapTx.t) : Exec TradeExecutionResult.t :=
  let contractOpt := str_or (BotConfig.flashLoanContract config) (envArbitrageContract w) in
  when (negb (truthy contractOpt)) (throw ErrContractMissing) ;;
  let arbitrageContractAddress := default "" contractOpt in
  log "info" "6.1_contract_address" ;;
  let buyRouterAddress :=
    routerAddress buySwap (buyDex opportunity) arbitrageContractAddress in
  let sellRouterAddress :=
    routerAddress sellSwap (sellDex opportunity) arbitrageContractAddress in
  when (negb (isAddress w buyRouterAddress))
    (throw (ErrInvalidBuyRouter buyRouterAddress)) ;;
  when (negb (isAddress w sellRouterAddress))
    (throw (ErrInvalidSellRouter sellRouterAddress)) ;;
  when (negb (truthy (SwapTx.tx buySwap ≫= SwapTx.data))) (throw ErrBuyDataMissing) ;;
  when (negb (truthy (SwapTx.tx sellSwap ≫= SwapTx.data))) (throw ErrSellDataMissing) ;;
  log "info" "6.2_router_addresses" ;;
  contractCode <- await (EvGetCode arbitrageContractAddress)
                    (getCode w arbitrageContractAddress) "getCode" ;;
  when (String.eqb contractCode "0x" || String.eqb contractCode "0x0")
    (throw (ErrContractNotDeployed arbitrageContractAddress)) ;;
  log "info" "6.3_contract_validated" ;;
  let minProfitAmount := Z.quot (loanAmount * 10) 10000 in
  let arbParams :=
    {| buyRouter := buyRouterAddress;
       buyData := default "" (SwapTx.tx buySwap ≫= SwapTx.data);
       sellRouter := sellRouterAddress;
       sellData := default "" (SwapTx.tx sellSwap ≫= SwapTx.data);
       minProfit := minProfitAmount |} in
  log "info" "6.4_arbitrage_params" ;;
  log "info" "7_execute_flashloan" ;;
  let request :=
    {| assets := [address (tokenIn opportunity)];
       amounts := [loanAmount];
       receiverAddress := arbitrageContractAddress;
       params := arbParams |} in
  result <- await (EvFlashLoan request key)
              (executeFlashLoan w request key) "executeFlashLoan" ;;
  when (negb (FlashLoanResult.success result))
    (throw (ErrFlashLoan
              (default "Flash loan execution failed"
                 (str_or (FlashLoanResult.error result)
                    (Some "Flash loan execution failed"))))) ;;
  let realTxHash :=
    default "" (str_or (FlashLoanResult.txHash result) (Some (pseudoTxHash w))) in
  emit (EvCreateTransaction realTxHash "pending") ;;
  log "success" "8_transaction_sent" ;;
  emit (EvTelegram "trade_pending") ;;
  ret {| TradeExecutionResult.success := true;
         TradeExecutionResult.txHash := Some realTxHash;
         TradeExecutionResult.profitUsd := Some (estimatedProfitUsd opportunity);
         TradeExecutionResult.gasCostUsd := Some (estimatedGasCostUsd opportunity);
         TradeExecutionResult.message := MsgReal realTxHash;
         TradeExecutionResult.error := None |}.

(** Lines 267-646: the real-trading branch. *)
Definition realBranch (w : ExecWorld) (config : BotConfig.t)
    (opportunity : ArbitrageOpportunity) (privateKey : option string)
    (chainId : Z) : Exec TradeExecutionResult.t :=
  when (negb (truthy (trim <$> BotConfig.oneinchApiKey config)))
    (log "error" "5_api_key_missing" ;; throw ErrApiKeyMissing) ;;
  log "warning" "5_real_execution" ;;
  let loanAmount :=
    parseUnits (flashLoanAmount opportunity) (decimals (tokenIn opportunity)) in
  when (negb (truthy privateKey)) (throw ErrKeyRequired) ;;
  let key := default "" privateKey in
  wallet <- attempt (walletAddress w key) "invalid private key" ;;
  log "info" "5.1_dex_init" ;;
  log "info" "6_flash_loan_mode" ;;
  buySwap <- buildBuySwap w opportunity loanAmount wallet ;;
  sellSwap <- buildSellSwap w opportunity buySwap wallet ;;
  log "info" "6_swap_preparation" ;;
  flashLoanStage w config opportunity key chainId loanAmount buySwap sellSwap.

(** The [try] block of [executeArbitrageTrade]. *)
Definition pipeline (w : ExecWorld) (opportunity : ArbitrageOpportunity)
    (isSimulation : bool) : Exec TradeExecutionResult.t :=
  ck <- configAndKey w isSimulation ;;
  let config := fst ck in
  let privateKey := snd ck in
  let chainId := chainIdOf config in
  balanceCheck w isSimulation privateKey chainId ;;
  gasCheck w config ;;
  if isSimulation then simulationBranch w config opportunity
  else realBranch w config opportunity privateKey chainId.

(** The [catch] block, lines 648-722: one error entry, one failed
    transaction record, and the failure result. *)
Definition failure (e : ExecError) : Exec TradeExecutionResult.t :=
  log "error" "" ;;
  emit (EvCreateTransaction "0x0" "failed") ;;
  ret {| TradeExecutionResult.success := false;
         TradeExecutionResult.txHash := None;
         TradeExecutionResult.profitUsd := None;
         TradeExecutionResult.gasCostUsd := None;
         TradeExecutionResult.message := MsgFailed e;
         TradeExecutionResult.error := Some e |}.

(** The collaborator calls of an attempt and what it returns.  The
    [catch] block always returns, so the [inl] case does not arise; it is
    mapped to the same failure result to keep the function total. *)
Definition executeArbitrageTrade (w : ExecWorld)
    (opportunity : ArbitrageOpportunity) (isSimulation : bool)
    : list Event * TradeExecutionResult.t :=
  match tryCatch (pipeline w opportunity isSimulation) failure with
  | (t, inr r) => (t, r)
  | (t, inl e) =>
      (t, {| TradeExecutionResult.success := false;
             TradeExecutionResult.txHash := None;
             TradeExecutionResult.profitUsd := None;
             TradeExecutionResult.gasCostUsd := None;
             TradeExecutionResult.message := MsgFailed e;
             TradeExecutionResult.error := Some e |})
  end.

Definition revalidationMs : Z := 30000.

(** [validateOpportunity], lines 728-753, with [now] the reading of
    [Date.now()]. *)
Definition validateOpportunity (config : option BotConfig.t) (now : Z)
    (opportunity : ArbitrageOpportunity) : bool :=
  let ageMs := now - timestamp opportunity in
  if Z.gtb ageMs revalidationMs then false
  else if js_lt (netProfitPercent opportunity)
            (q_or (config ≫= BotConfig.minNetProfitPercent) (15 # 100))
  then false
  else true.

(** ** The manual-execution route ([POST /api/arbitrage/execute]) *)

Inductive RouteResponse :=
| Status400
| Status404
| Json (events : list Event) (result : TradeExecutionResult.t).

Definition apiArbitrageExecute (w : ExecWorld)
    (reg : gmap string ArbitrageOpportunity) (opportunityId : option string)
    : RouteResponse :=
  if negb (truthy opportunityId) then Status400
  else
    match List.find (fun o => String.eqb (id o) (default "" opportunityId))
            (getOpportunities reg) with
    | None => Status404
    | Some opportunity =>
        let r := executeArbitrageTrade w opportunity
                   (isSimulationMode (storedConfig w)) in
        Json (EvGetBotConfig :: fst r) (snd r)
    end.

(** ** Reading a trace *)

Definition isGasSkip (e : Event) : bool :=
  match e with
  | EvLog _ _ step => String.eqb step "1_gas_check_failed"
  | _ => false
  end.

Definition isQuoteRequest (e : Event) : bool :=
  match e with
  | EvGetQuote _ => true
  | _ => false
  end.

Definition isRegistrySet (e : Event) : bool :=
  match e with
  | EvRegistrySet _ => true
  | _ => false
  end.

(** The opportunities handed to the executor, in order. *)
Fixpoint executed (t : list Event) : list ArbitrageOpportunity :=
  match t with
  | [] => []
  | EvExecute o _ :: t' => o :: executed t'
  | _ :: t' => executed t'
  end.

(** The route-building requests sent to the quote source, in order. *)
Fixpoint swapRequests (t : list Event) : list SwapRequest :=
  match t with
  | [] => []
  | EvBuildSwap r :: t' => r :: swapRequests t'
  | _ :: t' => swapRequests t'
  end.

(** Calls to the chain RPC or to the quote source. *)
Definition isChainInteraction (e : Event) : bool :=
  match e with
  | EvNativeBalance _ _ | EvGasPrice | EvGetCode _ | EvFlashLoan _ _
  | EvBuildSwap _ | EvGetQuote _ => true
  | _ => false
  end.

Definition isFlashLoan (e : Event) : bool :=
  match e with
  | EvFlashLoan _ _ => true
  | _ => false
  end.

Definition isHexDigit (c : ascii) : bool :=
  let n := nat_of_ascii c in
  ((Nat.leb 48 n && Nat.leb n 57) || (Nat.leb 97 n && Nat.leb n 102))%bool.

Fixpoint allHex (s : string) : bool :=
  match s with
  | EmptyString => true
  | String c s' => isHexDigit c && allHex s'
  end.

(** A placeholder transaction id: [0x] followed by hexadecimal digits. *)
Definition isPlaceholderTxId (s : string) : bool :=
  match s with
  | String "0" (String "x" digits) => allHex digits
  | _ => false
  end.

(** The Registry is keyed by the id of its entries. *)
Definition keyed (reg : gmap string ArbitrageOpportunity) : Prop :=
  forall i o, reg !! i = Some o -> id o = i.

(** ** Two attempts that differ in the credential only *)

Definition setPrivateKey (c : BotConfig.t) (k : option string) : BotConfig.t :=
  {| BotConfig.privateKey := k;
     BotConfig.enableRealTrading := BotConfig.enableRealTrading c;
     BotConfig.useSimulation := BotConfig.useSimulation c;
     BotConfig.networkMode := BotConfig.networkMode c;
     BotConfig.maxGasPriceGwei := BotConfig.maxGasPriceGwei c;
     BotConfig.oneinchApiKey := BotConfig.oneinchApiKey c;
     BotConfig.flashLoanContract := BotConfig.flashLoanContract c;
     BotConfig.flashLoanAmount := BotConfig.flashLoanAmount c;
     BotConfig.minProfitPercent := BotConfig.minProfitPercent c;
     BotConfig.minNetProfitPercent := BotConfig.minNetProfitPercent c;
     BotConfig.minNetProfitUsd := BotConfig.minNetProfitUsd c;
     BotConfig.scanInterval := BotConfig.scanInterval c;
     BotConfig.telegramProfitThresholdUsd := BotConfig.telegramProfitThresholdUsd c |}.

(** The world [w] with the stored key and the environment key replaced. *)
Definition withKeys (w : ExecWorld) (cfgKey envKey : option string) : ExecWorld :=
  {| storedConfig := (fun c => setPrivateKey c cfgKey) <$> storedConfig w;
     envPrivateKey := envKey;
     envArbitrageContract := envArbitrageContract w;
     walletAddress := walletAddress w;
     nativeBalance := nativeBalance w;
     currentGasGwei := currentGasGwei w;
     buildSwapTransaction := buildSwapTransaction w;
     isAddress := isAddress w;
     getCode := getCode w;
     executeFlashLoan := executeFlashLoan w;
     randomHex := randomHex w |}.

(** The requests of the two legs for a wallet address: the buy leg at the
    loan amount, then, when the quote source answers, the sell leg at the
    floored output of the buy leg. *)
Definition routeRequests (w : ExecWorld) (opportunity : ArbitrageOpportunity)
    (wallet : string) : list SwapRequest :=
  let loanAmount :=
    parseUnits (flashLoanAmount opportunity) (decimals (tokenIn opportunity)) in
  let r1 := swapRequest (address (tokenIn opportunity))
              (address (tokenOut opportunity)) loanAmount wallet in
  match buildSwapTransaction w r1 with
  | inl _ => [r1]
  | inr buySwap =>
      [r1; swapRequest (address (tokenOut opportunity))
             (address (tokenIn opportunity))
             (Qfloor (SwapTx.toAmount buySwap)) wallet]
  end.

(** An opportunity with another timestamp and another net percent. *)
Definition aged (o : ArbitrageOpportunity) (t : Z) (net : Q) : ArbitrageOpportunity :=
  {| id := id o; tokenIn := tokenIn o; tokenOut := tokenOut o;
     buyDex := buyDex o; sellDex := sellDex o;
     buyPrice := buyPrice o; sellPrice := sellPrice o;
     profitPercent := profitPercent o; netProfitPercent := net;
     estimatedProfitUsd := estimatedProfitUsd o;
     flashLoanAmount := flashLoanAmount o;
     estimatedGasCostUsd := estimatedGasCostUsd o;
     flashLoanFeeUsd := flashLoanFeeUsd o;
     route := route o; timestamp := t; isValid := isValid o |}.

(** A real-mode attempt gets as far as route building when the stored
    configuration exists, real trading is enabled, the gas price is read
    and is within the ceiling, and the 1inch API key is set. *)
Definition reachesRouting (w : ExecWorld) : bool :=
  match storedConfig w with
  | None => false
  | Some c =>
      flag (BotConfig.enableRealTrading c) &&
      match currentGasGwei w with
      | None => false
      | Some gas => negb (js_gt gas (gasCeiling c))
      end &&
      truthy (trim <$> BotConfig.oneinchApiKey c)
  end.

(** A computation that sends no route-building request. *)
Definition quiet {A} (m : Exec A) : Prop := swapRequests (fst m) = [].

(** ** Example data *)

Module Sample.

Definition usdc : TokenMeta := {| metaSymbol := "USDC"; metaDecimals := 6 |}.
Definition usdt : TokenMeta := {| metaSymbol := "USDT"; metaDecimals := 6 |}.
Definition USDC : string := "0x2791Bca1f2de4661ED88A30C99A7a9449Aa84174".
Definition USDT : string := "0xc2132D05D31c914a87C6611C10748AEb04B58e8F".

(** Two venues quoting 1.000 and 1.012 for 10,000 units (6 decimals). *)
Definition quoteLow : DexQuote :=
  {| toAmount := 10000000000; fromAmount := 10000000000; dex := "1inch";
     fromToken := usdc; toToken := usdt |}.
Definition quoteHigh : DexQuote :=
  {| toAmount := 10120000000; fromAmount := 10000000000; dex := "SushiSwap";
     fromToken := usdc; toToken := usdt |}.

(** The default thresholds: gross 0.3 %, net 0.15 %, 1.50 USD, 60 Gwei. *)
Definition config : ScannerConfig :=
  {| minProfitPercent := 3 # 10; minNetProfitPercent := 15 # 100;
     minProfitUsd := 15 # 10; maxGasPriceGwei := 60; scanIntervalMs := 30000;
     tokenPairs := [(USDC, USDT)]; dexList := ["1inch"; "SushiSwap"] |}.

Definition t0 : Z := 1700000000000.

Definition readings : Fresh :=
  {| idNow := t0; idRand := "k3j9x0a1b"; stamp := t0 |}.

(** The candidate of the two quotes at gas cost 3 USD. *)
Definition candidate : ArbitrageOpportunity :=
  mkOpportunity USDC USDT 10000 3 readings quoteLow quoteHigh.

(** A cycle at 30 Gwei: two fulfilled quotes and one rejected, eviction
    five seconds after the candidate was stamped. *)
Definition world : ScanWorld :=
  {| gasPriceGwei := Some 30%Q; botConfig := None;
     settledQuotes := fun _ => [Some quoteLow; Some quoteHigh; None];
     fresh := fun _ _ _ => readings;
     evictNow := t0 + 5000;
     hasCallback := false; hasBroadcast := true |}.

(** What the cycle of [world] finds. *)
Definition found : ArbitrageOpportunity :=
  mkOpportunity USDC USDT 10000 (gasCostUsd 30) readings quoteLow quoteHigh.

(** The same cycle at 80 Gwei. *)
Definition expensiveWorld : ScanWorld :=
  {| gasPriceGwei := Some 80%Q; botConfig := None;
     settledQuotes := fun _ => [Some quoteLow; Some quoteHigh; None];
     fresh := fun _ _ _ => readings;
     evictNow := t0 + 5000;
     hasCallback := false; hasBroadcast := true |}.

(** The same cycle when 60.001 s pass between stamping and eviction. *)
Definition slowWorld : ScanWorld :=
  {| gasPriceGwei := Some 30%Q; botConfig := None;
     settledQuotes := fun _ => [Some quoteLow; Some quoteHigh; None];
     fresh := fun _ _ _ => readings;
     evictNow := t0 + 60001;
     hasCallback := false; hasBroadcast := true |}.

(** An entry found ten minutes before [t0]. *)
Definition oldEntry : ArbitrageOpportunity :=
  mkOpportunity USDC USDT 10000 3
    {| idNow := t0 - 600000; idRand := "zzzzzzzzz"; stamp := t0 - 600000 |}
    quoteLow quoteHigh.

Definition oldRegistry : gmap string ArbitrageOpportunity :=
  <[id oldEntry := oldEntry]> ∅.

(** The stored configuration with its defaults: simulation on, real
    trading off, no key. *)
Definition botCfg : BotConfig.t :=
  {| BotConfig.privateKey := None;
     BotConfig.enableRealTrading := Some false;
     BotConfig.useSimulation := Some true;
     BotConfig.networkMode := "mainnet";
     BotConfig.maxGasPriceGwei := Some 60;
     BotConfig.oneinchApiKey := None;
     BotConfig.flashLoanContract := None;
     BotConfig.flashLoanAmount := Some 10000;
     BotConfig.minProfitPercent := Some (3 # 10)%Q;
     BotConfig.minNetProfitPercent := Some (15 # 100)%Q;
     BotConfig.minNetProfitUsd := Some (15 # 10)%Q;
     BotConfig.scanInterval := Some 30;
     BotConfig.telegramProfitThresholdUsd := None |}.

Definition executor : string := "0x3dCBc8f5de99AAD6CA1b97674C582C7bA099ef58".
Definition contract : string := "0x794a61358D6845594F94dc1DB02A252b5b4814aD".

Definition builtSwap : SwapTx.t :=
  {| SwapTx.toAmount := 20239000001 # 2; SwapTx.dex := "1inch";
     SwapTx.tx := Some {| SwapTx.to := Some "0x1111111254EEB25477B68fb85Ed929f73A960582";
                          SwapTx.data := Some "0x12aa3caf" |} |}.

(** Collaborators that answer: gas at [gas] Gwei, a funded wallet for any
    32-byte key, a quote source that builds [builtSwap], a deployed contract. *)
Definition execWorldAt (cfg : BotConfig.t) (gas : Q) : ExecWorld :=
  {| storedConfig := Some cfg;
     envPrivateKey := None;
     envArbitrageContract := None;
     walletAddress := fun k =>
       if Nat.eqb (String.length k) 66 then Some executor else None;
     nativeBalance := fun _ _ => Some 5%Q;
     currentGasGwei := Some gas;
     buildSwapTransaction := fun _ => inr builtSwap;
     isAddress := fun _ => true;
     getCode := fun _ => Some "0x6080604052";
     executeFlashLoan := fun _ _ =>
       Some {| FlashLoanResult.success := true;
               FlashLoanResult.txHash := Some "0xfeed";
               FlashLoanResult.error := None |};
     randomHex := fun n =>
       match n with
       | O => "8a3f1c2b9d4e7"
       | _ => "c41d09ab37f12"
       end |}.

Definition execWorld : ExecWorld := execWorldAt botCfg 30.
Definition expensiveExecWorld : ExecWorld := execWorldAt botCfg 80.

(** A stored key of three characters, real trading left off. *)
Definition shortKeyCfg : BotConfig.t :=
  {| BotConfig.privateKey := Some "abc";
     BotConfig.enableRealTrading := Some false;
     BotConfig.useSimulation := Some false;
     BotConfig.networkMode := "mainnet";
     BotConfig.maxGasPriceGwei := Some 60;
     BotConfig.oneinchApiKey := None;
     BotConfig.flashLoanContract := None;
     BotConfig.flashLoanAmount := Some 10000;
     BotConfig.minProfitPercent := None;
     BotConfig.minNetProfitPercent := None;
     BotConfig.minNetProfitUsd := None;
     BotConfig.scanInterval := None;
     BotConfig.telegramProfitThresholdUsd := None |}.

Definition shortKeyWorld : ExecWorld := execWorldAt shortKeyCfg 30.

(** Real trading switched on. *)
Definition realCfg : BotConfig.t :=
  {| BotConfig.privateKey := None;
     BotConfig.enableRealTrading := Some true;
     BotConfig.useSimulation := Some false;
     BotConfig.networkMode := "mainnet";
     BotConfig.maxGasPriceGwei := Some 60;
     BotConfig.oneinchApiKey := Some "api-key";
     BotConfig.flashLoanContract := Some contract;
     BotConfig.flashLoanAmount := Some 10000;
     BotConfig.minProfitPercent := None;
     BotConfig.minNetProfitPercent := None;
     BotConfig.minNetProfitUsd := None;
     BotConfig.scanInterval := None;
     BotConfig.telegramProfitThresholdUsd := None |}.

Definition realWorld : ExecWorld := execWorldAt realCfg 30.

(** One 32-byte key written twice: in lower case without the prefix and
    padded with blanks, and in upper case with the prefix. *)
Definition keyLower : string :=
  "  4c0883a69102937d6231471b5dbb6204fe5129617082792ae468d01a3f362318 ".
Definition keyUpper : string :=
  "0x4C0883A69102937D6231471B5DBB6204FE5129617082792AE468D01A3F362318".
Definition keyLowerResolved : string :=
  "0x4c0883a69102937d6231471b5dbb6204fe5129617082792ae468d01a3f362318".

(** A stricter net threshold than the candidate's 1.12 %. *)
Definition strictCfg : BotConfig.t :=
  {| BotConfig.privateKey := None;
     BotConfig.enableRealTrading := Some false;
     BotConfig.useSimulation := Some true;
     BotConfig.networkMode := "mainnet";
     BotConfig.maxGasPriceGwei := Some 60;
     BotConfig.oneinchApiKey := None;
     BotConfig.flashLoanContract := None;
     BotConfig.flashLoanAmount := Some 10000;
     BotConfig.minProfitPercent := Some (3 # 10)%Q;
     BotConfig.minNetProfitPercent := Some 5%Q;
     BotConfig.minNetProfitUsd := Some (15 # 10)%Q;
     BotConfig.scanInterval := Some 30;
     BotConfig.telegramProfitThresholdUsd := None |}.

Definition strictWorld : ExecWorld := execWorldAt strictCfg 30.

End Sample.

(** * Further code *)

(** ** More readings of an executor trace *)

(** The transaction records written with
    [storage.createArbitrageTransaction]: hash and status, in order. *)
Fixpoint txRecords (t : list Event) : list (string * string) :=
  match t with
  | [] => []
  | EvCreateTransaction h s :: t' => (h, s) :: txRecords t'
  | _ :: t' => txRecords t'
  end.

(** The flash-loan invocations, with the key handed to the chain
    collaborator, in order. *)
Fixpoint flashLoans (t : list Event) : list (FlashLoanRequest * string) :=
  match t with
  | [] => []
  | EvFlashLoan r k :: t' => (r, k) :: flashLoans t'
  | _ :: t' => flashLoans t'
  end.

(** The calls of the balance step (lines 123-164): the balance read and
    the two entries the step can write. *)
Definition isBalanceStep (e : Event) : bool :=
  match e with
  | EvNativeBalance _ _ => true
  | EvLog _ _ step =>
      String.eqb step "3_balance_check" || String.eqb step "3_balance_check_failed"
  | _ => false
  end.

(** The trace without the calls of the balance step. *)
Definition offBalance (t : list Event) : list Event :=
  List.filter (fun e => negb (isBalanceStep e)) t.

(** The world [w] with another answer of [getNativeBalance]. *)
Definition withBalance (w : ExecWorld) (balance : string -> Z -> option Q)
    : ExecWorld :=
  {| storedConfig := storedConfig w;
     envPrivateKey := envPrivateKey w;
     envArbitrageContract := envArbitrageContract w;
     walletAddress := walletAddress w;
     nativeBalance := balance;
     currentGasGwei := currentGasGwei w;
     buildSwapTransaction := buildSwapTransaction w;
     isAddress := isAddress w;
     getCode := getCode w;
     executeFlashLoan := executeFlashLoan w;
     randomHex := randomHex w |}.

(** What follows the balance step in the [try] block. *)
Definition afterBalance (w : ExecWorld) (opportunity : ArbitrageOpportunity)
    (isSimulation : bool) (config : BotConfig.t) (privateKey : option string)
    : Exec TradeExecutionResult.t :=
  gasCheck w config ;;
  if isSimulation then simulationBranch w config opportunity
  else realBranch w config opportunity privateKey (chainIdOf config).

(** A computation that writes no transaction record. *)
Definition unrecorded {A} (m : Exec A) : Prop := txRecords (fst m) = [].

(** A computation that writes one record with [status] and the hash it
    returns when it succeeds, and none when it throws. *)
Definition recordsOutcome (status : string) (m : Exec TradeExecutionResult.t)
    : Prop :=
  match snd m with
  | inl _ => txRecords (fst m) = []
  | inr r =>
      TradeExecutionResult.success r = true /\
      TradeExecutionResult.error r = None /\
      exists h, TradeExecutionResult.txHash r = Some h /\
                txRecords (fst m) = [(h, status)]
  end.

(** A computation that invokes no flash loan. *)
Definition loanless {A} (m : Exec A) : Prop := flashLoans (fst m) = [].

(** The contract address the real branch resolves:
    [config.flashLoanContract || process.env.ARBITRAGE_CONTRACT]. *)
Definition contractAddress (w : ExecWorld) (config : BotConfig.t) : option string :=
  str_or (BotConfig.flashLoanContract config) (envArbitrageContract w).

(** The request object of the flash-loan call, lines 584-593. *)
Definition flashLoanRequest (opportunity : ArbitrageOpportunity)
    (contract : string) (buySwap sellSwap : SwapTx.t) : FlashLoanRequest :=
  let loanAmount :=
    parseUnits (flashLoanAmount opportunity) (decimals (tokenIn opportunity)) in
  {| assets := [address (tokenIn opportunity)];
     amounts := [loanAmount];
     receiverAddress := contract;
     params :=
       {| buyRouter := routerAddress buySwap (buyDex opportunity) contract;
          buyData := default "" (SwapTx.tx buySwap ≫= SwapTx.data);
          sellRouter := routerAddress sellSwap (sellDex opportunity) contract;
          sellData := default "" (SwapTx.tx sellSwap ≫= SwapTx.data);
          minProfit := Z.quot (loanAmount * 10) 10000 |} |}.

(** The conditions under which the real branch reaches the flash-loan
    call: real trading enabled, a well-formed key, gas within the ceiling,
    the API key set, both legs built by the quote source with call data,
    valid router addresses, and a contract address with deployed code. *)
Definition flashLoanGuards (w : ExecWorld) (opportunity : ArbitrageOpportunity)
    (c : BotConfig.t) (key contract : string) (buySwap sellSwap : SwapTx.t)
    : Prop :=
  storedConfig w = Some c /\
  flag (BotConfig.enableRealTrading c) = true /\
  resolvePrivateKey (BotConfig.privateKey c) (envPrivateKey w) = Some key /\
  String.length key = 66%nat /\
  (exists gas, currentGasGwei w = Some gas /\ js_gt gas (gasCeiling c) = false) /\
  truthy (trim <$> BotConfig.oneinchApiKey c) = true /\
  (exists wallet,
     walletAddress w key = Some wallet /\
     buildSwapTransaction w
       (swapRequest (address (tokenIn opportunity)) (address (tokenOut opportunity))
          (parseUnits (flashLoanAmount opportunity) (decimals (tokenIn opportunity)))
          wallet) = inr buySwap /\
     buildSwapTransaction w
       (swapRequest (address (tokenOut opportunity)) (address (tokenIn opportunity))
          (Qfloor (SwapTx.toAmount buySwap)) wallet) = inr sellSwap) /\
  contractAddress w c = Some contract /\
  contract <> "" /\
  isAddress w (routerAddress buySwap (buyDex opportunity) contract) = true /\
  isAddress w (routerAddress sellSwap (sellDex opportunity) contract) = true /\
  truthy (SwapTx.tx buySwap ≫= SwapTx.data) = true /\
  truthy (SwapTx.tx sellSwap ≫= SwapTx.data) = true /\
  (exists code, getCode w contract = Some code /\ code <> "0x" /\ code <> "0x0").

(** The world [w] with another quote source. *)
Definition withQuoteSource (w : ExecWorld)
    (build : SwapRequest -> string + SwapTx.t) : ExecWorld :=
  {| storedConfig := storedConfig w;
     envPrivateKey := envPrivateKey w;
     envArbitrageContract := envArbitrageContract w;
     walletAddress := walletAddress w;
     nativeBalance := nativeBalance w;
     currentGasGwei := currentGasGwei w;
     buildSwapTransaction := build;
     isAddress := isAddress w;
     getCode := getCode w;
     executeFlashLoan := executeFlashLoan w;
     randomHex := randomHex w |}.


(** [Sample.realWorld] with the key in the environment and a quote source
    that rejects every request. *)
Definition rejectingWorld : ExecWorld :=
  withQuoteSource (withKeys Sample.realWorld None (Some Sample.keyUpper))
    (fun _ => inl "insufficient liquidity"%string).
(** ** The scanner object ([OpportunityScanner], lines 47-121 and 483-516) *)

(** [Partial<ScannerConfig>]: a [None] is an absent key. *)
Module PartialConfig.
Record t := {
  minProfitPercent : option Q;
  minNetProfitPercent : option Q;
  minProfitUsd : option Q;
  maxGasPriceGwei : option Q;
  scanIntervalMs : option Z;
  tokenPairs : option (list (string * string));
  dexList : option (list string);
}.
Definition empty : t :=
  {| minProfitPercent := None; minNetProfitPercent := None; minProfitUsd := None;
     maxGasPriceGwei := None; scanIntervalMs := None; tokenPairs := None;
     dexList := None |}.
End PartialConfig.

(** What [setInterval] holds: the configuration and the callback captured
    by the closure of lines 96-98.  The period is [scanIntervalMs] of the
    captured configuration. *)
Record Timer := {
  timerConfig : ScannerConfig;
  timerOnFound : bool;
}.

(** The private fields of the class; [broadcastCallback] records whether
    a callback is set. *)
Record Scanner := {
  isScanning : bool;
  opportunities : gmap string ArbitrageOpportunity;
  scanInterval : option Timer;
  broadcastCallback : bool;
}.

Definition newScanner : Scanner :=
  {| isScanning := false; opportunities := ∅; scanInterval := None;
     broadcastCallback := false |}.

(** [getDefaultTokenPairs], over the [TOKENS] table of the quote-source
    module. *)
Definition getDefaultTokenPairs (TOKENS : string -> string)
    : list (string * string) :=
  [(TOKENS "USDC", TOKENS "USDT");
   (TOKENS "USDC", TOKENS "DAI");
   (TOKENS "WMATIC", TOKENS "USDC");
   (TOKENS "WETH", TOKENS "USDC");
   (TOKENS "WBTC", TOKENS "USDC");
   (TOKENS "USDT", TOKENS "DAI")].

(** The object literal of lines 69-78: stored values with their defaults,
    overridden by every key the caller passes. *)
Definition resolveConfig (bc : option BotConfig.t) (TOKENS : string -> string)
    (config : PartialConfig.t) : ScannerConfig :=
  {| minProfitPercent :=
       default (q_or (bc ≫= BotConfig.minProfitPercent) (3 # 10))
         (PartialConfig.minProfitPercent config);
     minNetProfitPercent :=
       default (q_or (bc ≫= BotConfig.minNetProfitPercent) (15 # 100))
         (PartialConfig.minNetProfitPercent config);
     minProfitUsd :=
       default (q_or (bc ≫= BotConfig.minNetProfitUsd) (15 # 10))
         (PartialConfig.minProfitUsd config);
     maxGasPriceGwei :=
       default (inject_Z (z_or (bc ≫= BotConfig.maxGasPriceGwei) 60))
         (PartialConfig.maxGasPriceGwei config);
     scanIntervalMs :=
       default (z_or (bc ≫= BotConfig.scanInterval) 30 * 1000)
         (PartialConfig.scanIntervalMs config);
     tokenPairs :=
       default (getDefaultTokenPairs TOKENS) (PartialConfig.tokenPairs config);
     dexList :=
       default ["1inch"; "QuickSwap"; "Uniswap V3"; "SushiSwap"]
         (PartialConfig.dexList config) |}.

(** The collaborators of a cycle as the scanner object sees them: the
    callback passed to [startScanning] and the broadcast callback of the
    object. *)
Definition listening (s : Scanner) (onFound : bool) (w : ScanWorld) : ScanWorld :=
  {| gasPriceGwei := gasPriceGwei w;
     botConfig := botConfig w;
     settledQuotes := settledQuotes w;
     fresh := fresh w;
     evictNow := evictNow w;
     hasCallback := onFound;
     hasBroadcast := broadcastCallback s |}.

(** [startScanning]: the scanner after the call and the collaborator
    calls made.  [w] answers for the initial scan. *)
Definition startScanning (s : Scanner) (w : ScanWorld) (TOKENS : string -> string)
    (config : PartialConfig.t) (onOpportunityFound : bool)
    : Scanner * list Event :=
  if isScanning s then (s, [])
  else
    let scannerConfig := resolveConfig (botConfig w) TOKENS config in
    let r := scan (listening s onOpportunityFound w) scannerConfig (opportunities s) in
    ({| isScanning := true;
        opportunities := fst r;
        scanInterval := Some {| timerConfig := scannerConfig;
                                timerOnFound := onOpportunityFound |};
        broadcastCallback := broadcastCallback s |},
     [EvGetBotConfig; EvLog "scanner" "success" ""] ++ snd r).

(** [stopScanning(userId?)] *)
Definition stopScanning (s : Scanner) (userId : option string)
    : Scanner * list Event :=
  ({| isScanning := false;
      opportunities := opportunities s;
      scanInterval := None;
      broadcastCallback := broadcastCallback s |},
   if truthy userId then [EvLog "scanner" "info" ""] else []).

(** One firing of the interval timer, lines 96-98; nothing fires once the
    timer is cleared. *)
Definition tick (s : Scanner) (w : ScanWorld) : Scanner * list Event :=
  match scanInterval s with
  | None => (s, [])
  | Some t =>
      let r := scan (listening s (timerOnFound t) w) (timerConfig t)
                 (opportunities s) in
      ({| isScanning := isScanning s;
          opportunities := fst r;
          scanInterval := scanInterval s;
          broadcastCallback := broadcastCallback s |},
       snd r)
  end.

Definition setBroadcastCallback (s : Scanner) : Scanner :=
  {| isScanning := isScanning s;
     opportunities := opportunities s;
     scanInterval := scanInterval s;
     broadcastCallback := true |}.

Definition isRunning (s : Scanner) : bool := isScanning s.

(** *** The scanner routes ([routes.ts], lines 682-783) *)

(** [POST /api/scanner/start]: the status code with the scanner and the
    calls it made. *)
Definition apiScannerStart (s : Scanner) (w : ScanWorld)
    (TOKENS : string -> string) (body : option PartialConfig.t)
    : Z * Scanner * list Event :=
  if isRunning s then (400, s, [])
  else
    let config := default PartialConfig.empty body in
    let r := startScanning (setBroadcastCallback s) w TOKENS config false in
    (200, fst r, snd r).

(** [POST /api/scanner/stop] calls [stopScanning()] without a user id. *)
Definition apiScannerStop (s : Scanner) : Z * Scanner * list Event :=
  let r := stopScanning s None in (200, fst r, snd r).

Record ScannerStatus := {
  statusIsRunning : bool;
  opportunityCount : nat;
  statusOpportunities : list ArbitrageOpportunity;
}.

(** [GET /api/scanner/status]: the first five opportunities. *)
Definition apiScannerStatus (s : Scanner) : ScannerStatus :=
  let opps := getOpportunities (opportunities s) in
  {| statusIsRunning := isRunning s;
     opportunityCount := length opps;
     statusOpportunities := take 5 opps |}.

(** A call on the scanner object, made from outside or by the timer. *)
Inductive ScannerCall :=
| CallStart (w : ScanWorld) (config : PartialConfig.t) (onFound : bool)
| CallStop (userId : option string)
| CallTick (w : ScanWorld)
| CallSetBroadcast.

Definition call (TOKENS : string -> string) (s : Scanner) (c : ScannerCall)
    : Scanner :=
  match c with
  | CallStart w config onFound => fst (startScanning s w TOKENS config onFound)
  | CallStop userId => fst (stopScanning s userId)
  | CallTick w => fst (tick s w)
  | CallSetBroadcast => setBroadcastCallback s
  end.

(** The scanner after a sequence of calls, each run to completion before
    the next. *)
Definition calls (TOKENS : string -> string) (s : Scanner)
    (cs : list ScannerCall) : Scanner :=
  fold_left (call TOKENS) cs s.

(** Every entry of the Registry has [isValid = true]. *)
Definition allValid (reg : gmap string ArbitrageOpportunity) : Prop :=
  forall i o, reg !! i = Some o -> isValid o = true.

(** The opportunities sent to the broadcast callback, in order. *)
Fixpoint broadcasts (t : list Event) : list ArbitrageOpportunity :=
  match t with
  | [] => []
  | EvBroadcast o :: t' => o :: broadcasts t'
  | _ :: t' => broadcasts t'
  end.

(** The running flag agrees with the timer, and the Registry is keyed by
    id with every entry valid. *)
Definition coherent (s : Scanner) : Prop :=
  (isScanning s = true <-> is_Some (scanInterval s)) /\
  keyed (opportunities s) /\
  allValid (opportunities s).


(** A request body that names one token pair. *)
Definition onePair : PartialConfig.t :=
  {| PartialConfig.minProfitPercent := None;
     PartialConfig.minNetProfitPercent := None;
     PartialConfig.minProfitUsd := None;
     PartialConfig.maxGasPriceGwei := None;
     PartialConfig.scanIntervalMs := None;
     PartialConfig.tokenPairs := Some [(Sample.USDC, Sample.USDT)];
     PartialConfig.dexList := None |}.
(** ** The execution contract ([contracts/ArbitrageExecutor.sol]) *)

Module ArbitrageExecutor.

(** An [address] is a 160-bit value and a [uint256] a 256-bit one, both
    carried by [Z]; [bytes] are byte strings. *)
Definition MAX_UINT256 : Z := 2 ^ 256 - 1.

Record SwapParams := {
  router : Z;
  callData : string;
}.

Record ArbitrageParams := {
  buySwap : SwapParams;
  sellSwap : SwapParams;
  minProfit : Z;
}.

(** The storage of the contract: the owner kept by [Ownable], the
    [approvedExecutors] mapping (an absent key reads [false]) and
    [totalProfits]. *)
Record State := {
  owner : Z;
  approvedExecutors : gmap Z bool;
  totalProfits : Z;
}.

(** What a transaction does outside the contract's storage: calls to
    other contracts and emitted events, in order.  [CallRouter] is the
    low-level [router.call(callData)]: target and payload come from the
    caller's parameters, so it can be any call, a transfer or an approval
    of the contract's tokens included. *)
Inductive Effect :=
| CallBalanceOf (token : Z)
| CallApprove (token spender amount : Z)
| CallRouter (router : Z) (callData : string)
| CallFlashLoanSimple (receiver asset amount : Z) (params : string) (referral : Z)
| CallTransfer (token recipient amount : Z)
| SendNative (recipient amount : Z)
| EmitArbitrageExecuted (token amount profit executor : Z)
| EmitEmergencyWithdraw (token amount recipient : Z).

(** Why a call reverts: a [require] message, the [onlyOwner] error of
    [Ownable], an arithmetic panic, a failing [abi.decode], or a revert
    inside a called contract. *)
Inductive Failure :=
| Reason (message : string)
| OwnableUnauthorizedAccount (account : Z)
| Panic
| DecodeFailed
| CalleeReverted.

Inductive Outcome (A : Type) :=
| Revert (f : Failure)
| Done (a : A).
Arguments Revert {A} f.
Arguments Done {A} a.

(** The chain around one transaction: the contract's own address, the
    Aave pool, and the answers of the contracts it calls.  The called
    contracts do not call back into this one, the pool's callback apart. *)
Record Env := {
  this : Z;
  POOL : Z;
  (** the n-th [balanceOf(address(this))] of the transaction *)
  balanceOf : nat -> Z -> Z;
  (** the n-th low-level [router.call(callData)]: success flag and data *)
  routerCall : nat -> Z -> string -> bool * string;
  (** [abi.decode(params, (ArbitrageParams))]; [None] when it reverts *)
  abiDecode : string -> option ArbitrageParams;
  (** [abi.decode] of return data past its selector, as a string *)
  revertString : string -> option string;
  (** the pool's premium for a loan; [None] when the pool refuses it *)
  flashLoanPremium : Z -> Z -> option Z;
  (** whether the pool collects the repayment after the callback *)
  poolRepaid : bool;
  (** whether the message of a [require] is computed when its condition
      holds *)
  evaluatesMessage : bool;
}.

Definition approved (st : State) (account : Z) : bool :=
  default false (approvedExecutors st !! account).

(** [_getRevertMsg] *)
Definition _getRevertMsg (env : Env) (_returnData : string) : option string :=
  if Nat.ltb (String.length _returnData) 68
  then Some "Transaction reverted silently"
  else revertString env _returnData.

(** The low-level call and the [require] that follows it.  Computing the
    message runs [_getRevertMsg], whose [abi.decode] may revert. *)
Definition requireSwapSucceeded (env : Env) (answer : bool * string)
    : Outcome unit :=
  if fst answer && negb (evaluatesMessage env) then Done tt
  else
    match _getRevertMsg env (snd answer) with
    | None => Revert DecodeFailed
    | Some message =>
        if fst answer then Done tt
        else Revert (Reason ("Swap failed: " ++ message)%string)
    end.

(** [_executeSwap]: the effects it adds, or a revert. *)
Definition _executeSwap (env : Env) (tokenIn amountIn : Z) (swapParams : SwapParams)
    : Outcome (list Effect) :=
  if negb (Z.ltb 0 amountIn) then Revert (Reason "Invalid swap amount")
  else
    match requireSwapSucceeded env
            (routerCall env 0 (router swapParams) (callData swapParams)) with
    | Revert f => Revert f
    | Done _ =>
        Done [CallApprove tokenIn (router swapParams) 0;
              CallApprove tokenIn (router swapParams) amountIn;
              CallRouter (router swapParams) (callData swapParams)]
    end.

(** [_executeSwapWithMaxBalance] *)
Definition _executeSwapWithMaxBalance (env : Env) (swapParams : SwapParams)
    : Outcome (list Effect) :=
  match requireSwapSucceeded env
          (routerCall env 1 (router swapParams) (callData swapParams)) with
  | Revert f => Revert f
  | Done _ => Done [CallRouter (router swapParams) (callData swapParams)]
  end.

(** Checked [uint256] addition. *)
Definition checkedAdd (a b : Z) : option Z :=
  if Z.leb (a + b) MAX_UINT256 then Some (a + b) else None.

(** [executeOperation], as called by [sender]. *)
Definition executeOperation (env : Env) (st : State) (sender : Z)
    (asset amount premium initiator : Z) (params : string)
    : Outcome (State * list Effect) :=
  if negb (Z.eqb sender (POOL env)) then Revert (Reason "Caller must be Pool")
  else if negb (Z.eqb initiator (this env))
  then Revert (Reason "Initiator must be this contract")
  else
    match abiDecode env params with
    | None => Revert DecodeFailed
    | Some arbParams =>
        match _executeSwap env asset amount (buySwap arbParams) with
        | Revert f => Revert f
        | Done buyEffects =>
            match _executeSwapWithMaxBalance env (sellSwap arbParams) with
            | Revert f => Revert f
            | Done sellEffects =>
                let balanceAfter := balanceOf env 1 asset in
                match checkedAdd amount premium with
                | None => Revert Panic
                | Some totalRepayment =>
                    if negb (Z.leb totalRepayment balanceAfter)
                    then Revert (Reason "Insufficient balance to repay loan")
                    else
                      let profit := balanceAfter - totalRepayment in
                      if negb (Z.leb (minProfit arbParams) profit)
                      then Revert (Reason "Profit below minimum threshold")
                      else
                        match checkedAdd (totalProfits st) profit with
                        | None => Revert Panic
                        | Some total =>
                            Done ({| owner := owner st;
                                     approvedExecutors := approvedExecutors st;
                                     totalProfits := total |},
                                  [CallBalanceOf asset]
                                  ++ buyEffects ++ sellEffects
                                  ++ [CallBalanceOf asset;
                                      CallApprove asset (POOL env) totalRepayment;
                                      EmitArbitrageExecuted asset amount profit
                                        initiator])
                        end
                end
            end
        end
    end.

(** [executeArbitrage], as called by [sender].  The pool, when it grants
    the loan, calls [executeOperation] back with itself as caller and this
    contract as initiator, and collects the repayment afterwards. *)
Definition executeArbitrage (env : Env) (st : State) (sender : Z)
    (asset amount : Z) (params : string) : Outcome (State * list Effect) :=
  if negb (approved st sender || Z.eqb sender (owner st))
  then Revert (Reason "Not authorized")
  else
    match flashLoanPremium env asset amount with
    | None => Revert CalleeReverted
    | Some premium =>
        match executeOperation env st (POOL env) asset amount premium
                (this env) params with
        | Revert f => Revert f
        | Done (st', effects) =>
            if poolRepaid env
            then Done (st',
                       CallFlashLoanSimple (this env) asset amount params 0
                       :: effects)
            else Revert CalleeReverted
        end
    end.

Definition onlyOwner {A} (st : State) (sender : Z) (body : Outcome A) : Outcome A :=
  if Z.eqb sender (owner st) then body
  else Revert (OwnableUnauthorizedAccount sender).

Definition setApproval (st : State) (executor : Z) (b : bool) : State :=
  {| owner := owner st;
     approvedExecutors := <[executor := b]> (approvedExecutors st);
     totalProfits := totalProfits st |}.

Definition addExecutor (st : State) (sender executor : Z)
    : Outcome (State * list Effect) :=
  onlyOwner st sender (Done (setApproval st executor true, [])).

Definition removeExecutor (st : State) (sender executor : Z)
    : Outcome (State * list Effect) :=
  onlyOwner st sender (Done (setApproval st executor false, [])).

(** [emergencyWithdraw]; the transfers are taken to succeed. *)
Definition emergencyWithdraw (st : State) (sender token amount : Z)
    : Outcome (State * list Effect) :=
  onlyOwner st sender
    (Done (st,
           [if Z.eqb token 0 then SendNative (owner st) amount
            else CallTransfer token (owner st) amount;
            EmitEmergencyWithdraw token amount (owner st)])).

(** [withdrawProfits] *)
Definition withdrawProfits (env : Env) (st : State) (sender token : Z)
    : Outcome (State * list Effect) :=
  onlyOwner st sender
    (let balance := balanceOf env 0 token in
     if negb (Z.ltb 0 balance) then Revert (Reason "No profits to withdraw")
     else Done (st, [CallBalanceOf token; CallTransfer token (owner st) balance])).

(** The state-changing entry points this file declares; those inherited
    from [Ownable] are not among them. *)
Inductive Tx :=
| TxExecuteArbitrage (asset amount : Z) (params : string)
| TxExecuteOperation (asset amount premium initiator : Z) (params : string)
| TxAddExecutor (executor : Z)
| TxRemoveExecutor (executor : Z)
| TxEmergencyWithdraw (token amount : Z)
| TxWithdrawProfits (token : Z).

Definition transact (env : Env) (st : State) (sender : Z) (tx : Tx)
    : Outcome (State * list Effect) :=
  match tx with
  | TxExecuteArbitrage asset amount params =>
      executeArbitrage env st sender asset amount params
  | TxExecuteOperation asset amount premium initiator params =>
      executeOperation env st sender asset amount premium initiator params
  | TxAddExecutor executor => addExecutor st sender executor
  | TxRemoveExecutor executor => removeExecutor st sender executor
  | TxEmergencyWithdraw token amount => emergencyWithdraw st sender token amount
  | TxWithdrawProfits token => withdrawProfits env st sender token
  end.

(** The storage after a transaction: a revert leaves it as it was. *)
Definition after (env : Env) (st : State) (sender : Z) (tx : Tx) : State :=
  match transact env st sender tx with
  | Done (st', _) => st'
  | Revert _ => st
  end.

(** The effects of a transaction that is not reverted. *)
Definition effectsOf (env : Env) (st : State) (sender : Z) (tx : Tx)
    : list Effect :=
  match transact env st sender tx with
  | Done (_, effects) => effects
  | Revert _ => []
  end.

(** The storage after a sequence of transactions, each with its own
    chain answers and sender. *)
Fixpoint run (st : State) (txs : list (Env * Z * Tx)) : State :=
  match txs with
  | [] => st
  | (env, sender, tx) :: txs' => run (after env st sender tx) txs'
  end.

(** Who passes the [require] of [executeArbitrage]. *)
Definition mayExecute (st : State) (account : Z) : bool :=
  approved st account || Z.eqb account (owner st).

(** The recipient of a transfer or payment the contract makes itself. *)
Definition recipientOf (e : Effect) : option Z :=
  match e with
  | CallTransfer _ recipient _ => Some recipient
  | SendNative recipient _ => Some recipient
  | _ => None
  end.

(** A chain on which an arbitrage with a loan of 1000 and a premium of 1
    ends with a balance of 1010. *)
Definition sampleParams : ArbitrageParams :=
  {| buySwap := {| router := 21; callData := "buy" |};
     sellSwap := {| router := 22; callData := "sell" |};
     minProfit := 5 |}.

Definition sampleEnv : Env :=
  {| this := 100; POOL := 200;
     balanceOf := fun n _ => match n with O => 0 | _ => 1010 end;
     routerCall := fun _ _ _ => (true, "");
     abiDecode := fun _ => Some sampleParams;
     revertString := fun _ => None;
     flashLoanPremium := fun _ _ => Some 1;
     poolRepaid := true;
     evaluatesMessage := true |}.

Definition sampleState : State :=
  {| owner := 7; approvedExecutors := {[ 9 := true ]}; totalProfits := 40 |}.

End ArbitrageExecutor.


(** ** Executor authorization ([server/contractAuthorization.ts] and its
    routes) *)

Module Authorization.

(** The columns of the stored configuration this module reads. *)
Record Config := {
  privateKey : option string;
  flashLoanContract : option string;
  networkMode : string;
  polygonRpcUrl : option string;
  polygonTestnetRpcUrl : option string;
}.

Record AuthorizationResult := {
  success : bool;
  message : string;
  txHash : option string;
  error : option string;
}.

Module Status.
Record t := {
  isAuthorized : bool;
  contractOwner : option string;
  error : option string;
}.
End Status.

(** The calls that leave the process, and the console. *)
Inductive Call :=
| GetBotConfig
| GetBalance (rpcUrl address : string)
| GetCode (rpcUrl address : string)
| ReadOwner (rpcUrl contract : string)
| ReadApprovedExecutors (rpcUrl contract executor : string)
| SendAddExecutor (rpcUrl contract key executor : string) (gasLimit : Z)
| WaitForReceipt (hash : string)
| ConsoleError (message : string).

(** What the outside answers; [inl m] is a rejection whose [Error] has
    the message [m]. *)
Record Chain := {
  storedConfig : option Config;
  (** [new ethers.Wallet(key, provider).address] *)
  walletAddress : string -> string + string;
  getBalance : string -> string -> string + Z;
  getCode : string -> string -> string + string;
  (** [contract.owner()] *)
  readOwner : string -> string -> string + string;
  (** the n-th [contract.approvedExecutors(executor)] of the call *)
  readApprovedExecutors : nat -> string -> string -> string -> string + bool;
  (** [contract.addExecutor(executor, { gasLimit })]: the hash of the
      transaction sent *)
  sendAddExecutor : string -> string -> string -> string -> string + string;
  (** [tx.wait()] *)
  waitForReceipt : string -> string + unit;
  (** the engine's message for a property read on a missing object *)
  nullReadMessage : string;
}.

(** Calls made so far, and a value or the message of a thrown [Error]. *)
Definition M (A : Type) : Type := list Call * (string + A).

Definition pure {A} (a : A) : M A := ([], inr a).

Definition andThen {A B} (m : M A) (k : A -> M B) : M B :=
  match m with
  | (calls, inl message) => (calls, inl message)
  | (calls, inr a) => let (calls', b) := k a in (calls ++ calls', b)
  end.

Definition raise {A} (message : string) : M A := ([], inl message).

Definition request {A} (c : Call) (answer : string + A) : M A := ([c], answer).

Definition catch {A} (m : M A) (handler : string -> M A) : M A :=
  match m with
  | (calls, inl message) =>
      let (calls', a) := handler message in (calls ++ calls', a)
  | (calls, inr a) => (calls, inr a)
  end.

Declare Scope auth_scope.
Delimit Scope auth_scope with auth.
Notation "x <- m ;; k" := (andThen m (fun x => k))
  (at level 100, m at next level, right associativity) : auth_scope.
Local Open Scope auth_scope.

(** [String.prototype.toLowerCase] on ASCII text. *)
Definition lower (c : ascii) : ascii :=
  let n := nat_of_ascii c in
  if (Nat.leb 65 n && Nat.leb n 90)%bool then ascii_of_nat (n + 32) else c.

Fixpoint toLowerCase (s : string) : string :=
  match s with
  | EmptyString => EmptyString
  | String c s' => String (lower c) (toLowerCase s')
  end.

(** [config.networkMode === 'mainnet' ? config.polygonRpcUrl :
    config.polygonTestnetRpcUrl] *)
Definition rpcUrlOf (config : Config) : option string :=
  if String.eqb (networkMode config) "mainnet" then polygonRpcUrl config
  else polygonTestnetRpcUrl config.

Definition text (s : option string) : string := default ""%string s.

(** [ethers.parseEther('0.01')] *)
Definition minimumBalance : Z := 10 ^ 16.

Definition failed (message error : string) (txHash : option string)
    : AuthorizationResult :=
  {| success := false; message := message; txHash := txHash;
     error := Some error |}.

Definition succeeded (message : string) (txHash : option string)
    : AuthorizationResult :=
  {| success := true; message := message; txHash := txHash; error := None |}.

(** [getWalletInfo]: the address of the configured wallet. *)
Definition getWalletInfo (w : Chain) : M string :=
  config <- request GetBotConfig (inr (storedConfig w)) ;;
  match config with
  | Some config =>
      if negb (truthy (privateKey config))
      then raise "Private key не настроен в конфигурации"
      else if negb (truthy (rpcUrlOf config))
      then raise "RPC URL не настроен"
      else ([], walletAddress w (text (privateKey config)))
  | None => raise "Private key не настроен в конфигурации"
  end.

(** [authorizeExecutor] *)
Definition authorizeExecutor (w : Chain) (executorAddress : string)
    : M AuthorizationResult :=
  catch
    (config <- request GetBotConfig (inr (storedConfig w)) ;;
     match config with
     | None => raise (nullReadMessage w)
     | Some config =>
         if negb (truthy (privateKey config))
         then pure (failed "Private key не настроен" "PRIVATE_KEY_MISSING" None)
         else if negb (truthy (flashLoanContract config))
         then pure (failed "Адрес контракта ArbitrageExecutor не настроен"
                      "CONTRACT_ADDRESS_MISSING" None)
         else if negb (truthy (rpcUrlOf config))
         then pure (failed "RPC URL не настроен" "RPC_URL_MISSING" None)
         else
           let rpcUrl := text (rpcUrlOf config) in
           let key := text (privateKey config) in
           let contract := text (flashLoanContract config) in
           signer <- ([], walletAddress w key) ;;
           balance <- request (GetBalance rpcUrl signer)
                        (getBalance w rpcUrl signer) ;;
           if Z.ltb balance minimumBalance
           then pure (failed
                        ("Недостаточно "
                         ++ (if String.eqb (networkMode config) "mainnet"
                             then "MATIC" else "tMATIC")
                         ++ " для оплаты газа (минимум 0.01)")
                        "INSUFFICIENT_BALANCE" None)
           else
             contractOwner <- request (ReadOwner rpcUrl contract)
                                (readOwner w rpcUrl contract) ;;
             if negb (String.eqb (toLowerCase contractOwner) (toLowerCase signer))
             then pure (failed ("Вы не owner контракта. Owner: " ++ contractOwner)
                          "NOT_OWNER" None)
             else
               isApproved <- request
                               (ReadApprovedExecutors rpcUrl contract executorAddress)
                               (readApprovedExecutors w 0 rpcUrl contract
                                  executorAddress) ;;
               if (isApproved : bool)
               then pure (succeeded "Executor уже авторизован" None)
               else
                 tx <- request
                         (SendAddExecutor rpcUrl contract key executorAddress 100000)
                         (sendAddExecutor w rpcUrl contract key executorAddress) ;;
                 _ <- request (WaitForReceipt tx) (waitForReceipt w tx) ;;
                 isNowApproved <- request
                                    (ReadApprovedExecutors rpcUrl contract
                                       executorAddress)
                                    (readApprovedExecutors w 1 rpcUrl contract
                                       executorAddress) ;;
                 if (isNowApproved : bool)
                 then pure (succeeded "Executor успешно авторизован" (Some tx))
                 else pure (failed "Транзакция выполнена, но статус не изменился"
                              "AUTHORIZATION_FAILED" (Some tx))
     end)
    (fun thrown =>
       _ <- request (ConsoleError thrown) (inr tt) ;;
       pure (failed (if String.eqb thrown "" then "Ошибка авторизации" else thrown)
               "UNKNOWN_ERROR" None)).

Definition unauthorized (error : string) : Status.t :=
  {| Status.isAuthorized := false; Status.contractOwner := None;
     Status.error := Some error |}.

(** [checkExecutorStatus]; [Promise.all] starts both reads before it
    awaits either. *)
Definition checkExecutorStatus (w : Chain) (executorAddress : string)
    : M Status.t :=
  catch
    (config <- request GetBotConfig (inr (storedConfig w)) ;;
     if negb (truthy (config ≫= flashLoanContract))
     then pure (unauthorized "CONTRACT_ADDRESS_MISSING")
     else
       let rpcUrl := config ≫= rpcUrlOf in
       if negb (truthy rpcUrl)
       then pure (unauthorized "RPC_URL_MISSING")
       else
         let contract := text (config ≫= flashLoanContract) in
         code <- request (GetCode (text rpcUrl) contract)
                   (getCode w (text rpcUrl) contract) ;;
         if String.eqb code "0x"
         then pure (unauthorized
                      ("CONTRACT_NOT_DEPLOYED: Контракт " ++ contract
                       ++ " не развернут на "
                       ++ (if String.eqb (text (networkMode <$> config)) "mainnet"
                           then "Polygon Mainnet" else "Polygon Amoy Testnet")
                       ++ ". Проверьте адрес контракта и выбранную сеть."))
         else
           catch
             (let reads :=
                [ReadApprovedExecutors (text rpcUrl) contract executorAddress;
                 ReadOwner (text rpcUrl) contract] in
              match readApprovedExecutors w 0 (text rpcUrl) contract executorAddress,
                    readOwner w (text rpcUrl) contract with
              | inr isAuthorized, inr contractOwner =>
                  (reads, inr {| Status.isAuthorized := isAuthorized;
                                 Status.contractOwner := Some contractOwner;
                                 Status.error := None |})
              | inl thrown, _ => (reads, inl thrown)
              | _, inl thrown => (reads, inl thrown)
              end)
             (fun _ =>
                pure (unauthorized
                        "CONTRACT_ABI_MISMATCH: Контракт найден, но не отвечает на вызовы. Возможно, это не контракт ArbitrageExecutor или используется устаревшая версия.")))
    (fun thrown =>
       _ <- request (ConsoleError thrown) (inr tt) ;;
       pure (unauthorized ("NETWORK_ERROR: " ++ thrown))).

(** *** The authorization route ([server/routes.ts], lines 1221-1280) *)

(** [POST /api/contract/authorize-executor] *)
Definition apiAuthorizeExecutor (w : Chain)
    : list Call * (Z * AuthorizationResult) :=
  match
    catch
      (address <- getWalletInfo w ;;
       result <- authorizeExecutor w address ;;
       pure (if success result then 200 else 400, result))
      (fun thrown =>
         _ <- request (ConsoleError thrown) (inr tt) ;;
         pure (500, failed thrown "UNKNOWN_ERROR" None))
  with
  | (calls, inr response) => (calls, response)
  | (calls, inl thrown) => (calls, (500, failed thrown "UNKNOWN_ERROR" None))
  end.

(** *** Reading the trace *)

Definition isSend (c : Call) : bool :=
  match c with
  | SendAddExecutor _ _ _ _ _ => true
  | _ => false
  end.

(** The transactions a run has sent. *)
Definition sent (calls : list Call) : list Call := List.filter isSend calls.

(** *** Addresses

    The account an address string denotes: [0x] and forty hexadecimal
    digits of either case. *)
Definition hexValue (c : ascii) : option Z :=
  let n := nat_of_ascii c in
  if (Nat.leb 48 n && Nat.leb n 57)%bool then Some (Z.of_nat n - 48)
  else if (Nat.leb 97 n && Nat.leb n 102)%bool then Some (Z.of_nat n - 87)
  else if (Nat.leb 65 n && Nat.leb n 70)%bool then Some (Z.of_nat n - 55)
  else None.

Fixpoint hexNumber (acc : Z) (s : string) : option Z :=
  match s with
  | EmptyString => Some acc
  | String c s' =>
      match hexValue c with
      | Some d => hexNumber (16 * acc + d) s'
      | None => None
      end
  end.

Definition addressOf (s : string) : option Z :=
  match s with
  | String "0" (String "x" digits) =>
      if Nat.eqb (String.length digits) 40 then hexNumber 0 digits else None
  | _ => None
  end.

(** The chain answers the reads of [contract] truthfully for a contract in
    state [st]. *)
Definition reads (w : Chain) (st : ArbitrageExecutor.State) : Prop :=
  forall rpcUrl contract,
    (forall o, readOwner w rpcUrl contract = inr o ->
       addressOf o = Some (ArbitrageExecutor.owner st)) /\
    (forall executor b account,
       readApprovedExecutors w 0 rpcUrl contract executor = inr b ->
       addressOf executor = Some account ->
       b = ArbitrageExecutor.approved st account).

(** *** A sample deployment *)

Definition ownerKey : string :=
  "0x1111111111111111111111111111111111111111111111111111111111111111".
Definition ownerAddress : string := "0x00000000000000000000000000000000000000Ab".
Definition contractAt : string := "0x00000000000000000000000000000000000000c0".

Definition sampleConfig : Config :=
  {| privateKey := Some ownerKey;
     flashLoanContract := Some contractAt;
     networkMode := "testnet";
     polygonRpcUrl := None;
     polygonTestnetRpcUrl := Some "https://rpc.example" |}.

(** The owner's wallet holds 1 MATIC and is not in the mapping yet; the
    transaction is mined and the second read sees it. *)
Definition sampleChain : Chain :=
  {| storedConfig := Some sampleConfig;
     walletAddress := fun _ => inr ownerAddress;
     getBalance := fun _ _ => inr (10 ^ 18);
     getCode := fun _ _ => inr "0x6080";
     readOwner := fun _ _ => inr "0x00000000000000000000000000000000000000ab";
     readApprovedExecutors := fun n _ _ _ =>
       inr (match n with O => false | _ => true end);
     sendAddExecutor := fun _ _ _ _ => inr "0xfeed";
     waitForReceipt := fun _ => inr tt;
     nullReadMessage := "Cannot read properties of undefined" |}.

Definition sampleContract : ArbitrageExecutor.State :=
  {| ArbitrageExecutor.owner := 171;
     ArbitrageExecutor.approvedExecutors := ∅;
     ArbitrageExecutor.totalProfits := 0 |}.

End Authorization.

(** ** The simulated venues ([simulateSecondDexQuote] and
    [simulateThirdDexQuote], lines 449-481) *)

(** [parseFloat(x.toFixed(6))]: the nearest multiple of 10^-6, the one
    larger in magnitude on a tie; from 10^21 on [toFixed] prints the
    number in full. *)
Definition toFixed6 (x : Q) : Q :=
  if Qle_bool (inject_Z (10 ^ 21)) (Qabs x) then x
  else if Qle_bool 0 x
       then (inject_Z (Qfloor (x * inject_Z (10 ^ 6) + (1 # 2)))
             / inject_Z (10 ^ 6))%Q
       else (- (inject_Z (Qfloor (- x * inject_Z (10 ^ 6) + (1 # 2)))
                / inject_Z (10 ^ 6)))%Q.

(** [{ ...baseQuote, toAmount, dex }] *)
Definition adjusted (baseQuote : DexQuote) (adjustedToAmount : Q) (label : string)
    : DexQuote :=
  {| toAmount := adjustedToAmount;
     fromAmount := fromAmount baseQuote;
     dex := label;
     fromToken := fromToken baseQuote;
     toToken := toToken baseQuote |}.

(** [simulateSecondDexQuote]: [baseQuote] is the settled answer of its own
    [getQuote] call, [random n] the n-th reading of [Math.random()] the
    call consumes.  A rejected base quote rejects the call.  The deviation
    and the product are exact here; the program rounds each operation to a
    double, which moves the product by less than one part in 10^15. *)
Definition simulateSecondDexQuote (baseQuote : option DexQuote)
    (random : nat -> Q) : option DexQuote :=
  match baseQuote with
  | None => None
  | Some q =>
      let priceDeviation :=
        (1 + (random 0%nat * (15 # 1000) + (5 # 1000))
             * (if js_gt (random 1%nat) (1 # 2) then 1 else -1))%Q in
      let adjustedToAmount := toFixed6 (toAmount q * priceDeviation) in
      Some (adjusted q adjustedToAmount
              (if js_gt (random 2%nat) (1 # 2) then "SushiSwap" else "Uniswap V3"))
  end.

(** [simulateThirdDexQuote] *)
Definition simulateThirdDexQuote (baseQuote : option DexQuote)
    (random : nat -> Q) : option DexQuote :=
  match baseQuote with
  | None => None
  | Some q =>
      let priceDeviation :=
        (1 + (random 0%nat * (12 # 1000) + (3 # 1000))
             * (if js_gt (random 1%nat) (1 # 2) then 1 else -1))%Q in
      let adjustedToAmount := toFixed6 (toAmount q * priceDeviation) in
      Some (adjusted q adjustedToAmount
              (if js_gt (random 2%nat) (1 # 2) then "Balancer" else "Curve"))
  end.

(** The three promises of [scanTokenPair], lines 337-358, settled:
    [getQuote n] answers the n-th call to the quote source and each
    simulated venue reads [Math.random()] on its own. *)
Definition dexQuotes (getQuote : nat -> option DexQuote)
    (random2 random3 : nat -> Q) : list (option DexQuote) :=
  [getQuote 0%nat;
   simulateSecondDexQuote (getQuote 1%nat) random2;
   simulateThirdDexQuote (getQuote 2%nat) random3].

(** The thresholds of a scanner started without stored configuration and
    without overrides. *)
Definition defaultThresholds (config : ScannerConfig) : Prop :=
  (minProfitPercent config == 3 # 10)%Q /\
  (minNetProfitPercent config == 15 # 100)%Q /\
  (minProfitUsd config == 15 # 10)%Q.

(** [Sample.world] with the quotes of a pair produced as the source does:
    the quote source answers [Sample.quoteLow] each time and
    [Math.random()] returns 0. *)
Definition simulatedWorld : ScanWorld :=
  {| gasPriceGwei := Some 30%Q; botConfig := None;
     settledQuotes := fun _ =>
       dexQuotes (fun _ => Some Sample.quoteLow) (fun _ => 0%Q) (fun _ => 0%Q);
     fresh := fun _ _ _ => Sample.readings;
     evictNow := Sample.t0 + 5000;
     hasCallback := false; hasBroadcast := true |}.

Local Close Scope exec_scope.

(** * Properties *)

(** ** Numeric comparisons *)

Lemma js_ge_iff a b : js_ge a b = true <-> (b <= a)%Q.
Proof. unfold js_ge. apply Qle_bool_iff. Qed.

Lemma js_lt_iff a b : js_lt a b = true <-> (a < b)%Q.
Proof.
  unfold js_lt. rewrite negb_true_iff. split.
  - intros H. apply Qnot_le_lt. intros Hle.
    apply Qle_bool_iff in Hle. congruence.
  - intros H. destruct (Qle_bool b a) eqn:E; [|reflexivity].
    apply Qle_bool_iff in E. exfalso. exact (Qlt_not_le _ _ H E).
Qed.

Lemma js_gt_iff a b : js_gt a b = true <-> (b < a)%Q.
Proof. exact (js_lt_iff b a). Qed.

Lemma qualifies_iff config loanAmount gasUsd price1 price2 :
  qualifies config loanAmount gasUsd price1 price2 = true <->
  (minProfitPercent config <= grossPercent price1 price2 /\
   minNetProfitPercent config <= netPercent loanAmount gasUsd price1 price2 /\
   minProfitUsd config <= netProfitUsd loanAmount gasUsd price1 price2)%Q.
Proof.
  unfold qualifies. rewrite !andb_true_iff, !js_ge_iff. tauto.
Qed.

Lemma Qmax_minus_Qmin a b : (Qmax a b - Qmin a b == Qabs (a - b))%Q.
Proof.
  destruct (Qlt_le_dec a b) as [Hlt | Hle].
  - assert (Hab : (a <= b)%Q) by (apply Qlt_le_weak; exact Hlt).
    rewrite (Q.max_r a b Hab), (Q.min_l a b Hab).
    rewrite Qabs_neg.
    + ring.
    + apply (Qplus_le_r _ _ b). ring_simplify. exact Hab.
  - rewrite (Q.max_l a b Hle), (Q.min_r a b Hle).
    rewrite Qabs_pos.
    + ring.
    + apply (Qplus_le_r _ _ b). ring_simplify. exact Hle.
Qed.

Lemma Qmin_plus_Qmax a b : (Qmin a b + Qmax a b == a + b)%Q.
Proof.
  destruct (Qlt_le_dec a b) as [Hlt | Hle].
  - assert (Hab : (a <= b)%Q) by (apply Qlt_le_weak; exact Hlt).
    rewrite (Q.max_r a b Hab), (Q.min_l a b Hab). ring.
  - rewrite (Q.max_l a b Hle), (Q.min_r a b Hle). ring.
Qed.

(** ** The comparison loops *)

Section Loops.

Variables (config : ScannerConfig) (tIn tOut : string) (loanAmount : Z)
  (gasGwei : Q) (freshAt : nat -> nat -> Fresh).

Let candidate (i j : nat) (q1 q2 : DexQuote) : ArbitrageOpportunity :=
  mkOpportunity tIn tOut loanAmount (gasCostUsd gasGwei) (freshAt i j) q1 q2.

Let passes (q1 q2 : DexQuote) : bool :=
  qualifies config loanAmount (gasCostUsd gasGwei) (price q1) (price q2).

Lemma In_compareQuotes o i j quote1 quote2 :
  In o (compareQuotes config tIn tOut loanAmount gasGwei freshAt i j quote1 quote2) <->
  exists q1 q2, quote1 = Some q1 /\ quote2 = Some q2 /\
    passes q1 q2 = true /\ o = candidate i j q1 q2.
Proof.
  unfold compareQuotes, passes, candidate.
  destruct quote1 as [q1|], quote2 as [q2|]; simpl.
  - destruct (qualifies _ _ _ _ _) eqn:E; simpl.
    + split.
      * intros [<- | []]. exists q1, q2. auto.
      * intros (a & b & Ha & Hb & _ & ->). left. congruence.
    + split; [intros [] |].
      intros (a & b & Ha & Hb & Hq & _). congruence.
  - split; [intros [] | intros (a & b & _ & Hb & _); discriminate].
  - split; [intros [] | intros (a & b & Ha & _); discriminate].
  - split; [intros [] | intros (a & b & Ha & _); discriminate].
Qed.

Lemma In_innerLoop o i quote1 rest : forall j,
  In o (innerLoop config tIn tOut loanAmount gasGwei freshAt i quote1 j rest) <->
  exists d q1 q2, quote1 = Some q1 /\ rest !! d = Some (Some q2) /\
    passes q1 q2 = true /\ o = candidate i (j + d) q1 q2.
Proof.
  induction rest as [| quote2 rest IH]; intros j; simpl.
  - split; [intros [] | intros (d & q1 & q2 & _ & H & _); discriminate].
  - rewrite in_app_iff, In_compareQuotes, IH. split.
    + intros [(q1 & q2 & H1 & H2 & Hq & ->) | (d & q1 & q2 & H1 & H2 & Hq & ->)].
      * exists 0%nat, q1, q2. rewrite Nat.add_0_r. subst. auto.
      * exists (S d), q1, q2. replace (j + S d)%nat with (S j + d)%nat by lia. auto.
    + intros (d & q1 & q2 & H1 & H2 & Hq & ->). destruct d as [| d]; simpl in H2.
      * left. exists q1, q2. rewrite Nat.add_0_r. inversion H2. auto.
      * right. exists d, q1, q2. replace (S j + d)%nat with (j + S d)%nat by lia. auto.
Qed.

Lemma In_outerLoop o dexQuotes : forall i,
  In o (outerLoop config tIn tOut loanAmount gasGwei freshAt i dexQuotes) <->
  exists d1 d2 q1 q2, (d1 < d2)%nat /\
    dexQuotes !! d1 = Some (Some q1) /\ dexQuotes !! d2 = Some (Some q2) /\
    passes q1 q2 = true /\ o = candidate (i + d1) (i + d2) q1 q2.
Proof.
  induction dexQuotes as [| quote1 rest IH]; intros i; simpl.
  - split; [intros [] | intros (d1 & d2 & q1 & q2 & _ & H & _); discriminate].
  - rewrite in_app_iff, In_innerLoop, IH. split.
    + intros [(d & q1 & q2 & H1 & H2 & Hq & ->) | (d1 & d2 & q1 & q2 & Hlt & H1 & H2 & Hq & ->)].
      * exists 0%nat, (S d), q1, q2. simpl. rewrite Nat.add_0_r.
        replace (i + S d)%nat with (S i + d)%nat by lia.
        subst. repeat split; auto. lia.
      * exists (S d1), (S d2), q1, q2. simpl.
        replace (i + S d1)%nat with (S i + d1)%nat by lia.
        replace (i + S d2)%nat with (S i + d2)%nat by lia.
        repeat split; auto. lia.
    + intros (d1 & d2 & q1 & q2 & Hlt & H1 & H2 & Hq & ->).
      destruct d1 as [| d1]; simpl in H1.
      * left. destruct d2 as [| d2]; [lia |]. simpl in H2.
        exists d2, q1, q2. rewrite Nat.add_0_r.
        replace (S i + d2)%nat with (i + S d2)%nat by lia.
        inversion H1. auto.
      * right. destruct d2 as [| d2]; [lia |]. simpl in H2.
        exists d1, d2, q1, q2.
        replace (S i + d1)%nat with (i + S d1)%nat by lia.
        replace (S i + d2)%nat with (i + S d2)%nat by lia.
        repeat split; auto. lia.
Qed.

End Loops.

(** ** What a scan cycle finds and inserts *)

Lemma In_scanTokenPair o w config gasGwei k tp :
  In o (fst (scanTokenPair w config gasGwei k tp)) <->
  exists i j q1 q2, (i < j)%nat /\
    settledQuotes w k !! i = Some (Some q1) /\
    settledQuotes w k !! j = Some (Some q2) /\
    qualifies config (configuredLoanAmount (botConfig w)) (gasCostUsd gasGwei)
      (price q1) (price q2) = true /\
    o = mkOpportunity (fst tp) (snd tp) (configuredLoanAmount (botConfig w))
          (gasCostUsd gasGwei) (fresh w k i j) q1 q2.
Proof.
  unfold scanTokenPair. simpl. rewrite In_outerLoop. simpl. tauto.
Qed.

Lemma In_scanPairs o w config gasGwei pairs : forall k0,
  In o (fst (scanPairs w config gasGwei k0 pairs)) <->
  exists d tp, pairs !! d = Some tp /\
    In o (fst (scanTokenPair w config gasGwei (k0 + d) tp)).
Proof.
  induction pairs as [| tp pairs IH]; intros k0.
  - simpl. split; [intros [] | intros (d & tp & H & _); discriminate].
  - cbn [scanPairs fst]. rewrite in_app_iff, IH. split.
    + intros [H | (d & tp' & Hd & H)].
      * exists 0%nat, tp. rewrite Nat.add_0_r. auto.
      * exists (S d), tp'. replace (k0 + S d)%nat with (S k0 + d)%nat by lia. auto.
    + intros (d & tp' & Hd & H). destruct d as [| d]; simpl in Hd.
      * left. rewrite Nat.add_0_r in H. inversion Hd. subst. exact H.
      * right. exists d, tp'. replace (S k0 + d)%nat with (k0 + S d)%nat by lia. auto.
Qed.

(** The collaborator calls of the fetching stage are configuration reads
    and quote requests only. *)
Lemma scanPairs_events e w config gasGwei pairs : forall k0,
  In e (snd (scanPairs w config gasGwei k0 pairs)) ->
  e = EvGetBotConfig \/ exists r, e = EvGetQuote r.
Proof.
  induction pairs as [| tp pairs IH]; intros k0; cbn [scanPairs snd].
  - intros [].
  - rewrite in_app_iff. intros [H | H]; [| exact (IH _ H)].
    unfold scanTokenPair, quoteRequests in H. simpl in H.
    destruct H as [<- | [<- | [<- | [<- | []]]]]; eauto.
Qed.

Lemma In_dispatchOne_set o w opp :
  In (EvRegistrySet o) (dispatchOne w opp) <-> o = opp.
Proof.
  unfold dispatchOne. rewrite !in_app_iff. simpl.
  destruct (hasCallback w), (hasBroadcast w); simpl; split;
    intros H; try (left; left; congruence);
    repeat match goal with
           | H : _ \/ _ |- _ => destruct H
           | H : False |- _ => destruct H
           | H : _ = EvRegistrySet _ |- _ => inversion H; clear H
           end; subst; auto.
Qed.

Lemma In_dispatchAll_set o w opps : forall reg,
  In (EvRegistrySet o) (snd (dispatchAll w reg opps)) <-> In o opps.
Proof.
  induction opps as [| opp opps IH]; intros reg; cbn [dispatchAll snd].
  - tauto.
  - rewrite in_app_iff, In_dispatchOne_set, IH. simpl. intuition congruence.
Qed.

Lemma dispatchAll_keeps i w opps : forall (reg : gmap string ArbitrageOpportunity),
  is_Some (reg !! i) -> is_Some (fst (dispatchAll w reg opps) !! i).
Proof.
  induction opps as [| opp opps IH]; intros reg H; cbn [dispatchAll fst].
  - exact H.
  - apply IH. destruct (decide (id opp = i)) as [<- | Hne].
    + rewrite lookup_insert_eq. eauto.
    + rewrite lookup_insert_ne by exact Hne. exact H.
Qed.

Lemma dispatchAll_binds o w opps : forall (reg : gmap string ArbitrageOpportunity),
  In o opps -> is_Some (fst (dispatchAll w reg opps) !! id o).
Proof.
  induction opps as [| opp opps IH]; intros reg; cbn [dispatchAll fst].
  - intros [].
  - intros [-> | H].
    + apply dispatchAll_keeps. rewrite lookup_insert_eq. eauto.
    + apply IH. exact H.
Qed.

(** Every entry after the insertion loop is an old entry or one of the
    inserted candidates. *)
Lemma dispatchAll_lookup i o w opps : forall (reg : gmap string ArbitrageOpportunity),
  fst (dispatchAll w reg opps) !! i = Some o ->
  reg !! i = Some o \/ (In o opps /\ id o = i).
Proof.
  induction opps as [| opp opps IH]; intros reg; cbn [dispatchAll fst].
  - auto.
  - intros H. destruct (IH _ H) as [H' | [H' Hid]].
    + destruct (decide (id opp = i)) as [<- | Hne].
      * rewrite lookup_insert_eq in H'. inversion H'. subst. right. simpl. auto.
      * rewrite lookup_insert_ne in H' by exact Hne. auto.
    + right. simpl. auto.
Qed.

Lemma scan_open_trace w config reg gasGwei :
  gasPriceGwei w = Some gasGwei ->
  js_gt gasGwei (maxGasPriceGwei config) = false ->
  forall o, In (EvRegistrySet o) (snd (scan w config reg)) <->
            In o (fst (scanPairs w config gasGwei 0 (tokenPairs config))).
Proof.
  intros Hg Hgate o. unfold scan. rewrite Hg, Hgate. cbn [snd].
  rewrite !in_app_iff, In_dispatchAll_set. split; [| tauto].
  intros [H | [H | [H | [H | [H | H]]]]]; try exact H.
  - unfold gasPreparation in H. simpl in H. intuition discriminate.
  - simpl in H. intuition discriminate.
  - apply scanPairs_events in H. destruct H as [H | [r H]]; discriminate.
  - simpl in H. destruct (fst (scanPairs _ _ _ _ _)); intuition discriminate.
  - simpl in H. intuition discriminate.
Qed.

Lemma evictStale_lookup now (reg : gmap string ArbitrageOpportunity) i o :
  evictStale now reg !! i = Some o <->
  reg !! i = Some o /\ now - timestamp o <= staleMs.
Proof.
  unfold evictStale. rewrite map_lookup_filter_Some. unfold isStale. simpl.
  rewrite Z.gtb_ltb, Z.ltb_ge. tauto.
Qed.

Lemma scan_open_registry w config reg gasGwei :
  gasPriceGwei w = Some gasGwei ->
  js_gt gasGwei (maxGasPriceGwei config) = false ->
  fst (scan w config reg)
  = evictStale (evictNow w) (scanInserted w config gasGwei reg).
Proof. intros Hg Hgate. unfold scan. rewrite Hg, Hgate. reflexivity. Qed.

Lemma dispatchAll_stays o w opps : forall (reg : gmap string ArbitrageOpportunity),
  reg !! id o = Some o ->
  (forall o', In o' opps -> id o' = id o -> o' = o) ->
  fst (dispatchAll w reg opps) !! id o = Some o.
Proof.
  induction opps as [| opp opps IH]; intros reg Hreg Huniq; cbn [dispatchAll fst].
  - exact Hreg.
  - apply IH.
    + destruct (decide (id opp = id o)) as [Heq | Hne].
      * rewrite (Huniq opp (or_introl eq_refl) Heq), lookup_insert_eq. reflexivity.
      * rewrite lookup_insert_ne by exact Hne. exact Hreg.
    + intros o' Hin. apply Huniq. right. exact Hin.
Qed.

(** A candidate of the cycle whose id no other candidate shares is bound to
    its id when the insertion loop has run. *)
Lemma dispatchAll_inserts o w opps : forall (reg : gmap string ArbitrageOpportunity),
  In o opps ->
  (forall o', In o' opps -> id o' = id o -> o' = o) ->
  fst (dispatchAll w reg opps) !! id o = Some o.
Proof.
  induction opps as [| opp opps IH]; intros reg Hin Huniq; cbn [dispatchAll fst].
  - destruct Hin.
  - destruct Hin as [-> | Hin].
    + apply dispatchAll_stays.
      * apply lookup_insert_eq.
      * intros o' Hin'. apply Huniq. right. exact Hin'.
    + apply IH; [exact Hin |]. intros o' Hin'. apply Huniq. right. exact Hin'.
Qed.

Section ClaimC1.

Variables (w : ScanWorld) (config : ScannerConfig)
  (reg : gmap string ArbitrageOpportunity) (gasGwei : Q).

(** C1.  In a scan cycle that passes the gas gate, take any two fulfilled
    quotes i < j of the k-th configured token pair.  The candidate built
    from them is written to the Registry ([this.opportunities.set]) if and
    only if its gross percent, its net percent and its net profit in USD all
    reach the configured thresholds; when they do, its id is bound in the
    Registry once the insertion loop has run.  The Registry the cycle
    leaves says the same: unless the entry was there before, the candidate
    is found under its id only if all three thresholds are reached, and it
    is found there whenever they are, provided the eviction pass of the
    same cycle does not see it older than 60 seconds and no other candidate
    of the cycle carries the same id. *)
Theorem C1_inserted_iff_all_three_thresholds k tp i j q1 q2 :
  gasPriceGwei w = Some gasGwei ->
  js_gt gasGwei (maxGasPriceGwei config) = false ->
  tokenPairs config !! k = Some tp ->
  (i < j)%nat ->
  settledQuotes w k !! i = Some (Some q1) ->
  settledQuotes w k !! j = Some (Some q2) ->
  let cand := mkOpportunity (fst tp) (snd tp)
                (configuredLoanAmount (botConfig w)) (gasCostUsd gasGwei)
                (fresh w k i j) q1 q2 in
  let allThree :=
    (minProfitPercent config <= profitPercent cand /\
     minNetProfitPercent config <= netProfitPercent cand /\
     minProfitUsd config <= estimatedProfitUsd cand)%Q in
  (In (EvRegistrySet cand) (snd (scan w config reg)) <-> allThree) /\
  (allThree -> is_Some (scanInserted w config gasGwei reg !! id cand)) /\
  (reg !! id cand <> Some cand ->
   (fst (scan w config reg) !! id cand = Some cand -> allThree) /\
   (allThree ->
    evictNow w - timestamp cand <= staleMs ->
    (forall o, In o (fst (scanPairs w config gasGwei 0 (tokenPairs config))) ->
               id o = id cand -> o = cand) ->
    fst (scan w config reg) !! id cand = Some cand)).
Proof.
  intros Hg Hgate Hk Hij H1 H2 cand allThree.
  assert (Hfound : allThree ->
            In cand (fst (scanPairs w config gasGwei 0 (tokenPairs config)))).
  { intros Hall. apply In_scanPairs. exists k, tp. split; [exact Hk |].
    apply In_scanTokenPair. exists i, j, q1, q2.
    repeat split; try assumption. apply qualifies_iff. exact Hall. }
  assert (Hqual : In cand (fst (scanPairs w config gasGwei 0 (tokenPairs config))) ->
                  allThree).
  { intros Hin. apply In_scanPairs in Hin. destruct Hin as (d & tp' & _ & Hin).
    apply In_scanTokenPair in Hin.
    destruct Hin as (i' & j' & a & b & _ & _ & _ & Hq & Heq).
    apply qualifies_iff in Hq. unfold allThree. rewrite Heq. exact Hq. }
  split; [split |]; [| | split].
  - intros Hin. apply (scan_open_trace _ _ _ _ Hg Hgate) in Hin. auto.
  - intros Hall. apply (scan_open_trace _ _ _ _ Hg Hgate). auto.
  - intros Hall. unfold scanInserted. apply dispatchAll_binds. auto.
  - intros Hnew. rewrite (scan_open_registry w config reg gasGwei Hg Hgate).
    split.
    + intros Hin. apply evictStale_lookup in Hin. destruct Hin as [Hin _].
      unfold scanInserted in Hin. apply dispatchAll_lookup in Hin.
      destruct Hin as [Hin | [Hin _]]; [contradiction | auto].
    + intros Hall Hfresh Huniq. apply evictStale_lookup. split; [| exact Hfresh].
      unfold scanInserted. apply dispatchAll_inserts; auto.
Qed.

End ClaimC1.

Lemma C1_witness :
  let cand := Sample.found in
  let allThree :=
    (minProfitPercent Sample.config <= profitPercent cand /\
     minNetProfitPercent Sample.config <= netProfitPercent cand /\
     minProfitUsd Sample.config <= estimatedProfitUsd cand)%Q in
  (In (EvRegistrySet cand) (snd (scan Sample.world Sample.config ∅)) <-> allThree) /\
  (allThree -> is_Some (scanInserted Sample.world Sample.config 30 ∅ !! id cand)) /\
  allThree /\
  fst (scan Sample.world Sample.config ∅) !! id cand = Some cand.
Proof.
  destruct (C1_inserted_iff_all_three_thresholds Sample.world Sample.config ∅ 30
              0%nat (Sample.USDC, Sample.USDT) 0%nat 1%nat
              Sample.quoteLow Sample.quoteHigh)
    as (Hset & Hbound & Hreg);
    [reflexivity | reflexivity | reflexivity | lia | reflexivity | reflexivity |].
  assert (Hall : (minProfitPercent Sample.config <= profitPercent Sample.found /\
                  minNetProfitPercent Sample.config
                  <= netProfitPercent Sample.found /\
                  minProfitUsd Sample.config <= estimatedProfitUsd Sample.found)%Q).
  { repeat split; vm_compute; discriminate. }
  split; [exact Hset |]. split; [exact Hbound |]. split; [exact Hall |].
  apply Hreg.
  - rewrite lookup_empty. discriminate.
  - exact Hall.
  - vm_compute. discriminate.
  - intros o Hin _. vm_compute in Hin. destruct Hin as [<- | []]. reflexivity.
Defined.

(** ** The profit figures of a candidate *)

(** C5.  Every opportunity that [scanTokenPair] returns comes from two
    fulfilled quotes i < j, with each price the quote's output amount over
    its input amount, and its figures are functions of those prices, the
    loan notional and the gas price alone: the gross percent is
    |price1 - price2| over the average price, times 100; the gas cost is
    500000 gas at the floored gas price, in ether, times 0.7; the loan fee
    is 0.05 % of the notional; the net profit is |price1 - price2| times
    the notional, minus the gas cost, minus the fee; and the net percent is
    the net profit over the notional, times 100.  The stored figures agree
    with one another: the gross percent is also (sellPrice - buyPrice) over
    the average of the two stored prices, times 100, and the net profit is
    (sellPrice - buyPrice) times the stored loan amount minus the stored
    gas cost and fee. *)
Theorem C5_profit_figures_are_derived w config gasGwei k tp o :
  In o (fst (scanTokenPair w config gasGwei k tp)) ->
  exists i j q1 q2,
    (i < j)%nat /\
    settledQuotes w k !! i = Some (Some q1) /\
    settledQuotes w k !! j = Some (Some q2) /\
    let price1 := (toAmount q1 / fromAmount q1)%Q in
    let price2 := (toAmount q2 / fromAmount q2)%Q in
    let notional := inject_Z (configuredLoanAmount (botConfig w)) in
    profitPercent o
      = (Qabs (price1 - price2) / ((price1 + price2) / 2) * 100)%Q /\
    estimatedGasCostUsd o
      = (inject_Z (500000 * Qfloor (gasGwei * inject_Z (10 ^ 9)))
         / inject_Z (10 ^ 18) * (7 # 10))%Q /\
    flashLoanFeeUsd o = (notional * (5 # 10000))%Q /\
    estimatedProfitUsd o
      = (Qabs (price1 - price2) * notional
         - estimatedGasCostUsd o - flashLoanFeeUsd o)%Q /\
    netProfitPercent o = (estimatedProfitUsd o / notional * 100)%Q /\
    inject_Z (flashLoanAmount o) = notional /\
    (profitPercent o
      == (sellPrice o - buyPrice o) / ((buyPrice o + sellPrice o) / 2) * 100)%Q /\
    (estimatedProfitUsd o
      == (sellPrice o - buyPrice o) * inject_Z (flashLoanAmount o)
         - estimatedGasCostUsd o - flashLoanFeeUsd o)%Q.
Proof.
  intros Hin. apply In_scanTokenPair in Hin.
  destruct Hin as (i & j & q1 & q2 & Hij & H1 & H2 & _ & ->).
  exists i, j, q1, q2. repeat split; try assumption.
  - cbn -[Qabs Qmin Qmax Qdiv Qmult Qminus Qplus].
    unfold grossPercent, priceDiff, avgPrice.
    rewrite Qmax_minus_Qmin, Qmin_plus_Qmax. reflexivity.
  - cbn -[Qabs Qmin Qmax gasCostUsd flashLoanFee Qdiv Qmult Qminus Qplus].
    unfold netProfitUsd, grossProfitUsd, priceDiff.
    rewrite Qmax_minus_Qmin. reflexivity.
Qed.

Lemma C5_witness :
  exists i j q1 q2,
    (i < j)%nat /\
    settledQuotes Sample.world 0 !! i = Some (Some q1) /\
    settledQuotes Sample.world 0 !! j = Some (Some q2) /\
    let price1 := (toAmount q1 / fromAmount q1)%Q in
    let price2 := (toAmount q2 / fromAmount q2)%Q in
    let notional := inject_Z (configuredLoanAmount (botConfig Sample.world)) in
    profitPercent Sample.found
      = (Qabs (price1 - price2) / ((price1 + price2) / 2) * 100)%Q /\
    estimatedGasCostUsd Sample.found
      = (inject_Z (500000 * Qfloor (30 * inject_Z (10 ^ 9)))
         / inject_Z (10 ^ 18) * (7 # 10))%Q /\
    flashLoanFeeUsd Sample.found = (notional * (5 # 10000))%Q /\
    estimatedProfitUsd Sample.found
      = (Qabs (price1 - price2) * notional
         - estimatedGasCostUsd Sample.found - flashLoanFeeUsd Sample.found)%Q /\
    netProfitPercent Sample.found
      = (estimatedProfitUsd Sample.found / notional * 100)%Q /\
    inject_Z (flashLoanAmount Sample.found) = notional /\
    (profitPercent Sample.found
      == (sellPrice Sample.found - buyPrice Sample.found)
         / ((buyPrice Sample.found + sellPrice Sample.found) / 2) * 100)%Q /\
    (estimatedProfitUsd Sample.found
      == (sellPrice Sample.found - buyPrice Sample.found)
           * inject_Z (flashLoanAmount Sample.found)
         - estimatedGasCostUsd Sample.found - flashLoanFeeUsd Sample.found)%Q.
Proof.
  apply (C5_profit_figures_are_derived Sample.world Sample.config 30 0%nat
           (Sample.USDC, Sample.USDT) Sample.found).
  vm_compute. left. reflexivity.
Defined.

(** ** Buy low, sell high *)

Lemma mkOpportunity_sides tIn tOut loanAmount gasUsd f q1 q2 :
  let o := mkOpportunity tIn tOut loanAmount gasUsd f q1 q2 in
  ((price q1 < price q2)%Q -> buyDex o = dex q1 /\ sellDex o = dex q2) /\
  ((price q2 < price q1)%Q -> buyDex o = dex q2 /\ sellDex o = dex q1) /\
  (dex q1 <> dex q2 -> buyDex o <> sellDex o).
Proof.
  cbn -[js_lt price].
  assert (Hflip : (price q2 < price q1)%Q -> js_lt (price q1) (price q2) = false).
  { intros H. unfold js_lt. rewrite negb_false_iff.
    apply Qle_bool_iff. apply Qlt_le_weak. exact H. }
  split; [| split].
  - intros H. apply js_lt_iff in H. rewrite H. auto.
  - intros H. rewrite (Hflip H). auto.
  - intros Hne. destruct (js_lt (price q1) (price q2)); congruence.
Qed.

(** C6 (amended).  Every opportunity that [scanTokenPair] returns comes
    from two fulfilled quotes i < j; its buy price is the smaller and its
    sell price the larger of the two prices; when the prices differ, its
    buy venue is the venue of the lower-priced quote and its sell venue
    the venue of the higher-priced one, and the two roles always go to the
    two different quotes, so the venues differ whenever the quotes' venue
    labels do.  For two venues quoting 1.000 and 1.012 at a 10,000-unit
    notional with gas cost 3 USD, loan fee 5 USD and thresholds (0.3 %,
    0.15 %, 1.50 USD), the candidate qualifies with gross spread
    600/503 % (about 1.19 %), net profit 120 - 8 = 112 USD, and the venue
    of the 1.000 quote as buy venue. *)
Theorem C6_buy_low_sell_high :
  (forall w config gasGwei k tp o,
     In o (fst (scanTokenPair w config gasGwei k tp)) ->
     exists i j q1 q2,
       (i < j)%nat /\
       settledQuotes w k !! i = Some (Some q1) /\
       settledQuotes w k !! j = Some (Some q2) /\
       buyPrice o = Qmin (price q1) (price q2) /\
       sellPrice o = Qmax (price q1) (price q2) /\
       (buyPrice o <= sellPrice o)%Q /\
       ((price q1 < price q2)%Q -> buyDex o = dex q1 /\ sellDex o = dex q2) /\
       ((price q2 < price q1)%Q -> buyDex o = dex q2 /\ sellDex o = dex q1) /\
       (dex q1 <> dex q2 -> buyDex o <> sellDex o)) /\
  (price Sample.quoteLow == 1 /\ price Sample.quoteHigh == 1012 # 1000 /\
   qualifies Sample.config 10000 3
     (price Sample.quoteLow) (price Sample.quoteHigh) = true /\
   profitPercent Sample.candidate == 600 # 503 /\
   119 # 100 <= profitPercent Sample.candidate /\
   profitPercent Sample.candidate < 120 # 100 /\
   flashLoanFeeUsd Sample.candidate == 5 /\
   estimatedGasCostUsd Sample.candidate == 3 /\
   estimatedProfitUsd Sample.candidate == 120 - 8 /\
   estimatedProfitUsd Sample.candidate == 112 /\
   buyDex Sample.candidate = dex Sample.quoteLow /\
   sellDex Sample.candidate = dex Sample.quoteHigh)%Q.
Proof.
  split.
  - intros w config gasGwei k tp o Hin. apply In_scanTokenPair in Hin.
    destruct Hin as (i & j & q1 & q2 & Hij & H1 & H2 & _ & ->).
    exists i, j, q1, q2.
    destruct (mkOpportunity_sides (fst tp) (snd tp)
                (configuredLoanAmount (botConfig w)) (gasCostUsd gasGwei)
                (fresh w k i j) q1 q2) as (Hlow & Hhigh & Hne).
    repeat split; try assumption; try (apply Hlow; assumption);
      try (apply Hhigh; assumption).
    cbn -[Qmin Qmax price].
    apply Qle_trans with (price q1); [apply Q.le_min_l | apply Q.le_max_l].
  - repeat split; vm_compute; try reflexivity; intros H; discriminate H.
Qed.

Lemma C6_witness :
  exists i j q1 q2,
    (i < j)%nat /\
    settledQuotes Sample.world 0 !! i = Some (Some q1) /\
    settledQuotes Sample.world 0 !! j = Some (Some q2) /\
    buyPrice Sample.found = Qmin (price q1) (price q2) /\
    sellPrice Sample.found = Qmax (price q1) (price q2) /\
    (buyPrice Sample.found <= sellPrice Sample.found)%Q /\
    ((price q1 < price q2)%Q ->
       buyDex Sample.found = dex q1 /\ sellDex Sample.found = dex q2) /\
    ((price q2 < price q1)%Q ->
       buyDex Sample.found = dex q2 /\ sellDex Sample.found = dex q1) /\
    (dex q1 <> dex q2 -> buyDex Sample.found <> sellDex Sample.found).
Proof.
  apply (proj1 C6_buy_low_sell_high Sample.world Sample.config 30%Q 0%nat
           (Sample.USDC, Sample.USDT) Sample.found).
  vm_compute. left. reflexivity.
Defined.

(** The scenario's net profit is 112 USD, eight dollars away from the
    104 USD of the claim. *)
Lemma C6_counterexample :
  (estimatedProfitUsd Sample.candidate == 112)%Q /\
  (Qabs (estimatedProfitUsd Sample.candidate - 104) == 8)%Q /\
  ~ (estimatedProfitUsd Sample.candidate == 104)%Q.
Proof.
  repeat split; try (vm_compute; reflexivity).
  intros H. vm_compute in H. discriminate H.
Qed.

(** At 8571.428571 Gwei the scanner's own gas estimate is 3 USD to within
    a billionth. *)
Example gas_cost_three_dollars :
  (Qabs (gasCostUsd (8571428571 # 1000000) - 3) < 1 # 1000000000)%Q.
Proof. vm_compute. reflexivity. Qed.

(** ** The Registry: eviction and the gas gate *)

Lemma In_getOpportunities o (reg : gmap string ArbitrageOpportunity) :
  In o (getOpportunities reg) <-> exists i, reg !! i = Some o.
Proof.
  unfold getOpportunities. rewrite <- list_elem_of_In, list_elem_of_fmap. split.
  - intros ([i o'] & -> & H). apply elem_of_map_to_list in H. eauto.
  - intros (i & H). exists (i, o). split; [reflexivity |].
    apply elem_of_map_to_list. exact H.
Qed.

(** C7 (amended).  In every scan cycle that passes the gas gate, the
    eviction pass runs on the Registry as the insertion loop of that cycle
    left it and removes exactly the entries whose age at the pass's clock
    reading exceeds 60 seconds; no execution state is consulted.  So no
    entry older than 60 seconds is returned by [getOpportunities()]
    afterwards, and every entry at most 60 seconds old at that reading,
    the cycle's own candidates included, stays. *)
Theorem C7_eviction_follows_insertion w config reg gasGwei :
  gasPriceGwei w = Some gasGwei ->
  js_gt gasGwei (maxGasPriceGwei config) = false ->
  let inserted := scanInserted w config gasGwei reg in
  let after := fst (scan w config reg) in
  after = evictStale (evictNow w) inserted /\
  (forall i o, after !! i = Some o <->
     inserted !! i = Some o /\ evictNow w - timestamp o <= 60000) /\
  (forall o, In o (getOpportunities after) ->
     evictNow w - timestamp o <= 60000) /\
  (forall o, In o (fst (scanPairs w config gasGwei 0 (tokenPairs config))) ->
     exists o', inserted !! id o = Some o' /\
       (evictNow w - timestamp o' <= 60000 -> after !! id o = Some o')).
Proof.
  intros Hg Hgate inserted after.
  assert (Hafter : after = evictStale (evictNow w) inserted)
    by exact (scan_open_registry _ _ _ _ Hg Hgate).
  split; [exact Hafter |]. rewrite Hafter. split; [| split].
  - intros i o. apply evictStale_lookup.
  - intros o Hin. apply In_getOpportunities in Hin. destruct Hin as (i & Hi).
    apply evictStale_lookup in Hi. apply Hi.
  - intros o Hin.
    destruct (dispatchAll_binds o w _ reg Hin) as (o' & Ho').
    exists o'. split; [exact Ho' |].
    intros Hfresh. apply evictStale_lookup. split; [exact Ho' | exact Hfresh].
Qed.

Lemma C7_witness :
  let inserted := scanInserted Sample.world Sample.config 30 ∅ in
  let after := fst (scan Sample.world Sample.config ∅) in
  after = evictStale (evictNow Sample.world) inserted /\
  (forall i o, after !! i = Some o <->
     inserted !! i = Some o /\ evictNow Sample.world - timestamp o <= 60000) /\
  (forall o, In o (getOpportunities after) ->
     evictNow Sample.world - timestamp o <= 60000) /\
  (forall o, In o (fst (scanPairs Sample.world Sample.config 30 0
                          (tokenPairs Sample.config))) ->
     exists o', inserted !! id o = Some o' /\
       (evictNow Sample.world - timestamp o' <= 60000 ->
        after !! id o = Some o')).
Proof.
  apply (C7_eviction_follows_insertion Sample.world Sample.config ∅ 30);
    reflexivity.
Defined.

(** A cycle stopped by the gas gate runs no eviction pass: an entry ten
    minutes old is still returned by [getOpportunities()] after it. *)
Lemma C7_counterexample :
  let after := fst (scan Sample.expensiveWorld Sample.config Sample.oldRegistry) in
  after !! id Sample.oldEntry = Some Sample.oldEntry /\
  In Sample.oldEntry (getOpportunities after) /\
  evictNow Sample.expensiveWorld - timestamp Sample.oldEntry = 605000.
Proof.
  cbv zeta. split; [| split].
  - vm_compute. reflexivity.
  - apply (proj2 (In_getOpportunities Sample.oldEntry _)).
    exists (id Sample.oldEntry). vm_compute. reflexivity.
  - reflexivity.
Qed.

(** When more than 60 seconds pass between the stamping of a candidate
    and the clock reading of the eviction pass, the cycle evicts the
    candidate it has just inserted. *)
Example slow_cycle_evicts_its_own_candidate :
  scanInserted Sample.slowWorld Sample.config 30 ∅ !! id Sample.found
    = Some Sample.found /\
  fst (scan Sample.slowWorld Sample.config ∅) !! id Sample.found = None.
Proof. split; vm_compute; reflexivity. Qed.

(** C8.  When the gas price read at the start of a cycle exceeds the
    configured ceiling, the cycle makes exactly three collaborator calls:
    the preparation entry, the gas-price read and one gas-too-high skip
    entry.  It issues no quote request, writes nothing to the Registry and
    leaves the Registry as it was. *)
Theorem C8_gas_gate_skips_cycle w config reg gasGwei :
  gasPriceGwei w = Some gasGwei ->
  (maxGasPriceGwei config < gasGwei)%Q ->
  let trace := snd (scan w config reg) in
  trace = [EvLog "scanner" "info" "1_preparation"; EvGasPrice;
           EvLog "scanner" "warning" "1_gas_check_failed"] /\
  length (List.filter isGasSkip trace) = 1%nat /\
  List.filter isQuoteRequest trace = [] /\
  List.filter isRegistrySet trace = [] /\
  executed trace = [] /\
  fst (scan w config reg) = reg.
Proof.
  intros Hg Hhigh. apply js_gt_iff in Hhigh.
  unfold scan. rewrite Hg, Hhigh. cbn [fst snd].
  repeat split.
Qed.

Lemma C8_witness :
  let trace := snd (scan Sample.expensiveWorld Sample.config Sample.oldRegistry) in
  trace = [EvLog "scanner" "info" "1_preparation"; EvGasPrice;
           EvLog "scanner" "warning" "1_gas_check_failed"] /\
  length (List.filter isGasSkip trace) = 1%nat /\
  List.filter isQuoteRequest trace = [] /\
  List.filter isRegistrySet trace = [] /\
  executed trace = [] /\
  fst (scan Sample.expensiveWorld Sample.config Sample.oldRegistry)
    = Sample.oldRegistry.
Proof.
  apply (C8_gas_gate_skips_cycle Sample.expensiveWorld Sample.config
           Sample.oldRegistry 80); [reflexivity | reflexivity].
Defined.

(** ** Hand-over to the executor *)

Lemma executed_app t1 t2 : executed (t1 ++ t2) = executed t1 ++ executed t2.
Proof.
  induction t1 as [| e t1 IH]; [reflexivity |].
  destruct e; simpl; rewrite IH; reflexivity.
Qed.

Lemma executed_scanPairs w config gasGwei pairs : forall k0,
  executed (snd (scanPairs w config gasGwei k0 pairs)) = [].
Proof.
  induction pairs as [| tp pairs IH]; intros k0; cbn [scanPairs snd].
  - reflexivity.
  - rewrite executed_app, IH. reflexivity.
Qed.

Lemma executed_dispatchAll w opps : forall reg,
  executed (snd (dispatchAll w reg opps)) = opps.
Proof.
  induction opps as [| opp opps IH]; intros reg; cbn [dispatchAll snd].
  - reflexivity.
  - rewrite executed_app, IH. unfold dispatchOne.
    destruct (hasCallback w), (hasBroadcast w); reflexivity.
Qed.

Lemma executed_scan w config reg gasGwei :
  gasPriceGwei w = Some gasGwei ->
  js_gt gasGwei (maxGasPriceGwei config) = false ->
  executed (snd (scan w config reg))
  = fst (scanPairs w config gasGwei 0 (tokenPairs config)).
Proof.
  intros Hg Hgate. unfold scan. rewrite Hg, Hgate. cbn [snd].
  rewrite !executed_app, executed_scanPairs, executed_dispatchAll.
  simpl. destruct (fst (scanPairs _ _ _ _ _)); simpl; rewrite ?app_nil_r; reflexivity.
Qed.

Lemma found_valid_and_keyed o w config gasGwei pairs k0 :
  In o (fst (scanPairs w config gasGwei k0 pairs)) -> isValid o = true.
Proof.
  intros Hin. apply In_scanPairs in Hin. destruct Hin as (d & tp & _ & Hin).
  apply In_scanTokenPair in Hin.
  destruct Hin as (i & j & q1 & q2 & _ & _ & _ & _ & ->). reflexivity.
Qed.

(** The route finds a lingering entry by its id and runs the executor on
    it, in the mode the stored configuration selects. *)
Lemma apiArbitrageExecute_entry xw (reg : gmap string ArbitrageOpportunity) i o :
  keyed reg -> reg !! i = Some o -> i <> "" ->
  apiArbitrageExecute xw reg (Some i)
  = let r := executeArbitrageTrade xw o (isSimulationMode (storedConfig xw)) in
    Json (EvGetBotConfig :: fst r) (snd r).
Proof.
  intros Hkeyed Hi Hne. unfold apiArbitrageExecute.
  assert (Ht : truthy (Some i) = true) by (destruct i; [congruence | reflexivity]).
  rewrite Ht. cbn [negb default].
  destruct (find _ _) as [o' |] eqn:F.
  - apply find_some in F. destruct F as [Hin Heq].
    apply String.eqb_eq in Heq. cbn [default] in Heq.
    unfold Datatypes.id in Heq.
    apply In_getOpportunities in Hin.
    destruct Hin as (i' & Hi'). pose proof (Hkeyed _ _ Hi') as Hid.
    assert (i' = i) by congruence. subst i'.
    assert (o' = o) by congruence. subst o'. reflexivity.
  - exfalso. pose proof (find_none _ _ F o) as Hnone.
    assert (Hin : In o (getOpportunities reg))
      by (apply In_getOpportunities; eauto).
    specialize (Hnone Hin). cbn beta in Hnone. cbn [default] in Hnone.
    unfold Datatypes.id in Hnone.
    rewrite (Hkeyed _ _ Hi), String.eqb_refl in Hnone. discriminate.
Qed.

(** C4 (amended).  Handing an opportunity to an execution attempt does not
    mark it.  In a cycle that passes the gas gate, started from a Registry
    keyed by id whose entries all have [isValid = true], the opportunities
    handed to the executor are the cycle's new candidates, each once and in
    order, all with [isValid = true]; every entry of the Registry after the
    cycle still has [isValid = true]; and any such lingering entry, executed
    or not, is accepted by the manual-execution route, which runs the
    executor on it again. *)
Theorem C4_validity_flag_is_never_cleared w config reg gasGwei :
  gasPriceGwei w = Some gasGwei ->
  js_gt gasGwei (maxGasPriceGwei config) = false ->
  keyed reg ->
  (forall i o, reg !! i = Some o -> isValid o = true) ->
  let trace := snd (scan w config reg) in
  let after := fst (scan w config reg) in
  executed trace = fst (scanPairs w config gasGwei 0 (tokenPairs config)) /\
  (forall o, In o (executed trace) -> isValid o = true) /\
  keyed after /\
  (forall i o, after !! i = Some o -> isValid o = true) /\
  (forall xw i o, after !! i = Some o -> i <> "" ->
     apiArbitrageExecute xw after (Some i)
     = let r := executeArbitrageTrade xw o (isSimulationMode (storedConfig xw)) in
       Json (EvGetBotConfig :: fst r) (snd r)).
Proof.
  intros Hg Hgate Hkeyed Hvalid trace after.
  assert (Hex : executed trace
                = fst (scanPairs w config gasGwei 0 (tokenPairs config)))
    by exact (executed_scan _ _ _ _ Hg Hgate).
  assert (Hlook : forall i o, after !! i = Some o ->
            reg !! i = Some o \/
            (In o (fst (scanPairs w config gasGwei 0 (tokenPairs config)))
             /\ id o = i)).
  { intros i o H. unfold after in H.
    rewrite (scan_open_registry _ _ _ _ Hg Hgate) in H.
    apply evictStale_lookup in H. destruct H as [H _].
    exact (dispatchAll_lookup _ _ _ _ _ H). }
  assert (Hk : keyed after).
  { intros i o H. destruct (Hlook _ _ H) as [H' | [_ H']]; [| exact H'].
    exact (Hkeyed _ _ H'). }
  split; [exact Hex |]. split; [| split; [exact Hk | split]].
  - intros o Hin. rewrite Hex in Hin. exact (found_valid_and_keyed _ _ _ _ _ _ Hin).
  - intros i o H. destruct (Hlook _ _ H) as [H' | [H' _]].
    + exact (Hvalid _ _ H').
    + exact (found_valid_and_keyed _ _ _ _ _ _ H').
  - intros xw i o H Hne. exact (apiArbitrageExecute_entry xw after i o Hk H Hne).
Qed.

Lemma C4_witness :
  let trace := snd (scan Sample.world Sample.config ∅) in
  let after := fst (scan Sample.world Sample.config ∅) in
  executed trace
    = fst (scanPairs Sample.world Sample.config 30 0 (tokenPairs Sample.config)) /\
  (forall o, In o (executed trace) -> isValid o = true) /\
  keyed after /\
  (forall i o, after !! i = Some o -> isValid o = true) /\
  (forall xw i o, after !! i = Some o -> i <> "" ->
     apiArbitrageExecute xw after (Some i)
     = let r := executeArbitrageTrade xw o (isSimulationMode (storedConfig xw)) in
       Json (EvGetBotConfig :: fst r) (snd r)).
Proof.
  apply (C4_validity_flag_is_never_cleared Sample.world Sample.config ∅ 30).
  - reflexivity.
  - reflexivity.
  - intros i o H. rewrite lookup_empty in H. discriminate H.
  - intros i o H. rewrite lookup_empty in H. discriminate H.
Defined.

(** The cycle of [Sample.world] hands its candidate to the executor; the
    entry stays in the Registry with [isValid = true], and the manual
    route then executes it a second time, successfully. *)
Lemma C4_counterexample :
  let cycle := scan Sample.world Sample.config ∅ in
  executed (snd cycle) = [Sample.found] /\
  fst cycle !! id Sample.found = Some Sample.found /\
  isValid Sample.found = true /\
  exists events result,
    apiArbitrageExecute Sample.execWorld (fst cycle) (Some (id Sample.found))
      = Json events result /\
    TradeExecutionResult.success result = true.
Proof.
  cbv zeta. split; [| split; [| split]].
  - vm_compute. reflexivity.
  - vm_compute. reflexivity.
  - reflexivity.
  - eexists. eexists. split; [vm_compute; reflexivity | reflexivity].
Qed.

(** ** The executor, stage by stage *)

Arguments truthy : simpl never.
Arguments resolvePrivateKey : simpl never.
Arguments js_gt : simpl never.
Arguments js_ge : simpl never.
Arguments js_lt : simpl never.
Arguments flag : simpl never.
Arguments String.length : simpl never.
Arguments Nat.eqb : simpl never.
Arguments gasCeiling : simpl never.
Arguments pseudoTxHash : simpl never.
Arguments q_or : simpl never.
Arguments trim : simpl never.
Arguments str_or : simpl never.
Arguments routerAddress : simpl never.
Arguments parseUnits : simpl never.
Arguments chainIdOf : simpl never.
Arguments String.eqb : simpl never.
Arguments Qfloor : simpl never.

Ltac exec_unfold :=
  unfold executeArbitrageTrade, pipeline, configAndKey, balanceCheck, gasCheck,
    simulationBranch, failure, tryCatch, bind, when, log, emit, throw, ret,
    await, attempt.

Ltac exec_case :=
  match goal with
  | |- context [match storedConfig ?w with _ => _ end] =>
      destruct (storedConfig w) eqn:?
  | |- context [match currentGasGwei ?w with _ => _ end] =>
      destruct (currentGasGwei w) eqn:?
  | |- context [match nativeBalance ?w ?a ?c with _ => _ end] =>
      destruct (nativeBalance w a c) eqn:?
  | |- context [if ?b then _ else _] => destruct b eqn:?
  end.

Lemma truthy_of_length k : String.length k = 66%nat -> truthy (Some k) = true.
Proof. destruct k; [discriminate | reflexivity]. Qed.

Lemma truthy_nonempty k : k <> "" -> truthy (Some k) = true.
Proof. destruct k; [congruence | reflexivity]. Qed.

Lemma swapRequests_app t1 t2 :
  swapRequests (t1 ++ t2) = swapRequests t1 ++ swapRequests t2.
Proof.
  induction t1 as [| e t1 IH]; [reflexivity |].
  destruct e; simpl; rewrite IH; reflexivity.
Qed.

Lemma swapRequests_bind {A B} (m : Exec A) (k : A -> Exec B) :
  swapRequests (fst (bind m k))
  = swapRequests (fst m)
    ++ match snd m with
       | inr a => swapRequests (fst (k a))
       | inl _ => []
       end.
Proof.
  destruct m as [t [e | a]]; cbn.
  - rewrite app_nil_r. reflexivity.
  - apply swapRequests_app.
Qed.

Lemma swapRequests_execute w opp sim :
  swapRequests (fst (executeArbitrageTrade w opp sim))
  = swapRequests (fst (pipeline w opp sim)).
Proof.
  unfold executeArbitrageTrade.
  destruct (pipeline w opp sim) as [t [e | a]]; cbn; [| reflexivity].
  rewrite swapRequests_app. cbn. apply app_nil_r.
Qed.

Lemma quiet_ret {A} (a : A) : quiet (ret a).
Proof. reflexivity. Qed.

Lemma quiet_throw {A} e : quiet (@throw A e).
Proof. reflexivity. Qed.

Lemma quiet_log level step : quiet (log level step).
Proof. reflexivity. Qed.

Lemma quiet_bind {A B} (m : Exec A) (k : A -> Exec B) :
  quiet m -> (forall a, quiet (k a)) -> quiet (bind m k).
Proof.
  unfold quiet. intros Hm Hk. rewrite swapRequests_bind, Hm.
  destruct (snd m); [reflexivity | apply Hk].
Qed.

Lemma quiet_when b m : quiet m -> quiet (when b m).
Proof. destruct b; [auto | reflexivity]. Qed.

Lemma quiet_await {A} e (answer : option A) cause :
  swapRequests [e] = [] -> quiet (await e answer cause).
Proof. unfold quiet. destruct answer; auto. Qed.

Lemma quiet_emit e : swapRequests [e] = [] -> quiet (emit e).
Proof. auto. Qed.

Create HintDb quiet.
#[local] Hint Resolve quiet_ret quiet_throw quiet_log quiet_bind quiet_when : quiet.
#[local] Hint Extern 1 (quiet (await _ _ _)) => apply quiet_await; reflexivity : quiet.
#[local] Hint Extern 1 (quiet (emit _)) => apply quiet_emit; reflexivity : quiet.

Lemma flashLoanStage_quiet w c opp key chain loan buySwap sellSwap :
  quiet (flashLoanStage w c opp key chain loan buySwap sellSwap).
Proof. unfold flashLoanStage. cbv zeta. auto 40 with quiet. Qed.

(** The balance check never stops an attempt: whatever happens inside its
    [try] ends in the warning of its [catch]. *)
Lemma balanceCheck_quiet w sim pk chain :
  snd (balanceCheck w sim pk chain) = inr tt /\
  swapRequests (fst (balanceCheck w sim pk chain)) = [].
Proof.
  unfold balanceCheck, tryCatch, bind, when, log, emit, throw, ret, await, attempt.
  repeat (exec_case; cbn); try (split; reflexivity).
  all: destruct (walletAddress w _); cbn; repeat (exec_case; cbn); split; reflexivity.
Qed.

Lemma gasCheck_outcome w c :
  swapRequests (fst (gasCheck w c)) = [] /\
  (snd (gasCheck w c) = inr tt <->
   exists gas, currentGasGwei w = Some gas /\ js_gt gas (gasCeiling c) = false).
Proof.
  unfold gasCheck, bind, when, log, emit, throw, ret, await.
  destruct (currentGasGwei w) as [gas |]; cbn.
  - destruct (js_gt gas (gasCeiling c)) eqn:E; cbn; split; try reflexivity.
    + split; [discriminate | intros (g & Hg & Hc); congruence].
    + split; eauto.
  - split; [reflexivity |]. split; [discriminate | intros (g & Hg & _); discriminate].
Qed.

Lemma configAndKey_ok w sim c :
  storedConfig w = Some c ->
  let pk := resolvePrivateKey (BotConfig.privateKey c) (envPrivateKey w) in
  (truthy pk = true -> String.length (default "" pk) = 66%nat) ->
  (sim = true \/ (flag (BotConfig.enableRealTrading c) = true /\ truthy pk = true)) ->
  configAndKey w sim
  = ([EvLog "trade_execution" "info" "1_validation"; EvGetBotConfig;
      EvLog "trade_execution" "info" "2_key_validation"], inr (c, pk)).
Proof.
  intros Hc pk Hlen Hmode.
  unfold configAndKey, bind, when, log, emit, throw, ret. rewrite Hc. cbn.
  fold pk.
  assert (H1 : negb sim && negb (flag (BotConfig.enableRealTrading c)) = false).
  { destruct Hmode as [-> | [-> _]]; [reflexivity | apply andb_false_r]. }
  assert (H2 : truthy pk && negb (Nat.eqb (String.length (default "" pk)) 66) = false).
  { destruct (truthy pk); [| reflexivity]. rewrite (Hlen eq_refl). reflexivity. }
  assert (H3 : negb sim && negb (truthy pk) = false).
  { destruct Hmode as [-> | [_ ->]]; [reflexivity | apply andb_false_r]. }
  rewrite H1. cbn. rewrite H2. cbn. rewrite H3. cbn. reflexivity.
Qed.

Lemma realBranch_requests w c opp k a chain :
  String.length k = 66%nat -> walletAddress w k = Some a ->
  swapRequests (fst (realBranch w c opp (Some k) chain))
  = if truthy (trim <$> BotConfig.oneinchApiKey c)
    then routeRequests w opp a else [].
Proof.
  intros Hlen Ha. pose proof (truthy_of_length k Hlen) as Ht.
  unfold realBranch, routeRequests.
  pose proof (flashLoanStage_quiet w c opp (default "" (Some k)) chain
                (parseUnits (flashLoanAmount opp) (decimals (tokenIn opp)))) as HF.
  revert HF.
  generalize (flashLoanStage w c opp (default "" (Some k)) chain
                (parseUnits (flashLoanAmount opp) (decimals (tokenIn opp)))).
  intros F HF. unfold quiet in HF.
  unfold buildBuySwap, buildSellSwap, bind, when, log, emit, throw, ret, attempt.
  rewrite Ht. cbn.
  destruct (truthy (trim <$> BotConfig.oneinchApiKey c)); cbn; [| reflexivity].
  rewrite Ha. cbn.
  destruct (buildSwapTransaction w _) as [m1 | buySwap]; cbn; [reflexivity |].
  destruct (buildSwapTransaction w _) as [m2 | sellSwap]; cbn; [reflexivity |].
  rewrite HF. reflexivity.
Qed.

(** The route-building requests of a real-mode attempt are a function of
    the world and of the wallet address; the key itself does not enter. *)
Lemma real_requests w opp ck ek k a :
  resolvePrivateKey ck ek = Some k -> String.length k = 66%nat ->
  walletAddress w k = Some a ->
  swapRequests (fst (executeArbitrageTrade (withKeys w ck ek) opp false))
  = if reachesRouting w then routeRequests w opp a else [].
Proof.
  intros Hk Hlen Ha. pose proof (truthy_of_length k Hlen) as Ht.
  rewrite swapRequests_execute. unfold pipeline, reachesRouting.
  destruct (storedConfig w) as [c |] eqn:Hc.
  - destruct (flag (BotConfig.enableRealTrading c)) eqn:Hreal.
    + rewrite (configAndKey_ok (withKeys w ck ek) false (setPrivateKey c ck));
        cbn [storedConfig withKeys envPrivateKey setPrivateKey BotConfig.privateKey
             BotConfig.enableRealTrading];
        try rewrite Hc; try rewrite Hk; cbn [fmap option_fmap option_map default];
        [ | reflexivity | intros _; exact Hlen | right; split; assumption ].
      rewrite swapRequests_bind. cbn [fst snd swapRequests app].
      rewrite swapRequests_bind.
      destruct (balanceCheck_quiet (withKeys w ck ek) false (Some k)
                  (chainIdOf (setPrivateKey c ck))) as [-> ->].
      cbn [app]. rewrite swapRequests_bind.
      destruct (gasCheck_outcome (withKeys w ck ek) (setPrivateKey c ck)) as [-> Hgas].
      cbn [app].
      change (currentGasGwei (withKeys w ck ek)) with (currentGasGwei w) in Hgas.
      change (gasCeiling (setPrivateKey c ck)) with (gasCeiling c) in Hgas.
      destruct (snd (gasCheck (withKeys w ck ek) (setPrivateKey c ck))) as [e | []] eqn:Hs.
      * destruct (currentGasGwei w) as [gas |] eqn:Hg; cbn; [| reflexivity].
        destruct (js_gt gas (gasCeiling c)) eqn:Hhigh; cbn; [reflexivity |].
        exfalso. assert (inl e = inr tt :> ExecError + unit); [| discriminate].
        apply Hgas. eauto.
      * destruct (proj1 Hgas eq_refl) as (gas & -> & ->). cbn [negb andb].
        rewrite (realBranch_requests (withKeys w ck ek) (setPrivateKey c ck)
                   opp k a _ Hlen Ha).
        reflexivity.
    + unfold configAndKey, bind, when, log, emit, throw, ret.
      cbn [storedConfig withKeys]. rewrite Hc. cbn. rewrite Hreal. cbn. reflexivity.
  - unfold configAndKey, bind, when, log, emit, throw, ret.
    cbn [storedConfig withKeys]. rewrite Hc. cbn. reflexivity.
Qed.

Lemma routeRequests_from w opp a r :
  In r (routeRequests w opp a) -> from r = a.
Proof.
  unfold routeRequests.
  destruct (buildSwapTransaction w _); simpl; intros H;
    repeat destruct H as [<- | H]; try reflexivity; destruct H.
Qed.

(** ** The credential and the quote source *)

(** C9.  Take two real-mode attempts on the same opportunity, in worlds
    that differ only in the stored key and the environment key, whose
    resolved keys are well formed (66 characters, the only form from which
    ethers derives an address) and derive the same wallet address.  The
    two attempts send the same sequence of route-building requests to the
    quote source; every such request carries the derived address as its
    [from] field, and the sequence is either empty or the buy-leg and
    sell-leg requests determined by the address. *)
Theorem C9_route_requests_depend_on_the_address_only
    w opportunity ck1 ek1 ck2 ek2 k1 k2 a :
  resolvePrivateKey ck1 ek1 = Some k1 ->
  resolvePrivateKey ck2 ek2 = Some k2 ->
  String.length k1 = 66%nat ->
  String.length k2 = 66%nat ->
  walletAddress w k1 = Some a ->
  walletAddress w k2 = Some a ->
  let t1 := fst (executeArbitrageTrade (withKeys w ck1 ek1) opportunity false) in
  let t2 := fst (executeArbitrageTrade (withKeys w ck2 ek2) opportunity false) in
  swapRequests t1 = swapRequests t2 /\
  (forall r, In r (swapRequests t1) -> from r = a) /\
  (swapRequests t1 = [] \/ swapRequests t1 = routeRequests w opportunity a).
Proof.
  intros Hk1 Hk2 Hl1 Hl2 Ha1 Ha2 t1 t2. unfold t1, t2.
  rewrite (real_requests w opportunity ck1 ek1 k1 a Hk1 Hl1 Ha1).
  rewrite (real_requests w opportunity ck2 ek2 k2 a Hk2 Hl2 Ha2).
  split; [reflexivity |]. destruct (reachesRouting w).
  - split; [| right; reflexivity].
    intros r. apply routeRequests_from.
  - split; [intros r [] | left; reflexivity].
Qed.

Lemma C9_witness :
  Sample.keyLowerResolved <> Sample.keyUpper /\
  let t1 := fst (executeArbitrageTrade
                   (withKeys Sample.realWorld (Some Sample.keyLower) None)
                   Sample.candidate false) in
  let t2 := fst (executeArbitrageTrade
                   (withKeys Sample.realWorld None (Some Sample.keyUpper))
                   Sample.candidate false) in
  swapRequests t1 = swapRequests t2 /\
  (forall r, In r (swapRequests t1) -> from r = Sample.executor) /\
  (swapRequests t1 = [] \/
   swapRequests t1 = routeRequests Sample.realWorld Sample.candidate Sample.executor).
Proof.
  split; [discriminate |].
  apply (C9_route_requests_depend_on_the_address_only Sample.realWorld
           Sample.candidate (Some Sample.keyLower) None None (Some Sample.keyUpper)
           Sample.keyLowerResolved Sample.keyUpper Sample.executor);
    vm_compute; reflexivity.
Defined.

(** ** Simulation mode *)

Lemma allHex_app s1 s2 : allHex (s1 ++ s2)%string = allHex s1 && allHex s2.
Proof.
  induction s1 as [| c s1 IH]; [reflexivity |].
  simpl. rewrite IH. apply andb_assoc.
Qed.

Lemma pseudoTxHash_placeholder w :
  allHex (randomHex w 0) = true -> allHex (randomHex w 1) = true ->
  isPlaceholderTxId (pseudoTxHash w) = true.
Proof.
  intros H0 H1. unfold pseudoTxHash. simpl.
  rewrite !allHex_app, H0, H1. reflexivity.
Qed.

Lemma simulation_stays_off_chain w opp :
  List.filter isFlashLoan (fst (executeArbitrageTrade w opp true)) = [] /\
  swapRequests (fst (executeArbitrageTrade w opp true)) = [].
Proof.
  exec_unfold. cbn. repeat (exec_case; cbn); split; reflexivity.
Qed.

(** How a simulation-mode attempt ends, case by case. *)
Lemma simulation_cases w opp :
  let r := executeArbitrageTrade w opp true in
  match storedConfig w with
  | None =>
      TradeExecutionResult.success (snd r) = false /\
      TradeExecutionResult.txHash (snd r) = None /\
      TradeExecutionResult.error (snd r) = Some ErrConfigNotFound
  | Some c =>
      let pk := resolvePrivateKey (BotConfig.privateKey c) (envPrivateKey w) in
      if truthy pk && negb (Nat.eqb (String.length (default "" pk)) 66)
      then
        TradeExecutionResult.success (snd r) = false /\
        TradeExecutionResult.txHash (snd r) = None /\
        TradeExecutionResult.error (snd r) = Some ErrInvalidKeyFormat
      else
        match currentGasGwei w with
        | None =>
            TradeExecutionResult.success (snd r) = false /\
            TradeExecutionResult.txHash (snd r) = None /\
            TradeExecutionResult.error (snd r) = Some (ErrThrown "getGasPrice")
        | Some gas =>
            if js_gt gas (gasCeiling c)
            then
              TradeExecutionResult.success (snd r) = false /\
              TradeExecutionResult.txHash (snd r) = None /\
              TradeExecutionResult.error (snd r)
              = Some (ErrGasPriceTooHigh gas (BotConfig.maxGasPriceGwei c))
            else
              TradeExecutionResult.success (snd r) = true /\
              TradeExecutionResult.txHash (snd r) = Some (pseudoTxHash w) /\
              TradeExecutionResult.error (snd r) = None
        end
  end.
Proof.
  cbv zeta. exec_unfold.
  destruct (storedConfig w) as [c |]; cbn; [| repeat split].
  destruct (truthy (resolvePrivateKey (BotConfig.privateKey c) (envPrivateKey w))
            && negb (Nat.eqb (String.length
                                (default "" (resolvePrivateKey
                                               (BotConfig.privateKey c)
                                               (envPrivateKey w)))) 66));
    cbn; [repeat split |].
  destruct (currentGasGwei w) as [gas |]; cbn; [| repeat split].
  destruct (js_gt gas (gasCeiling c)); cbn; [repeat split |].
  destruct (js_ge _ _); cbn; repeat split.
Qed.

(** C3 (amended).  A simulation-mode attempt never calls the flash loan
    and never asks the quote source for a route.  When the stored
    configuration exists, any configured key has 66 characters after
    normalisation, and the gas price is read and does not exceed the
    ceiling, the attempt returns [success = true] with the generated
    pseudo transaction id, which is [0x] followed by hexadecimal digits
    whenever the two random readings are hexadecimal strings.  Otherwise
    it returns [success = false] and no transaction id, with the error of
    the check that stopped it: the missing configuration, the malformed
    key, the gas price that could not be read, or the gas price above the
    ceiling. *)
Theorem C3_simulation_outcome w opportunity :
  let r := executeArbitrageTrade w opportunity true in
  List.filter isFlashLoan (fst r) = [] /\
  swapRequests (fst r) = [] /\
  (forall c gas,
     storedConfig w = Some c ->
     (let pk := resolvePrivateKey (BotConfig.privateKey c) (envPrivateKey w) in
      truthy pk = true -> String.length (default "" pk) = 66%nat) ->
     currentGasGwei w = Some gas ->
     (gas <= gasCeiling c)%Q ->
     TradeExecutionResult.success (snd r) = true /\
     TradeExecutionResult.txHash (snd r) = Some (pseudoTxHash w) /\
     TradeExecutionResult.error (snd r) = None /\
     (allHex (randomHex w 0) = true -> allHex (randomHex w 1) = true ->
      isPlaceholderTxId (pseudoTxHash w) = true)) /\
  (storedConfig w = None ->
     TradeExecutionResult.success (snd r) = false /\
     TradeExecutionResult.txHash (snd r) = None /\
     TradeExecutionResult.error (snd r) = Some ErrConfigNotFound) /\
  (forall c key,
     storedConfig w = Some c ->
     resolvePrivateKey (BotConfig.privateKey c) (envPrivateKey w) = Some key ->
     key <> "" -> String.length key <> 66%nat ->
     TradeExecutionResult.success (snd r) = false /\
     TradeExecutionResult.txHash (snd r) = None /\
     TradeExecutionResult.error (snd r) = Some ErrInvalidKeyFormat) /\
  (forall c,
     storedConfig w = Some c ->
     (let pk := resolvePrivateKey (BotConfig.privateKey c) (envPrivateKey w) in
      truthy pk = true -> String.length (default "" pk) = 66%nat) ->
     (currentGasGwei w = None ->
      TradeExecutionResult.success (snd r) = false /\
      TradeExecutionResult.txHash (snd r) = None /\
      TradeExecutionResult.error (snd r) = Some (ErrThrown "getGasPrice")) /\
     (forall gas,
        currentGasGwei w = Some gas -> (gasCeiling c < gas)%Q ->
        TradeExecutionResult.success (snd r) = false /\
        TradeExecutionResult.txHash (snd r) = None /\
        TradeExecutionResult.error (snd r)
        = Some (ErrGasPriceTooHigh gas (BotConfig.maxGasPriceGwei c)))).
Proof.
  cbv zeta. destruct (simulation_stays_off_chain w opportunity) as [Hf Hs].
  pose proof (simulation_cases w opportunity) as Hcases. cbv zeta in Hcases.
  split; [exact Hf |]. split; [exact Hs |]. split; [| split; [| split]].
  - intros c gas Hc Hkey Hgas Hle.
    assert (Hgate : js_gt gas (gasCeiling c) = false).
    { unfold js_gt. apply negb_false_iff. apply Qle_bool_iff. exact Hle. }
    cbv zeta in Hkey. rewrite Hc in Hcases.
    assert (Hok : truthy (resolvePrivateKey (BotConfig.privateKey c) (envPrivateKey w))
                  && negb (Nat.eqb (String.length
                                      (default "" (resolvePrivateKey
                                                     (BotConfig.privateKey c)
                                                     (envPrivateKey w)))) 66)
                  = false).
    { case_eq (truthy (resolvePrivateKey (BotConfig.privateKey c) (envPrivateKey w)));
        intros Ht; [| reflexivity].
      rewrite (Hkey Ht). reflexivity. }
    rewrite Hok, Hgas, Hgate in Hcases.
    destruct Hcases as (H1 & H2 & H3). repeat split; auto.
    apply pseudoTxHash_placeholder.
  - intros Hc. rewrite Hc in Hcases. exact Hcases.
  - intros c key Hc Hk Hne Hlen. rewrite Hc, Hk in Hcases.
    rewrite (truthy_nonempty key Hne) in Hcases. cbn [default from_option andb] in Hcases.
    unfold Datatypes.id in Hcases.
    apply Nat.eqb_neq in Hlen. rewrite Hlen in Hcases. exact Hcases.
  - intros c Hc Hkey. cbv zeta in Hkey. rewrite Hc in Hcases.
    assert (Hok : truthy (resolvePrivateKey (BotConfig.privateKey c) (envPrivateKey w))
                  && negb (Nat.eqb (String.length
                                      (default "" (resolvePrivateKey
                                                     (BotConfig.privateKey c)
                                                     (envPrivateKey w)))) 66)
                  = false).
    { case_eq (truthy (resolvePrivateKey (BotConfig.privateKey c) (envPrivateKey w)));
        intros Ht; [| reflexivity].
      rewrite (Hkey Ht). reflexivity. }
    rewrite Hok in Hcases. split.
    + intros Hgas. rewrite Hgas in Hcases. exact Hcases.
    + intros gas Hgas Hhigh. rewrite Hgas in Hcases.
      apply js_gt_iff in Hhigh. rewrite Hhigh in Hcases. exact Hcases.
Qed.

Lemma C3_witness :
  let r := executeArbitrageTrade Sample.execWorld Sample.candidate true in
  TradeExecutionResult.success (snd r) = true /\
  TradeExecutionResult.txHash (snd r) = Some (pseudoTxHash Sample.execWorld) /\
  TradeExecutionResult.error (snd r) = None /\
  (allHex (randomHex Sample.execWorld 0) = true ->
   allHex (randomHex Sample.execWorld 1) = true ->
   isPlaceholderTxId (pseudoTxHash Sample.execWorld) = true).
Proof.
  apply (proj1 (proj2 (proj2 (C3_simulation_outcome Sample.execWorld
                                Sample.candidate)))
           Sample.botCfg 30%Q).
  - reflexivity.
  - vm_compute. discriminate.
  - reflexivity.
  - vm_compute. discriminate.
Defined.

(** A simulation-mode attempt at 80 Gwei under a 60 Gwei ceiling returns
    [success = false] and no transaction id. *)
Lemma C3_counterexample :
  let r := executeArbitrageTrade Sample.expensiveExecWorld Sample.candidate true in
  TradeExecutionResult.success (snd r) = false /\
  TradeExecutionResult.txHash (snd r) = None /\
  TradeExecutionResult.error (snd r) = Some (ErrGasPriceTooHigh 80 (Some 60)).
Proof. vm_compute. repeat split. Qed.

(** ** A malformed key *)

(** C10 (amended).  When a private key is present, from the stored
    configuration or the environment, and its length after [0x]
    normalisation is not 66, every execution attempt, simulation or real,
    fails before any call to the chain RPC or the quote source.  The error
    is the invalid-key-format one whenever the stored configuration exists
    and the attempt runs in simulation mode or real trading is enabled; a
    real-mode attempt with real trading disabled has already failed with
    the real-trading-disabled error, and an attempt without stored
    configuration with the configuration-not-found error. *)
Theorem C10_malformed_key_fails_before_the_chain w opportunity isSimulation key :
  resolvePrivateKey (storedConfig w ≫= BotConfig.privateKey) (envPrivateKey w)
    = Some key ->
  key <> "" ->
  String.length key <> 66%nat ->
  let r := executeArbitrageTrade w opportunity isSimulation in
  TradeExecutionResult.success (snd r) = false /\
  List.filter isChainInteraction (fst r) = [] /\
  (TradeExecutionResult.error (snd r) = Some ErrInvalidKeyFormat \/
   TradeExecutionResult.error (snd r) = Some ErrConfigNotFound \/
   TradeExecutionResult.error (snd r) = Some ErrRealTradingDisabled) /\
  (forall c, storedConfig w = Some c ->
     isSimulation = true \/ flag (BotConfig.enableRealTrading c) = true ->
     TradeExecutionResult.error (snd r) = Some ErrInvalidKeyFormat) /\
  (forall c, storedConfig w = Some c ->
     isSimulation = false -> flag (BotConfig.enableRealTrading c) = false ->
     TradeExecutionResult.error (snd r) = Some ErrRealTradingDisabled) /\
  (storedConfig w = None ->
     TradeExecutionResult.error (snd r) = Some ErrConfigNotFound).
Proof.
  intros Hk Hne Hlen. cbv zeta. exec_unfold.
  destruct (storedConfig w) as [c |] eqn:Hc; cbn.
  - cbn in Hk. rewrite Hk, (truthy_nonempty key Hne). cbn.
    apply Nat.eqb_neq in Hlen. rewrite Hlen. cbn.
    destruct isSimulation; cbn;
      [| destruct (flag (BotConfig.enableRealTrading c)) eqn:Hreal; cbn];
      repeat split; auto;
      try discriminate;
      try (intros c' Hc' [Hs | Hf]; try discriminate;
           inversion Hc'; subst; congruence);
      try (intros c' Hc' Hs Hf; try discriminate;
           inversion Hc'; subst; congruence).
  - repeat split; auto; intros c Hc'; discriminate.
Qed.

Lemma C10_witness :
  let r := executeArbitrageTrade Sample.shortKeyWorld Sample.candidate true in
  TradeExecutionResult.success (snd r) = false /\
  List.filter isChainInteraction (fst r) = [] /\
  (TradeExecutionResult.error (snd r) = Some ErrInvalidKeyFormat \/
   TradeExecutionResult.error (snd r) = Some ErrConfigNotFound \/
   TradeExecutionResult.error (snd r) = Some ErrRealTradingDisabled) /\
  (forall c, storedConfig Sample.shortKeyWorld = Some c ->
     true = true \/ flag (BotConfig.enableRealTrading c) = true ->
     TradeExecutionResult.error (snd r) = Some ErrInvalidKeyFormat) /\
  (forall c, storedConfig Sample.shortKeyWorld = Some c ->
     true = false -> flag (BotConfig.enableRealTrading c) = false ->
     TradeExecutionResult.error (snd r) = Some ErrRealTradingDisabled) /\
  (storedConfig Sample.shortKeyWorld = None ->
     TradeExecutionResult.error (snd r) = Some ErrConfigNotFound).
Proof.
  apply (C10_malformed_key_fails_before_the_chain Sample.shortKeyWorld
           Sample.candidate true "0xabc").
  - reflexivity.
  - discriminate.
  - vm_compute. discriminate.
Defined.

(** With the three-character key stored and real trading left off, a
    real-mode attempt fails on the real-trading switch, not on the key. *)
Lemma C10_counterexample :
  let w := Sample.shortKeyWorld in
  resolvePrivateKey (storedConfig w ≫= BotConfig.privateKey) (envPrivateKey w)
    = Some "0xabc" /\
  let r := executeArbitrageTrade w Sample.candidate false in
  TradeExecutionResult.success (snd r) = false /\
  TradeExecutionResult.error (snd r) = Some ErrRealTradingDisabled /\
  TradeExecutionResult.error (snd r) <> Some ErrInvalidKeyFormat.
Proof. vm_compute. repeat split. discriminate. Qed.

(** ** The freshness re-check *)

Lemma validateOpportunity_spec config now o :
  validateOpportunity config now o = true <->
  now - timestamp o <= 30000 /\
  (q_or (config ≫= BotConfig.minNetProfitPercent) (15 # 100)
   <= netProfitPercent o)%Q.
Proof.
  unfold validateOpportunity, revalidationMs.
  destruct (Z.gtb_spec (now - timestamp o) 30000) as [Hold | Hyoung].
  - split; [discriminate | lia].
  - destruct (js_lt _ _) eqn:E.
    + split; [discriminate |]. intros [_ Hle].
      apply js_lt_iff in E. exfalso. exact (Qlt_not_le _ _ E Hle).
    + split; [| reflexivity]. intros _. split; [lia |].
      unfold js_lt in E. apply negb_false_iff in E.
      apply Qle_bool_iff. exact E.
Qed.

(** C2 (the code departs from the claim).  [executeArbitrageTrade] never
    consults [validateOpportunity]: its calls and its result are the same
    whatever the timestamp and the net percent of the candidate.  A
    candidate 45 seconds old, and one whose net percent is below the
    current threshold, are both rejected by [validateOpportunity] and
    both executed with [success = true]. *)
Theorem C2_attempt_runs_without_the_freshness_check :
  (forall w o isSimulation t net,
     executeArbitrageTrade w (aged o t net) isSimulation
     = executeArbitrageTrade w o isSimulation) /\
  (validateOpportunity (Some Sample.botCfg) (Sample.t0 + 45000) Sample.candidate
     = false /\
   TradeExecutionResult.success
     (snd (executeArbitrageTrade Sample.execWorld Sample.candidate true)) = true) /\
  (validateOpportunity (Some Sample.strictCfg) Sample.t0 Sample.candidate = false /\
   TradeExecutionResult.success
     (snd (executeArbitrageTrade Sample.strictWorld Sample.candidate true)) = true).
Proof.
  split; [| split; split; vm_compute; reflexivity].
  intros w o isSimulation t net. reflexivity.
Qed.

(** * Properties of further code *)

(** ** The executor: records, balance step, flash loan *)

Lemma pipeline_split w opp sim :
  pipeline w opp sim
  = bind (configAndKey w sim) (fun ck =>
      bind (balanceCheck w sim (snd ck) (chainIdOf (fst ck))) (fun _ =>
        afterBalance w opp sim (fst ck) (snd ck))).
Proof. reflexivity. Qed.

(** What [executeArbitrageTrade] makes of its [try] block. *)
Lemma execute_shape w opp sim :
  executeArbitrageTrade w opp sim
  = match snd (pipeline w opp sim) with
    | inr r => (fst (pipeline w opp sim), r)
    | inl e =>
        (fst (pipeline w opp sim)
         ++ [EvLog "trade_execution" "error" ""; EvCreateTransaction "0x0" "failed"],
         {| TradeExecutionResult.success := false;
            TradeExecutionResult.txHash := None;
            TradeExecutionResult.profitUsd := None;
            TradeExecutionResult.gasCostUsd := None;
            TradeExecutionResult.message := MsgFailed e;
            TradeExecutionResult.error := Some e |})
    end.
Proof.
  unfold executeArbitrageTrade.
  destruct (pipeline w opp sim) as [t [e | r]]; reflexivity.
Qed.

Lemma txRecords_app t1 t2 : txRecords (t1 ++ t2) = txRecords t1 ++ txRecords t2.
Proof.
  induction t1 as [| e t1 IH]; [reflexivity |].
  destruct e; simpl; rewrite IH; reflexivity.
Qed.

Lemma txRecords_bind {A B} (m : Exec A) (k : A -> Exec B) :
  txRecords (fst (bind m k))
  = txRecords (fst m)
    ++ match snd m with
       | inr a => txRecords (fst (k a))
       | inl _ => []
       end.
Proof.
  destruct m as [t [e | a]]; cbn.
  - rewrite app_nil_r. reflexivity.
  - apply txRecords_app.
Qed.

Lemma unrecorded_ret {A} (a : A) : unrecorded (ret a).
Proof. reflexivity. Qed.

Lemma unrecorded_throw {A} e : unrecorded (@throw A e).
Proof. reflexivity. Qed.

Lemma unrecorded_log level step : unrecorded (log level step).
Proof. reflexivity. Qed.

Lemma unrecorded_bind {A B} (m : Exec A) (k : A -> Exec B) :
  unrecorded m -> (forall a, unrecorded (k a)) -> unrecorded (bind m k).
Proof.
  unfold unrecorded. intros Hm Hk. rewrite txRecords_bind, Hm.
  destruct (snd m); [reflexivity | apply Hk].
Qed.

Lemma unrecorded_when b m : unrecorded m -> unrecorded (when b m).
Proof. destruct b; [auto | reflexivity]. Qed.

Lemma unrecorded_await {A} e (answer : option A) cause :
  txRecords [e] = [] -> unrecorded (await e answer cause).
Proof. unfold unrecorded. destruct answer; auto. Qed.

Lemma unrecorded_attempt {A} (answer : option A) cause :
  unrecorded (attempt answer cause).
Proof. destruct answer; reflexivity. Qed.

Lemma unrecorded_emit e : txRecords [e] = [] -> unrecorded (emit e).
Proof. auto. Qed.

Lemma unrecorded_tryCatch {A} (m : Exec A) h :
  unrecorded m -> (forall e, unrecorded (h e)) -> unrecorded (tryCatch m h).
Proof.
  unfold unrecorded. intros Hm Hh. destruct m as [t [e | a]]; cbn in *; [| exact Hm].
  rewrite txRecords_app, Hm. apply Hh.
Qed.

Lemma recordsOutcome_bind {A} status (m : Exec A) k :
  unrecorded m -> (forall a, recordsOutcome status (k a)) ->
  recordsOutcome status (bind m k).
Proof.
  unfold unrecorded, recordsOutcome. intros Hm Hk.
  destruct m as [t [e | a]]; cbn in *; [exact Hm |].
  specialize (Hk a). destruct (snd (k a)) as [e | r].
  - rewrite txRecords_app, Hm, Hk. reflexivity.
  - destruct Hk as (Hs & He & h & Hh & Hrec). split; [exact Hs |].
    split; [exact He |].
    exists h. split; [exact Hh |]. rewrite txRecords_app, Hm, Hrec. reflexivity.
Qed.

Create HintDb records.
#[local] Hint Resolve unrecorded_ret unrecorded_throw unrecorded_log
  unrecorded_bind unrecorded_when unrecorded_attempt unrecorded_tryCatch
  recordsOutcome_bind : records.
#[local] Hint Extern 1 (unrecorded (await _ _ _)) =>
  apply unrecorded_await; reflexivity : records.
#[local] Hint Extern 1 (unrecorded (emit _)) =>
  apply unrecorded_emit; reflexivity : records.
#[local] Hint Extern 5 (recordsOutcome _ (bind (emit (EvCreateTransaction _ _)) _)) =>
  unfold recordsOutcome, bind, when, emit, log, ret;
  repeat (cbn; match goal with
               | |- context [if ?b then _ else _] => destruct b
               end);
  cbn; eauto : records.

Lemma configAndKey_unrecorded w sim : unrecorded (configAndKey w sim).
Proof.
  unfold configAndKey. destruct (storedConfig w); auto 20 with records.
Qed.

Lemma balanceCheck_unrecorded w sim pk chain :
  unrecorded (balanceCheck w sim pk chain).
Proof. unfold balanceCheck. auto 20 with records. Qed.

Lemma gasCheck_unrecorded w c : unrecorded (gasCheck w c).
Proof. unfold gasCheck. auto 20 with records. Qed.

Lemma simulationBranch_records w c opp :
  recordsOutcome "success" (simulationBranch w c opp).
Proof. unfold simulationBranch. cbv zeta. auto 20 with records. Qed.

Lemma buildBuySwap_unrecorded w opp loan wallet :
  unrecorded (buildBuySwap w opp loan wallet).
Proof.
  unfold buildBuySwap. cbv zeta.
  destruct (buildSwapTransaction w _); auto 20 with records.
Qed.

Lemma buildSellSwap_unrecorded w opp buySwap wallet :
  unrecorded (buildSellSwap w opp buySwap wallet).
Proof.
  unfold buildSellSwap. cbv zeta.
  destruct (buildSwapTransaction w _); auto 20 with records.
Qed.

Lemma flashLoanStage_records w c opp key chain loan buySwap sellSwap :
  recordsOutcome "pending"
    (flashLoanStage w c opp key chain loan buySwap sellSwap).
Proof. unfold flashLoanStage. cbv zeta. auto 40 with records. Qed.

#[local] Hint Resolve buildBuySwap_unrecorded buildSellSwap_unrecorded
  flashLoanStage_records : records.

Lemma realBranch_records w c opp pk chain :
  recordsOutcome "pending" (realBranch w c opp pk chain).
Proof. unfold realBranch. cbv zeta. auto 40 with records. Qed.

Lemma pipeline_records w opp (sim : bool) :
  recordsOutcome (if sim then "success" else "pending") (pipeline w opp sim).
Proof.
  rewrite pipeline_split.
  apply recordsOutcome_bind; [apply configAndKey_unrecorded |]. intros ck.
  apply recordsOutcome_bind; [apply balanceCheck_unrecorded |]. intros _.
  unfold afterBalance.
  apply recordsOutcome_bind; [apply gasCheck_unrecorded |]. intros _.
  destruct sim; [apply simulationBranch_records | apply realBranch_records].
Qed.

(** X1.  Every execution attempt, in either mode and whatever the
    collaborators answer, writes exactly one transaction record (storage
    and notification calls are taken to succeed).  A
    successful attempt writes it with the transaction id it returns and
    with status [success] (simulation) or [pending] (real); a failed
    attempt writes the record [0x0] / [failed], returns no transaction id
    and carries the error that stopped it. *)
Theorem X1_one_transaction_record_per_attempt w opportunity isSimulation :
  let r := executeArbitrageTrade w opportunity isSimulation in
  exists h s,
    txRecords (fst r) = [(h, s)] /\
    (TradeExecutionResult.success (snd r) = true ->
       TradeExecutionResult.txHash (snd r) = Some h /\
       s = (if isSimulation then "success" else "pending") /\
       TradeExecutionResult.error (snd r) = None) /\
    (TradeExecutionResult.success (snd r) = false ->
       h = "0x0" /\ s = "failed" /\
       TradeExecutionResult.txHash (snd r) = None /\
       is_Some (TradeExecutionResult.error (snd r))).
Proof.
  cbv zeta. rewrite execute_shape.
  pose proof (pipeline_records w opportunity isSimulation) as H.
  unfold recordsOutcome in H.
  destruct (snd (pipeline w opportunity isSimulation)) as [e | r] eqn:Hs.
  - exists "0x0", "failed". cbn [fst snd]. rewrite txRecords_app, H. cbn.
    repeat split; eauto; discriminate.
  - destruct H as (Hok & Herr & h & Hh & Hrec).
    exists h, (if isSimulation then "success" else "pending"). cbn [fst snd].
    split; [exact Hrec |]. split.
    + intros _. auto.
    + rewrite Hok. discriminate.
Qed.

Arguments offBalance : simpl never.

Lemma offBalance_app t1 t2 : offBalance (t1 ++ t2) = offBalance t1 ++ offBalance t2.
Proof. apply List.filter_app. Qed.

Lemma balanceCheck_offBalance w sim pk chain :
  snd (balanceCheck w sim pk chain) = inr tt /\
  offBalance (fst (balanceCheck w sim pk chain)) = [].
Proof.
  unfold balanceCheck, tryCatch, bind, when, log, emit, throw, ret, await, attempt.
  repeat (exec_case; cbn); try (split; reflexivity).
  all: destruct (walletAddress w _); cbn; repeat (exec_case; cbn); split; reflexivity.
Qed.

(** X2.  The balance step never decides an attempt.  Whatever
    [getNativeBalance] answers (a balance below 0.1 MATIC, an error, or a
    sufficient balance), the attempt returns the same result and makes the
    same calls outside the balance step: the [throw] for an insufficient
    balance is caught by the step's own [catch], which only writes a
    warning. *)
Theorem X2_balance_step_never_decides w balance opportunity isSimulation :
  let r1 := executeArbitrageTrade (withBalance w balance) opportunity isSimulation in
  let r2 := executeArbitrageTrade w opportunity isSimulation in
  snd r1 = snd r2 /\ offBalance (fst r1) = offBalance (fst r2).
Proof.
  cbv zeta. rewrite !execute_shape, !pipeline_split.
  change (configAndKey (withBalance w balance) isSimulation)
    with (configAndKey w isSimulation).
  destruct (configAndKey w isSimulation) as [t [e | [c pk]]]; cbn [bind fst snd].
  - split; reflexivity.
  - change (afterBalance (withBalance w balance) opportunity isSimulation c pk)
      with (afterBalance w opportunity isSimulation c pk).
    destruct (balanceCheck_offBalance (withBalance w balance) isSimulation pk
                (chainIdOf c)) as [Hs1 Ht1].
    destruct (balanceCheck_offBalance w isSimulation pk (chainIdOf c))
      as [Hs2 Ht2].
    destruct (balanceCheck (withBalance w balance) isSimulation pk (chainIdOf c))
      as [tb1 [e1 | []]]; [discriminate |].
    destruct (balanceCheck w isSimulation pk (chainIdOf c))
      as [tb2 [e2 | []]]; [discriminate |].
    cbn [bind fst snd] in *.
    destruct (afterBalance w opportunity isSimulation c pk) as [t' [e | r]];
      cbn [fst snd]; (split; [reflexivity |]);
      rewrite !offBalance_app, Ht1, Ht2; reflexivity.
Qed.

Lemma flashLoans_app t1 t2 : flashLoans (t1 ++ t2) = flashLoans t1 ++ flashLoans t2.
Proof.
  induction t1 as [| e t1 IH]; [reflexivity |].
  destruct e; simpl; rewrite IH; reflexivity.
Qed.

Lemma flashLoans_bind {A B} (m : Exec A) (k : A -> Exec B) :
  flashLoans (fst (bind m k))
  = flashLoans (fst m)
    ++ match snd m with
       | inr a => flashLoans (fst (k a))
       | inl _ => []
       end.
Proof.
  destruct m as [t [e | a]]; cbn.
  - rewrite app_nil_r. reflexivity.
  - apply flashLoans_app.
Qed.

Lemma loanless_ret {A} (a : A) : loanless (ret a).
Proof. reflexivity. Qed.

Lemma loanless_throw {A} e : loanless (@throw A e).
Proof. reflexivity. Qed.

Lemma loanless_log level step : loanless (log level step).
Proof. reflexivity. Qed.

Lemma loanless_bind {A B} (m : Exec A) (k : A -> Exec B) :
  loanless m -> (forall a, loanless (k a)) -> loanless (bind m k).
Proof.
  unfold loanless. intros Hm Hk. rewrite flashLoans_bind, Hm.
  destruct (snd m); [reflexivity | apply Hk].
Qed.

Lemma loanless_when b m : loanless m -> loanless (when b m).
Proof. destruct b; [auto | reflexivity]. Qed.

Lemma loanless_await {A} e (answer : option A) cause :
  flashLoans [e] = [] -> loanless (await e answer cause).
Proof. unfold loanless. destruct answer; auto. Qed.

Lemma loanless_attempt {A} (answer : option A) cause :
  loanless (attempt answer cause).
Proof. destruct answer; reflexivity. Qed.

Lemma loanless_emit e : flashLoans [e] = [] -> loanless (emit e).
Proof. auto. Qed.

Lemma loanless_tryCatch {A} (m : Exec A) h :
  loanless m -> (forall e, loanless (h e)) -> loanless (tryCatch m h).
Proof.
  unfold loanless. intros Hm Hh. destruct m as [t [e | a]]; cbn in *; [| exact Hm].
  rewrite flashLoans_app, Hm. apply Hh.
Qed.

Create HintDb loans.
#[local] Hint Resolve loanless_ret loanless_throw loanless_log loanless_bind
  loanless_when loanless_attempt loanless_tryCatch : loans.
#[local] Hint Extern 1 (loanless (await _ _ _)) =>
  apply loanless_await; reflexivity : loans.
#[local] Hint Extern 1 (loanless (emit _)) =>
  apply loanless_emit; reflexivity : loans.

Lemma configAndKey_loanless w sim : loanless (configAndKey w sim).
Proof. unfold configAndKey. destruct (storedConfig w); auto 20 with loans. Qed.

Lemma balanceCheck_loanless w sim pk chain : loanless (balanceCheck w sim pk chain).
Proof. unfold balanceCheck. auto 20 with loans. Qed.

Lemma gasCheck_loanless w c : loanless (gasCheck w c).
Proof. unfold gasCheck. auto 20 with loans. Qed.

Lemma simulationBranch_loanless w c opp : loanless (simulationBranch w c opp).
Proof. unfold simulationBranch. cbv zeta. auto 20 with loans. Qed.

Lemma buildBuySwap_loanless w opp loan wallet :
  loanless (buildBuySwap w opp loan wallet).
Proof.
  unfold buildBuySwap. cbv zeta.
  destruct (buildSwapTransaction w _); auto 20 with loans.
Qed.

Lemma buildSellSwap_loanless w opp buySwap wallet :
  loanless (buildSellSwap w opp buySwap wallet).
Proof.
  unfold buildSellSwap. cbv zeta.
  destruct (buildSwapTransaction w _); auto 20 with loans.
Qed.

Lemma failure_loanless e : loanless (failure e).
Proof. reflexivity. Qed.

Lemma flashLoans_execute w opp sim :
  flashLoans (fst (executeArbitrageTrade w opp sim))
  = flashLoans (fst (pipeline w opp sim)).
Proof.
  rewrite execute_shape.
  destruct (snd (pipeline w opp sim)); cbn [fst]; [| reflexivity].
  rewrite flashLoans_app. apply app_nil_r.
Qed.

Lemma truthy_some (o : option string) :
  truthy o = true -> exists k, o = Some k /\ k <> "".
Proof.
  destruct o as [[| a s] |]; try discriminate.
  intros _. exists (String a s). split; [reflexivity | discriminate].
Qed.

(** One step of a stage, seen from its flash-loan calls. *)
Lemma flashLoans_guard {B} b e (k : unit -> Exec B) :
  flashLoans (fst (bind (when b (throw e)) k))
  = if b then [] else flashLoans (fst (k tt)).
Proof. destruct b; reflexivity. Qed.

Lemma flashLoans_log {B} level step (k : unit -> Exec B) :
  flashLoans (fst (bind (log level step) k)) = flashLoans (fst (k tt)).
Proof. reflexivity. Qed.

Lemma flashLoans_emit {B} e (k : unit -> Exec B) :
  flashLoans (fst (bind (emit e) k)) = flashLoans [e] ++ flashLoans (fst (k tt)).
Proof. rewrite flashLoans_bind. reflexivity. Qed.

Lemma flashLoans_await {A B} e (answer : option A) cause (k : A -> Exec B) :
  flashLoans (fst (bind (await e answer cause) k))
  = flashLoans [e]
    ++ match answer with
       | Some a => flashLoans (fst (k a))
       | None => []
       end.
Proof. rewrite flashLoans_bind. destruct answer; reflexivity. Qed.

Lemma flashLoans_when {B} b m (k : unit -> Exec B) :
  flashLoans (fst (bind (when b m) k))
  = if b then flashLoans (fst (bind m k)) else flashLoans (fst (k tt)).
Proof. destruct b; reflexivity. Qed.

Lemma snd_bind {A B} (m : Exec A) (k : A -> Exec B) :
  snd (bind m k)
  = match snd m with
    | inl e => inl e
    | inr a => snd (k a)
    end.
Proof. destruct m as [t [e | a]]; reflexivity. Qed.

Lemma snd_when {B} b m (k : unit -> Exec B) :
  snd (bind (when b m) k) = if b then snd (bind m k) else snd (k tt).
Proof. destruct b; reflexivity. Qed.

Lemma snd_log {B} level step (k : unit -> Exec B) :
  snd (bind (log level step) k) = snd (k tt).
Proof. reflexivity. Qed.

Lemma buildBuySwap_snd w opp loan wallet :
  snd (buildBuySwap w opp loan wallet)
  = match buildSwapTransaction w
            (swapRequest (address (tokenIn opp)) (address (tokenOut opp)) loan
               wallet) with
    | inr buySwap => inr buySwap
    | inl cause => inl (ErrBuildBuy cause)
    end.
Proof.
  unfold buildBuySwap. cbv zeta. destruct (buildSwapTransaction w _); reflexivity.
Qed.

Lemma buildSellSwap_snd w opp buySwap wallet :
  snd (buildSellSwap w opp buySwap wallet)
  = match buildSwapTransaction w
            (swapRequest (address (tokenOut opp)) (address (tokenIn opp))
               (Qfloor (SwapTx.toAmount buySwap)) wallet) with
    | inr sellSwap => inr sellSwap
    | inl cause => inl (ErrBuildSell cause)
    end.
Proof.
  unfold buildSellSwap. cbv zeta. destruct (buildSwapTransaction w _); reflexivity.
Qed.

(** The last stage either stops before the flash-loan call or makes it
    once, after its own checks. *)
Lemma flashLoanStage_loans w c opp key chain buySwap sellSwap :
  let loan := parseUnits (flashLoanAmount opp) (decimals (tokenIn opp)) in
  let m := flashLoanStage w c opp key chain loan buySwap sellSwap in
  flashLoans (fst m) = [] \/
  exists contract,
    contractAddress w c = Some contract /\ contract <> "" /\
    isAddress w (routerAddress buySwap (buyDex opp) contract) = true /\
    isAddress w (routerAddress sellSwap (sellDex opp) contract) = true /\
    truthy (SwapTx.tx buySwap ≫= SwapTx.data) = true /\
    truthy (SwapTx.tx sellSwap ≫= SwapTx.data) = true /\
    (exists code, getCode w contract = Some code /\ code <> "0x" /\ code <> "0x0") /\
    flashLoans (fst m) = [(flashLoanRequest opp contract buySwap sellSwap, key)].
Proof.
  cbv zeta. unfold flashLoanStage. cbv zeta. fold (contractAddress w c).
  rewrite flashLoans_guard.
  destruct (truthy (contractAddress w c)) eqn:Hc; cbn [negb]; [| left; reflexivity].
  destruct (truthy_some _ Hc) as (contract & Hcontract & Hne).
  rewrite Hcontract. cbn [default from_option]. unfold Datatypes.id.
  rewrite flashLoans_log, flashLoans_guard.
  destruct (isAddress w (routerAddress buySwap (buyDex opp) contract)) eqn:Hb;
    cbn [negb]; [| left; reflexivity].
  rewrite flashLoans_guard.
  destruct (isAddress w (routerAddress sellSwap (sellDex opp) contract)) eqn:Hs;
    cbn [negb]; [| left; reflexivity].
  rewrite flashLoans_guard.
  destruct (truthy (SwapTx.tx buySwap ≫= SwapTx.data)) eqn:Hbd;
    cbn [negb]; [| left; reflexivity].
  rewrite flashLoans_guard.
  destruct (truthy (SwapTx.tx sellSwap ≫= SwapTx.data)) eqn:Hsd;
    cbn [negb]; [| left; reflexivity].
  rewrite flashLoans_log, flashLoans_await.
  change (flashLoans [EvGetCode contract]) with (@nil (FlashLoanRequest * string)).
  cbn [app].
  destruct (getCode w contract) as [code |] eqn:Hcode; [| left; reflexivity].
  rewrite flashLoans_guard.
  destruct (String.eqb code "0x") eqn:H0; cbn [orb]; [left; reflexivity |].
  destruct (String.eqb code "0x0") eqn:H1; [left; reflexivity |].
  apply String.eqb_neq in H0, H1.
  right. exists contract. repeat (split; [assumption || eauto |]).
  rewrite !flashLoans_log, flashLoans_await.
  unfold flashLoanRequest.
  match goal with
  | |- flashLoans [EvFlashLoan ?r key] ++ ?rest = _ =>
      change (flashLoans [EvFlashLoan r key]) with [(r, key)];
      replace rest with (@nil (FlashLoanRequest * string)); [reflexivity |]
  end.
  destruct (executeFlashLoan w _ key) as [res |]; [| reflexivity].
  rewrite flashLoans_guard.
  destruct (negb (FlashLoanResult.success res)); [reflexivity |].
  rewrite flashLoans_emit, flashLoans_log, flashLoans_emit. reflexivity.
Qed.

Lemma configAndKey_inr w sim c pk :
  snd (configAndKey w sim) = inr (c, pk) ->
  storedConfig w = Some c /\
  pk = resolvePrivateKey (BotConfig.privateKey c) (envPrivateKey w) /\
  (truthy pk = true -> String.length (default "" pk) = 66%nat) /\
  (sim = false -> flag (BotConfig.enableRealTrading c) = true /\ truthy pk = true).
Proof.
  unfold configAndKey, bind, when, log, emit, throw, ret.
  destruct (storedConfig w) as [c' |]; cbn; [| discriminate].
  set (pk' := resolvePrivateKey (BotConfig.privateKey c') (envPrivateKey w)).
  destruct sim; cbn.
  - destruct (truthy pk') eqn:Ht; cbn.
    + destruct (Nat.eqb (String.length (default "" pk')) 66) eqn:Hl; cbn;
        [| discriminate].
      intros H. inversion H. subst. apply Nat.eqb_eq in Hl.
      repeat split; auto; discriminate.
    + intros H. inversion H. subst.
      repeat split; auto; try discriminate. fold pk'. congruence.
  - destruct (flag (BotConfig.enableRealTrading c')) eqn:Hf; cbn; [| discriminate].
    destruct (truthy pk') eqn:Ht; cbn; [| discriminate].
    destruct (Nat.eqb (String.length (default "" pk')) 66) eqn:Hl; cbn;
      [| discriminate].
    intros H. inversion H. subst. apply Nat.eqb_eq in Hl.
    repeat split; auto.
Qed.

Lemma realBranch_loans w c opp pk chain :
  let m := realBranch w c opp pk chain in
  flashLoans (fst m) = [] \/
  exists key contract buySwap sellSwap,
    pk = Some key /\
    truthy (trim <$> BotConfig.oneinchApiKey c) = true /\
    (exists wallet,
       walletAddress w key = Some wallet /\
       buildSwapTransaction w
         (swapRequest (address (tokenIn opp)) (address (tokenOut opp))
            (parseUnits (flashLoanAmount opp) (decimals (tokenIn opp))) wallet)
         = inr buySwap /\
       buildSwapTransaction w
         (swapRequest (address (tokenOut opp)) (address (tokenIn opp))
            (Qfloor (SwapTx.toAmount buySwap)) wallet) = inr sellSwap) /\
    contractAddress w c = Some contract /\ contract <> "" /\
    isAddress w (routerAddress buySwap (buyDex opp) contract) = true /\
    isAddress w (routerAddress sellSwap (sellDex opp) contract) = true /\
    truthy (SwapTx.tx buySwap ≫= SwapTx.data) = true /\
    truthy (SwapTx.tx sellSwap ≫= SwapTx.data) = true /\
    (exists code, getCode w contract = Some code /\ code <> "0x" /\ code <> "0x0") /\
    flashLoans (fst m) = [(flashLoanRequest opp contract buySwap sellSwap, key)].
Proof.
  cbv zeta.
  remember (flashLoans (fst (realBranch w c opp pk chain))) as L eqn:HL.
  unfold realBranch in HL. cbv zeta in HL.
  rewrite flashLoans_when in HL.
  destruct (truthy (trim <$> BotConfig.oneinchApiKey c)) eqn:Hapi;
    cbn [negb] in HL; [| left; exact HL].
  rewrite flashLoans_log, flashLoans_guard in HL.
  destruct (truthy pk) eqn:Ht; cbn [negb] in HL; [| left; exact HL].
  destruct (truthy_some _ Ht) as (key & -> & Hne).
  cbn [default from_option] in HL. unfold Datatypes.id in HL.
  rewrite flashLoans_bind in HL.
  destruct (walletAddress w key) as [wallet |] eqn:Hw;
    cbn [attempt ret throw fst snd app flashLoans] in HL; [| left; exact HL].
  rewrite !flashLoans_log, flashLoans_bind, buildBuySwap_loanless,
    buildBuySwap_snd in HL.
  cbn [app] in HL.
  destruct (buildSwapTransaction w _) as [m1 | buySwap] eqn:Hbuy;
    [left; exact HL |].
  rewrite flashLoans_bind, buildSellSwap_loanless, buildSellSwap_snd in HL.
  cbn [app] in HL.
  destruct (buildSwapTransaction w
              (swapRequest (address (tokenOut opp)) _ _ _))
    as [m2 | sellSwap] eqn:Hsell; [left; exact HL |].
  rewrite flashLoans_log in HL.
  destruct (flashLoanStage_loans w c opp key chain buySwap sellSwap)
    as [H | (contract & H1 & H2 & H3 & H4 & H5 & H6 & H7 & H)];
    rewrite H in HL; [left; exact HL |].
  right. exists key, contract, buySwap, sellSwap.
  repeat (split; [assumption || eauto |]). exact HL.
Qed.

(** X3.  An attempt invokes the flash loan at most once, and only in real
    mode after every guard has passed: real trading enabled, a key of 66
    characters after normalisation that yields a wallet, gas within the
    ceiling, the 1inch API key set, both legs built by the quote source
    with non-empty call data, valid router addresses and a configured
    contract address whose code is neither [0x] nor [0x0].  The call then
    carries the contract as receiver, the loan amount in token units, both
    legs, and a minimum profit of one thousandth of the loan (truncated);
    a simulation attempt never makes it. *)
Theorem X3_flash_loan_only_behind_every_guard w opportunity isSimulation :
  let t := fst (executeArbitrageTrade w opportunity isSimulation) in
  flashLoans t = [] \/
  exists c key contract buySwap sellSwap,
    isSimulation = false /\
    flashLoanGuards w opportunity c key contract buySwap sellSwap /\
    flashLoans t
    = [(flashLoanRequest opportunity contract buySwap sellSwap, key)].
Proof.
  cbv zeta.
  remember (flashLoans (fst (executeArbitrageTrade w opportunity isSimulation)))
    as L eqn:HL.
  rewrite flashLoans_execute, pipeline_split, flashLoans_bind in HL.
  rewrite (configAndKey_loanless w isSimulation) in HL. cbn [app] in HL.
  destruct (snd (configAndKey w isSimulation)) as [e | [c pk]] eqn:Hck;
    [left; exact HL |].
  apply configAndKey_inr in Hck. destruct Hck as (Hc & Hpk & Hlen & Hreal).
  cbn [fst snd] in HL. rewrite flashLoans_bind in HL.
  rewrite (balanceCheck_loanless w isSimulation pk (chainIdOf c)) in HL.
  destruct (balanceCheck_offBalance w isSimulation pk (chainIdOf c)) as [Hb _].
  rewrite Hb in HL.
  cbn [app] in HL. unfold afterBalance in HL. rewrite flashLoans_bind in HL.
  rewrite (gasCheck_loanless w c) in HL. cbn [app] in HL.
  destruct (gasCheck_outcome w c) as [_ Hgas].
  destruct (snd (gasCheck w c)) as [e | []] eqn:Hg; [left; exact HL |].
  destruct (proj1 Hgas eq_refl) as (gas & Hgas1 & Hgas2).
  destruct isSimulation.
  - left. rewrite HL. apply simulationBranch_loanless.
  - destruct (Hreal eq_refl) as [Hflag Htruthy].
    destruct (realBranch_loans w c opportunity pk (chainIdOf c))
      as [H | (key & contract & buySwap & sellSwap & Hk & Hapi & Hlegs & H1 & H2
               & H3 & H4 & H5 & H6 & H7 & H8)];
      [left; rewrite HL; exact H |].
    right. exists c, key, contract, buySwap, sellSwap.
    split; [reflexivity |]. split; [| rewrite HL; exact H8].
    subst pk. rewrite Hk in Hlen, Htruthy.
    pose proof (Hlen Htruthy) as Hl.
    exact (conj Hc (conj Hflag (conj Hk (conj Hl
             (conj (ex_intro _ gas (conj Hgas1 Hgas2))
                (conj Hapi (conj Hlegs (conj H1 (conj H2 (conj H3 (conj H4
                   (conj H5 (conj H6 H7))))))))))))).
Qed.

(** A real-mode attempt that passes the early guards reaches the flash
    loan on [Sample.realWorld]. *)
Example flash_loan_is_reachable :
  flashLoans (fst (executeArbitrageTrade
                     (withKeys Sample.realWorld None (Some Sample.keyUpper))
                     Sample.candidate false))
  = [(flashLoanRequest Sample.candidate Sample.contract Sample.builtSwap
        Sample.builtSwap, Sample.keyUpper)].
Proof. vm_compute. reflexivity. Qed.

Lemma configAndKey_quiet w sim : quiet (configAndKey w sim).
Proof. unfold configAndKey. destruct (storedConfig w); auto 20 with quiet. Qed.

Lemma reachesRouting_true w c :
  storedConfig w = Some c -> reachesRouting w = true ->
  flag (BotConfig.enableRealTrading c) = true /\
  (exists gas, currentGasGwei w = Some gas /\ js_gt gas (gasCeiling c) = false) /\
  truthy (trim <$> BotConfig.oneinchApiKey c) = true.
Proof.
  unfold reachesRouting. intros ->. rewrite !andb_true_iff.
  intros [[Hf Hg] Ha]. repeat split; try assumption.
  destruct (currentGasGwei w) as [gas |]; [| discriminate].
  exists gas. split; [reflexivity |]. apply negb_true_iff. exact Hg.
Qed.

(** Under the early guards, the [try] block ends as the real branch does,
    and its route requests are those of the real branch. *)
Lemma pipeline_reaches_realBranch w opp c key wallet :
  storedConfig w = Some c ->
  resolvePrivateKey (BotConfig.privateKey c) (envPrivateKey w) = Some key ->
  String.length key = 66%nat ->
  walletAddress w key = Some wallet ->
  reachesRouting w = true ->
  snd (pipeline w opp false) = snd (realBranch w c opp (Some key) (chainIdOf c)) /\
  swapRequests (fst (pipeline w opp false)) = routeRequests w opp wallet /\
  flashLoans (fst (pipeline w opp false))
  = flashLoans (fst (realBranch w c opp (Some key) (chainIdOf c))).
Proof.
  intros Hc Hk Hlen Hw Hreach.
  destruct (reachesRouting_true w c Hc Hreach) as (Hflag & (gas & Hg1 & Hg2) & Hapi).
  pose proof (truthy_of_length key Hlen) as Ht.
  rewrite pipeline_split.
  rewrite (configAndKey_ok w false c Hc); rewrite ?Hk;
    [| intros _; exact Hlen | right; split; assumption].
  cbn [bind fst snd].
  destruct (balanceCheck_quiet w false (Some key) (chainIdOf c)) as [Hbs Hbq].
  pose proof (balanceCheck_loanless w false (Some key) (chainIdOf c)) as Hbl.
  unfold loanless in Hbl.
  destruct (balanceCheck w false (Some key) (chainIdOf c)) as [tb [eb | []]];
    [discriminate |].
  cbn [bind fst snd] in *. unfold afterBalance.
  destruct (gasCheck_outcome w c) as [Hgq Hgs].
  pose proof (gasCheck_loanless w c) as Hgl. unfold loanless in Hgl.
  assert (Hgok : snd (gasCheck w c) = inr tt) by (apply Hgs; eauto).
  destruct (gasCheck w c) as [tg [eg | []]]; [discriminate |].
  cbn [bind fst snd] in *.
  split; [reflexivity |]. split.
  - rewrite !swapRequests_app, Hbq, Hgq. cbn [swapRequests app].
    rewrite (realBranch_requests w c opp key wallet _ Hlen Hw), Hapi. reflexivity.
  - rewrite !flashLoans_app, Hbl, Hgl. reflexivity.
Qed.

Lemma realBranch_buy_fails w c opp key wallet chain cause :
  truthy (trim <$> BotConfig.oneinchApiKey c) = true ->
  key <> "" ->
  walletAddress w key = Some wallet ->
  buildSwapTransaction w
    (swapRequest (address (tokenIn opp)) (address (tokenOut opp))
       (parseUnits (flashLoanAmount opp) (decimals (tokenIn opp))) wallet)
    = inl cause ->
  snd (realBranch w c opp (Some key) chain) = inl (ErrBuildBuy cause) /\
  flashLoans (fst (realBranch w c opp (Some key) chain)) = [].
Proof.
  intros Hapi Hne Hw Hbuy. pose proof (truthy_nonempty key Hne) as Ht.
  unfold realBranch. cbv zeta.
  rewrite flashLoans_when, snd_when, Hapi. cbn [negb].
  rewrite flashLoans_log, snd_log, flashLoans_guard, snd_when, Ht. cbn [negb].
  cbn [default from_option]. unfold Datatypes.id.
  rewrite flashLoans_bind, snd_bind, Hw. cbn [attempt ret fst snd app flashLoans].
  rewrite !flashLoans_log, !snd_log.
  rewrite flashLoans_bind, snd_bind, buildBuySwap_loanless, buildBuySwap_snd, Hbuy.
  split; reflexivity.
Qed.

Lemma realBranch_sell_fails w c opp key wallet chain buySwap cause :
  truthy (trim <$> BotConfig.oneinchApiKey c) = true ->
  key <> "" ->
  walletAddress w key = Some wallet ->
  buildSwapTransaction w
    (swapRequest (address (tokenIn opp)) (address (tokenOut opp))
       (parseUnits (flashLoanAmount opp) (decimals (tokenIn opp))) wallet)
    = inr buySwap ->
  buildSwapTransaction w
    (swapRequest (address (tokenOut opp)) (address (tokenIn opp))
       (Qfloor (SwapTx.toAmount buySwap)) wallet) = inl cause ->
  snd (realBranch w c opp (Some key) chain) = inl (ErrBuildSell cause) /\
  flashLoans (fst (realBranch w c opp (Some key) chain)) = [].
Proof.
  intros Hapi Hne Hw Hbuy Hsell. pose proof (truthy_nonempty key Hne) as Ht.
  unfold realBranch. cbv zeta.
  rewrite flashLoans_when, snd_when, Hapi. cbn [negb].
  rewrite flashLoans_log, snd_log, flashLoans_guard, snd_when, Ht. cbn [negb].
  cbn [default from_option]. unfold Datatypes.id.
  rewrite flashLoans_bind, snd_bind, Hw. cbn [attempt ret fst snd app flashLoans].
  rewrite !flashLoans_log, !snd_log.
  rewrite flashLoans_bind, snd_bind, buildBuySwap_loanless, buildBuySwap_snd, Hbuy.
  cbn [app].
  rewrite flashLoans_bind, snd_bind, buildSellSwap_loanless, buildSellSwap_snd, Hsell.
  split; reflexivity.
Qed.

(** X4.  In a real-mode attempt that passes the early guards, a failing
    leg stops the attempt at once.  If the quote source rejects the buy
    leg, the buy request is the only route request sent (no sell-leg
    request follows), the flash loan is not invoked and the result carries
    the buy-leg error with the quote source's message.  If the buy leg is
    built and the sell leg, sized at the floor of the buy leg's output, is
    rejected, both requests have been sent, the flash loan is not invoked
    and the result carries the sell-leg error. *)
Theorem X4_failed_leg_stops_the_attempt w opportunity c key wallet :
  storedConfig w = Some c ->
  resolvePrivateKey (BotConfig.privateKey c) (envPrivateKey w) = Some key ->
  String.length key = 66%nat ->
  walletAddress w key = Some wallet ->
  reachesRouting w = true ->
  let r := executeArbitrageTrade w opportunity false in
  let buyLeg :=
    swapRequest (address (tokenIn opportunity)) (address (tokenOut opportunity))
      (parseUnits (flashLoanAmount opportunity) (decimals (tokenIn opportunity)))
      wallet in
  (forall cause,
     buildSwapTransaction w buyLeg = inl cause ->
     TradeExecutionResult.success (snd r) = false /\
     TradeExecutionResult.error (snd r) = Some (ErrBuildBuy cause) /\
     swapRequests (fst r) = [buyLeg] /\
     flashLoans (fst r) = []) /\
  (forall buySwap cause,
     buildSwapTransaction w buyLeg = inr buySwap ->
     let sellLeg :=
       swapRequest (address (tokenOut opportunity)) (address (tokenIn opportunity))
         (Qfloor (SwapTx.toAmount buySwap)) wallet in
     buildSwapTransaction w sellLeg = inl cause ->
     TradeExecutionResult.success (snd r) = false /\
     TradeExecutionResult.error (snd r) = Some (ErrBuildSell cause) /\
     swapRequests (fst r) = [buyLeg; sellLeg] /\
     flashLoans (fst r) = []).
Proof.
  intros Hc Hk Hlen Hw Hreach. cbv zeta.
  destruct (pipeline_reaches_realBranch w opportunity c key wallet
              Hc Hk Hlen Hw Hreach) as (Hsnd & Hreq & Hloans).
  destruct (reachesRouting_true w c Hc Hreach) as (_ & _ & Hapi).
  assert (Hne : key <> "") by (intros ->; discriminate).
  rewrite swapRequests_execute, flashLoans_execute, execute_shape, Hreq, Hloans, Hsnd.
  unfold routeRequests. split.
  - intros cause Hbuy.
    destruct (realBranch_buy_fails w c opportunity key wallet (chainIdOf c) cause
                Hapi Hne Hw Hbuy) as [-> ->].
    rewrite Hbuy. repeat split.
  - intros buySwap cause Hbuy Hsell.
    destruct (realBranch_sell_fails w c opportunity key wallet (chainIdOf c)
                buySwap cause Hapi Hne Hw Hbuy Hsell) as [-> ->].
    rewrite Hbuy. repeat split.
Qed.

Lemma X4_witness :
  let w := rejectingWorld in
  let opportunity := Sample.candidate in
  let wallet := Sample.executor in
  let r := executeArbitrageTrade w opportunity false in
  let buyLeg :=
    swapRequest (address (tokenIn opportunity)) (address (tokenOut opportunity))
      (parseUnits (flashLoanAmount opportunity) (decimals (tokenIn opportunity)))
      wallet in
  (forall cause,
     buildSwapTransaction w buyLeg = inl cause ->
     TradeExecutionResult.success (snd r) = false /\
     TradeExecutionResult.error (snd r) = Some (ErrBuildBuy cause) /\
     swapRequests (fst r) = [buyLeg] /\
     flashLoans (fst r) = []) /\
  (forall buySwap cause,
     buildSwapTransaction w buyLeg = inr buySwap ->
     let sellLeg :=
       swapRequest (address (tokenOut opportunity)) (address (tokenIn opportunity))
         (Qfloor (SwapTx.toAmount buySwap)) wallet in
     buildSwapTransaction w sellLeg = inl cause ->
     TradeExecutionResult.success (snd r) = false /\
     TradeExecutionResult.error (snd r) = Some (ErrBuildSell cause) /\
     swapRequests (fst r) = [buyLeg; sellLeg] /\
     flashLoans (fst r) = []).
Proof.
  apply (X4_failed_leg_stops_the_attempt rejectingWorld Sample.candidate
           (setPrivateKey Sample.realCfg None) Sample.keyUpper Sample.executor);
    vm_compute; reflexivity.
Defined.

(** ** The freshness check and the staleness window *)

(** X5.  [validateOpportunity] accepts a candidate exactly when its age is
    at most 30 seconds and its net percent reaches the stored threshold
    (0.15 when none is stored).  Acceptance is lost with time and never
    regained: a candidate accepted at a later reading was accepted at every
    earlier one.  Every entry the eviction pass would remove is also
    rejected by the check, while an entry between 30 and 60 seconds old is
    kept by the Registry and rejected by the check. *)
Theorem X5_validation_window config now later o :
  now <= later ->
  (validateOpportunity config now o = true <->
     now - timestamp o <= 30000 /\
     (q_or (config ≫= BotConfig.minNetProfitPercent) (15 # 100)
      <= netProfitPercent o)%Q) /\
  (validateOpportunity config later o = true ->
     validateOpportunity config now o = true) /\
  (isStale now o = true -> validateOpportunity config now o = false) /\
  (30000 < now - timestamp o <= 60000 ->
     isStale now o = false /\ validateOpportunity config now o = false).
Proof.
  intros Hle. split; [apply validateOpportunity_spec |]. split; [| split].
  - rewrite !validateOpportunity_spec. intros [H1 H2]. split; [lia | exact H2].
  - unfold isStale, staleMs. rewrite Z.gtb_ltb, Z.ltb_lt. intros Hs.
    destruct (validateOpportunity config now o) eqn:E; [| reflexivity].
    apply validateOpportunity_spec in E. lia.
  - intros [Hlo Hhi]. split.
    + unfold isStale, staleMs. rewrite Z.gtb_ltb. apply Z.ltb_ge. lia.
    + destruct (validateOpportunity config now o) eqn:E; [| reflexivity].
      apply validateOpportunity_spec in E. lia.
Qed.

Lemma X5_witness :
  (validateOpportunity (Some Sample.botCfg) (Sample.t0 + 5000) Sample.candidate
     = true <->
     Sample.t0 + 5000 - timestamp Sample.candidate <= 30000 /\
     (q_or (Some Sample.botCfg ≫= BotConfig.minNetProfitPercent) (15 # 100)
      <= netProfitPercent Sample.candidate)%Q) /\
  (validateOpportunity (Some Sample.botCfg) (Sample.t0 + 45000) Sample.candidate
     = true ->
     validateOpportunity (Some Sample.botCfg) (Sample.t0 + 5000) Sample.candidate
     = true) /\
  (isStale (Sample.t0 + 5000) Sample.candidate = true ->
     validateOpportunity (Some Sample.botCfg) (Sample.t0 + 5000) Sample.candidate
     = false) /\
  (30000 < Sample.t0 + 5000 - timestamp Sample.candidate <= 60000 ->
     isStale (Sample.t0 + 5000) Sample.candidate = false /\
     validateOpportunity (Some Sample.botCfg) (Sample.t0 + 5000) Sample.candidate
     = false).
Proof.
  apply (X5_validation_window (Some Sample.botCfg) (Sample.t0 + 5000)
           (Sample.t0 + 45000) Sample.candidate).
  vm_compute. discriminate.
Defined.

(** ** The scanner object *)

Lemma scan_keeps_keyed_and_valid w config reg :
  keyed reg -> allValid reg ->
  keyed (fst (scan w config reg)) /\ allValid (fst (scan w config reg)).
Proof.
  intros Hk Hv. unfold scan.
  destruct (gasPriceGwei w) as [gasGwei |]; [| split; assumption].
  destruct (js_gt gasGwei (maxGasPriceGwei config)); [split; assumption |].
  cbn [fst].
  assert (Hlook : forall i o,
            evictStale (evictNow w)
              (fst (dispatchAll w reg
                      (fst (scanPairs w config gasGwei 0 (tokenPairs config)))))
              !! i = Some o ->
            reg !! i = Some o \/
            (In o (fst (scanPairs w config gasGwei 0 (tokenPairs config)))
             /\ id o = i)).
  { intros i o H. apply evictStale_lookup in H. destruct H as [H _].
    exact (dispatchAll_lookup _ _ _ _ _ H). }
  split.
  - intros i o H. destruct (Hlook _ _ H) as [H' | [_ H']]; [| exact H'].
    exact (Hk _ _ H').
  - intros i o H. destruct (Hlook _ _ H) as [H' | [H' _]].
    + exact (Hv _ _ H').
    + exact (found_valid_and_keyed _ _ _ _ _ _ H').
Qed.

Lemma broadcasts_app t1 t2 : broadcasts (t1 ++ t2) = broadcasts t1 ++ broadcasts t2.
Proof.
  induction t1 as [| e t1 IH]; [reflexivity |].
  destruct e; simpl; rewrite IH; reflexivity.
Qed.

Lemma broadcasts_scanPairs w config gasGwei pairs : forall k0,
  broadcasts (snd (scanPairs w config gasGwei k0 pairs)) = [].
Proof.
  induction pairs as [| tp pairs IH]; intros k0; cbn [scanPairs snd].
  - reflexivity.
  - rewrite broadcasts_app, IH. reflexivity.
Qed.

Lemma broadcasts_dispatchAll w opps : forall reg,
  broadcasts (snd (dispatchAll w reg opps))
  = if hasBroadcast w then opps else [].
Proof.
  induction opps as [| opp opps IH]; intros reg; cbn [dispatchAll snd].
  - destruct (hasBroadcast w); reflexivity.
  - rewrite broadcasts_app, IH. unfold dispatchOne.
    destruct (hasCallback w), (hasBroadcast w); reflexivity.
Qed.

(** What a cycle broadcasts: its new candidates when a broadcast callback
    is set, nothing otherwise. *)
Lemma broadcasts_scan w config reg :
  broadcasts (snd (scan w config reg))
  = if hasBroadcast w then executed (snd (scan w config reg)) else [].
Proof.
  unfold scan. destruct (gasPriceGwei w) as [gasGwei |];
    [| destruct (hasBroadcast w); reflexivity].
  destruct (js_gt gasGwei (maxGasPriceGwei config));
    [destruct (hasBroadcast w); reflexivity |].
  cbn [snd].
  rewrite !broadcasts_app, broadcasts_scanPairs, broadcasts_dispatchAll.
  rewrite !executed_app, executed_scanPairs, executed_dispatchAll.
  destruct (hasBroadcast w);
    destruct (fst (scanPairs _ _ _ _ _)); simpl; rewrite ?app_nil_r; reflexivity.
Qed.

(** X6.  [startScanning] on a stopped scanner reads the configuration,
    writes the start entry and runs one scan at once, on the Registry as
    it stands; the scanner is then running with a timer that holds the
    configuration resolved at that moment.  Starting it again, with
    whatever configuration, changes nothing and makes no call; and every
    later firing of the timer scans with the thresholds resolved at the
    first start, whatever configuration is stored by then. *)
Theorem X6_start_runs_once_and_is_idempotent s w TOKENS config onFound :
  isScanning s = false ->
  let started := startScanning s w TOKENS config onFound in
  let resolved := resolveConfig (botConfig w) TOKENS config in
  let first := scan (listening s onFound w) resolved (opportunities s) in
  isRunning (fst started) = true /\
  scanInterval (fst started)
    = Some {| timerConfig := resolved; timerOnFound := onFound |} /\
  opportunities (fst started) = fst first /\
  snd started = [EvGetBotConfig; EvLog "scanner" "success" ""] ++ snd first /\
  (forall w' config' onFound',
     startScanning (fst started) w' TOKENS config' onFound' = (fst started, [])) /\
  (forall w',
     let fired := tick (fst started) w' in
     opportunities (fst fired)
       = fst (scan (listening s onFound w') resolved (fst first)) /\
     snd fired = snd (scan (listening s onFound w') resolved (fst first)) /\
     scanInterval (fst fired) = scanInterval (fst started)).
Proof.
  intros Hs. cbv zeta.
  assert (Hstart :
            startScanning s w TOKENS config onFound
            = ({| isScanning := true;
                  opportunities :=
                    fst (scan (listening s onFound w)
                           (resolveConfig (botConfig w) TOKENS config)
                           (opportunities s));
                  scanInterval :=
                    Some {| timerConfig := resolveConfig (botConfig w) TOKENS config;
                            timerOnFound := onFound |};
                  broadcastCallback := broadcastCallback s |},
               [EvGetBotConfig; EvLog "scanner" "success" ""]
               ++ snd (scan (listening s onFound w)
                         (resolveConfig (botConfig w) TOKENS config)
                         (opportunities s)))).
  { unfold startScanning. rewrite Hs. reflexivity. }
  rewrite Hstart. cbn [fst snd].
  split; [reflexivity |]. split; [reflexivity |]. split; [reflexivity |].
  split; [reflexivity |]. split.
  - intros w' config' onFound'. reflexivity.
  - intros w'. unfold tick. cbn [scanInterval fst snd opportunities timerConfig
                                   timerOnFound].
    split; [reflexivity |]. split; reflexivity.
Qed.

Lemma X6_witness :
  let started := startScanning newScanner Sample.world (fun _ => Sample.USDC)
                   PartialConfig.empty false in
  let resolved := resolveConfig (botConfig Sample.world) (fun _ => Sample.USDC)
                    PartialConfig.empty in
  let first := scan (listening newScanner false Sample.world) resolved
                 (opportunities newScanner) in
  isRunning (fst started) = true /\
  scanInterval (fst started)
    = Some {| timerConfig := resolved; timerOnFound := false |} /\
  opportunities (fst started) = fst first /\
  snd started = [EvGetBotConfig; EvLog "scanner" "success" ""] ++ snd first /\
  (forall w' config' onFound',
     startScanning (fst started) w' (fun _ => Sample.USDC) config' onFound'
     = (fst started, [])) /\
  (forall w',
     let fired := tick (fst started) w' in
     opportunities (fst fired)
       = fst (scan (listening newScanner false w') resolved (fst first)) /\
     snd fired = snd (scan (listening newScanner false w') resolved (fst first)) /\
     scanInterval (fst fired) = scanInterval (fst started)).
Proof.
  apply (X6_start_runs_once_and_is_idempotent newScanner Sample.world
           (fun _ => Sample.USDC) PartialConfig.empty false).
  reflexivity.
Defined.

Lemma call_keeps_coherent TOKENS s c : coherent s -> coherent (call TOKENS s c).
Proof.
  intros (Hrun & Hk & Hv). destruct c as [w config onFound | userId | w |]; cbn [call].
  - unfold startScanning. destruct (isScanning s) eqn:E; cbn [fst].
    + split; [rewrite E; exact Hrun |]. split; assumption.
    + destruct (scan_keeps_keyed_and_valid (listening s onFound w)
                  (resolveConfig (botConfig w) TOKENS config) (opportunities s)
                  Hk Hv) as [Hk' Hv'].
      split; [| split; assumption].
      cbn [isScanning scanInterval]. split; [eauto | reflexivity].
  - split; [| split; assumption].
    cbn [stopScanning fst isScanning scanInterval]. split; [discriminate |].
    intros [t Ht]. discriminate.
  - unfold tick. destruct (scanInterval s) as [t |] eqn:E; cbn [fst].
    + destruct (scan_keeps_keyed_and_valid (listening s (timerOnFound t) w)
                  (timerConfig t) (opportunities s) Hk Hv) as [Hk' Hv'].
      split; [| split; assumption].
      cbn [isScanning scanInterval].
      first [exact Hrun | rewrite E; exact Hrun].
    + split; [first [exact Hrun | rewrite E; exact Hrun] |]. split; assumption.
  - split; [exact Hrun |]. split; assumption.
Qed.

Lemma calls_coherent TOKENS cs : coherent (calls TOKENS newScanner cs).
Proof.
  assert (H0 : coherent newScanner).
  { split; [split; [discriminate | intros [t Ht]; discriminate] |].
    split; intros i o H; cbn [newScanner opportunities] in H;
      rewrite lookup_empty in H; discriminate. }
  revert H0. generalize newScanner. unfold calls.
  induction cs as [| c cs IH]; intros s Hs; cbn [fold_left].
  - exact Hs.
  - apply IH. apply call_keeps_coherent. exact Hs.
Qed.

Lemma ticks_after_stop TOKENS s ws :
  scanInterval s = None -> calls TOKENS s (map CallTick ws) = s.
Proof.
  intros Hs. unfold calls. induction ws as [| w ws IH]; cbn [map fold_left].
  - reflexivity.
  - cbn [call]. unfold tick. rewrite Hs. cbn [fst]. exact IH.
Qed.

(** X7.  A stopped scanner's Registry is frozen.  After [stopScanning],
    whatever calls came before, the Registry holds what it held, the
    firings of the cleared timer run no scan, so no entry is ever evicted,
    and [POST /api/arbitrage/execute] still finds every entry by its id
    and runs the executor on it, whatever the age of the entry. *)
Theorem X7_stopped_registry_is_frozen TOKENS cs userId ws i o xw :
  let before := calls TOKENS newScanner cs in
  let s := fst (stopScanning before userId) in
  opportunities s !! i = Some o -> i <> "" ->
  isRunning s = false /\
  opportunities s = opportunities before /\
  calls TOKENS s (map CallTick ws) = s /\
  apiArbitrageExecute xw (opportunities (calls TOKENS s (map CallTick ws))) (Some i)
  = let r := executeArbitrageTrade xw o (isSimulationMode (storedConfig xw)) in
    Json (EvGetBotConfig :: fst r) (snd r).
Proof.
  cbv zeta. intros Hi Hne.
  destruct (calls_coherent TOKENS cs) as (_ & Hkeyed & _).
  split; [reflexivity |]. split; [reflexivity |].
  rewrite ticks_after_stop by reflexivity.
  split; [reflexivity |].
  exact (apiArbitrageExecute_entry xw _ i o Hkeyed Hi Hne).
Qed.

Lemma X7_witness :
  let before := calls (fun _ => Sample.USDC) newScanner
                  [CallStart Sample.world onePair false] in
  let s := fst (stopScanning before None) in
  isRunning s = false /\
  opportunities s = opportunities before /\
  calls (fun _ => Sample.USDC) s (map CallTick [Sample.slowWorld]) = s /\
  apiArbitrageExecute Sample.execWorld
    (opportunities (calls (fun _ => Sample.USDC) s (map CallTick [Sample.slowWorld])))
    (Some (id Sample.found))
  = let r := executeArbitrageTrade Sample.execWorld Sample.found
               (isSimulationMode (storedConfig Sample.execWorld)) in
    Json (EvGetBotConfig :: fst r) (snd r).
Proof.
  apply (X7_stopped_registry_is_frozen (fun _ => Sample.USDC)
           [CallStart Sample.world onePair false] None [Sample.slowWorld]
           (id Sample.found) Sample.found Sample.execWorld).
  - vm_compute. reflexivity.
  - discriminate.
Defined.


(** X9.  [POST /api/scanner/start] answers 400 when the scanner is
    running and then touches nothing: no call is made and the broadcast
    callback is not replaced.  Otherwise it sets the broadcast callback,
    starts the scanner and answers 200, and every opportunity the initial
    scan hands to the executor is also sent to the broadcast callback.
    A scanner started without a broadcast callback broadcasts nothing. *)
Theorem X9_scanner_start_route s w TOKENS body :
  let r := apiScannerStart s w TOKENS body in
  (isRunning s = true -> r = (400, s, [])) /\
  (isRunning s = false ->
     fst (fst r) = 200 /\
     isRunning (snd (fst r)) = true /\
     broadcastCallback (snd (fst r)) = true /\
     broadcasts (snd r) = executed (snd r)) /\
  (isRunning s = false -> broadcastCallback s = false ->
     forall config onFound,
       broadcasts (snd (startScanning s w TOKENS config onFound)) = []).
Proof.
  cbv zeta. unfold apiScannerStart, isRunning. split; [| split].
  - intros ->. reflexivity.
  - intros Hs. rewrite Hs. unfold startScanning. cbn [setBroadcastCallback isScanning].
    rewrite Hs. cbn [fst snd]. repeat split.
    rewrite broadcasts_app, executed_app, broadcasts_scan. reflexivity.
  - intros Hs Hb config onFound. unfold startScanning. rewrite Hs. cbn [snd].
    rewrite broadcasts_app, broadcasts_scan. cbn. rewrite Hb. reflexivity.
Qed.

Lemma X9_witness :
  let r := apiScannerStart newScanner Sample.world (fun _ => Sample.USDC) None in
  fst (fst r) = 200 /\
  isRunning (snd (fst r)) = true /\
  broadcastCallback (snd (fst r)) = true /\
  broadcasts (snd r) = executed (snd r).
Proof.
  apply (proj1 (proj2 (X9_scanner_start_route newScanner Sample.world
                         (fun _ => Sample.USDC) None))).
  reflexivity.
Defined.

(** ** The execution contract *)

Import ArbitrageExecutor.

Lemma approved_setApproval st executor b account :
  approved (setApproval st executor b) account
  = if decide (executor = account) then b else approved st account.
Proof.
  unfold approved, setApproval. cbn [approvedExecutors].
  rewrite lookup_insert. destruct (decide (executor = account)); reflexivity.
Qed.

Lemma onlyOwner_done {A} st sender (body : Outcome A) a :
  onlyOwner st sender body = Done a -> sender = owner st /\ body = Done a.
Proof.
  unfold onlyOwner. destruct (Z.eqb_spec sender (owner st)); [auto | discriminate].
Qed.

(** X10.  The owner authorises and de-authorises executors, one at a
    time: [addExecutor] called by the owner lets the named account pass the
    check of [executeArbitrage] and changes it for no other account, and
    [removeExecutor] takes the permission away again, except that the
    owner itself always passes.  Neither call touches the owner or the
    profit counter. *)
Theorem X10_owner_grants_and_revokes st sender executor :
  sender = owner st ->
  exists granted revoked,
    addExecutor st sender executor = Done (granted, []) /\
    removeExecutor granted sender executor = Done (revoked, []) /\
    mayExecute granted executor = true /\
    (mayExecute revoked executor = true <-> executor = owner st) /\
    (forall account, account <> executor ->
       mayExecute granted account = mayExecute st account /\
       mayExecute revoked account = mayExecute st account) /\
    mayExecute revoked (owner st) = true /\
    owner revoked = owner st /\ totalProfits revoked = totalProfits st.
Proof.
  intros ->. exists (setApproval st executor true).
  exists (setApproval (setApproval st executor true) executor false).
  unfold addExecutor, removeExecutor, onlyOwner. cbn [owner setApproval].
  rewrite Z.eqb_refl. split; [reflexivity |]. split; [reflexivity |].
  unfold mayExecute. rewrite !approved_setApproval. cbn [owner setApproval].
  destruct (decide (executor = executor)) as [_ | Hne]; [| congruence].
  split; [reflexivity |]. split.
  - cbn [orb]. apply Z.eqb_eq.
  - split.
    + intros account Hne. rewrite !approved_setApproval.
      destruct (decide (executor = account)); [congruence |]. split; reflexivity.
    + rewrite Z.eqb_refl, orb_true_r. repeat split.
Qed.

Lemma X10_witness :
  exists granted revoked,
    addExecutor {| owner := 7; approvedExecutors := ∅; totalProfits := 0 |} 7 9
      = Done (granted, []) /\
    removeExecutor granted 7 9 = Done (revoked, []) /\
    mayExecute granted 9 = true /\
    (mayExecute revoked 9 = true <-> 9 = 7) /\
    (forall account, account <> 9 ->
       mayExecute granted account
         = mayExecute {| owner := 7; approvedExecutors := ∅; totalProfits := 0 |}
             account /\
       mayExecute revoked account
         = mayExecute {| owner := 7; approvedExecutors := ∅; totalProfits := 0 |}
             account) /\
    mayExecute revoked 7 = true /\
    owner revoked = 7 /\ totalProfits revoked = 0.
Proof.
  apply (X10_owner_grants_and_revokes
           {| owner := 7; approvedExecutors := ∅; totalProfits := 0 |} 7 9).
  reflexivity.
Defined.

Lemma requireSwapSucceeded_done env answer :
  requireSwapSucceeded env answer = Done tt -> fst answer = true.
Proof.
  unfold requireSwapSucceeded. destruct (fst answer); [reflexivity |].
  cbn [andb]. destruct (_getRevertMsg env (snd answer)); discriminate.
Qed.

Lemma checkedAdd_some a b c :
  checkedAdd a b = Some c -> c = a + b /\ a + b <= MAX_UINT256.
Proof.
  unfold checkedAdd. destruct (Z.leb_spec (a + b) MAX_UINT256) as [Hle | Hgt];
    [| discriminate].
  intros Hc. inversion Hc. auto.
Qed.

(** What a completed [executeOperation] has done. *)
Lemma executeOperation_done env st sender asset amount premium initiator params
    st' effects :
  executeOperation env st sender asset amount premium initiator params
    = Done (st', effects) ->
  sender = POOL env /\ initiator = this env /\
  exists arb,
    abiDecode env params = Some arb /\
    0 < amount /\
    fst (routerCall env 0 (router (buySwap arb)) (callData (buySwap arb))) = true /\
    fst (routerCall env 1 (router (sellSwap arb)) (callData (sellSwap arb))) = true /\
    amount + premium <= balanceOf env 1 asset /\
    minProfit arb <= balanceOf env 1 asset - (amount + premium) /\
    totalProfits st'
      = totalProfits st + (balanceOf env 1 asset - (amount + premium)) /\
    totalProfits st' <= MAX_UINT256 /\
    owner st' = owner st /\
    approvedExecutors st' = approvedExecutors st /\
    effects
    = [CallBalanceOf asset;
       CallApprove asset (router (buySwap arb)) 0;
       CallApprove asset (router (buySwap arb)) amount;
       CallRouter (router (buySwap arb)) (callData (buySwap arb));
       CallRouter (router (sellSwap arb)) (callData (sellSwap arb));
       CallBalanceOf asset;
       CallApprove asset (POOL env) (amount + premium);
       EmitArbitrageExecuted asset amount
         (balanceOf env 1 asset - (amount + premium)) initiator].
Proof.
  unfold executeOperation.
  destruct (Z.eqb_spec sender (POOL env)) as [Hs |]; cbn [negb]; [| discriminate].
  destruct (Z.eqb_spec initiator (this env)) as [Hi |]; cbn [negb]; [| discriminate].
  destruct (abiDecode env params) as [arb |]; [| discriminate].
  unfold _executeSwap, _executeSwapWithMaxBalance.
  destruct (Z.ltb_spec 0 amount) as [Hamount |]; cbn [negb]; [| discriminate].
  destruct (requireSwapSucceeded env (routerCall env 0 _ _)) as [f | []] eqn:Hbuy;
    [discriminate |].
  destruct (requireSwapSucceeded env (routerCall env 1 _ _)) as [f | []] eqn:Hsell;
    [discriminate |].
  apply requireSwapSucceeded_done in Hbuy, Hsell.
  destruct (checkedAdd amount premium) as [total |] eqn:Htotal; [| discriminate].
  apply checkedAdd_some in Htotal. destruct Htotal as [-> _].
  destruct (Z.leb_spec (amount + premium) (balanceOf env 1 asset)) as [Hrepay |];
    cbn [negb]; [| discriminate].
  destruct (Z.leb_spec (minProfit arb)
              (balanceOf env 1 asset - (amount + premium))) as [Hprofit |];
    cbn [negb]; [| discriminate].
  destruct (checkedAdd (totalProfits st) _) as [sum |] eqn:Hsum; [| discriminate].
  apply checkedAdd_some in Hsum. destruct Hsum as [-> Hmax].
  intros H. inversion H. subst. cbn.
  split; [reflexivity |]. split; [reflexivity |].
  exists arb. repeat split; auto.
Qed.

(** What a completed [executeArbitrage] has done. *)
Lemma executeArbitrage_done env st sender asset amount params st' effects :
  executeArbitrage env st sender asset amount params = Done (st', effects) ->
  mayExecute st sender = true /\
  exists premium arb,
    flashLoanPremium env asset amount = Some premium /\
    abiDecode env params = Some arb /\
    0 < amount /\
    fst (routerCall env 0 (router (buySwap arb)) (callData (buySwap arb))) = true /\
    fst (routerCall env 1 (router (sellSwap arb)) (callData (sellSwap arb))) = true /\
    amount + premium <= balanceOf env 1 asset /\
    minProfit arb <= balanceOf env 1 asset - (amount + premium) /\
    totalProfits st'
      = totalProfits st + (balanceOf env 1 asset - (amount + premium)) /\
    owner st' = owner st /\
    approvedExecutors st' = approvedExecutors st /\
    effects
    = [CallFlashLoanSimple (this env) asset amount params 0;
       CallBalanceOf asset;
       CallApprove asset (router (buySwap arb)) 0;
       CallApprove asset (router (buySwap arb)) amount;
       CallRouter (router (buySwap arb)) (callData (buySwap arb));
       CallRouter (router (sellSwap arb)) (callData (sellSwap arb));
       CallBalanceOf asset;
       CallApprove asset (POOL env) (amount + premium);
       EmitArbitrageExecuted asset amount
         (balanceOf env 1 asset - (amount + premium)) (this env)].
Proof.
  unfold executeArbitrage, mayExecute.
  destruct (approved st sender || Z.eqb sender (owner st)); cbn [negb];
    [| discriminate].
  destruct (flashLoanPremium env asset amount) as [premium |]; [| discriminate].
  destruct (executeOperation env st (POOL env) asset amount premium (this env)
              params) as [f | [st1 fx]] eqn:Hop; [discriminate |].
  destruct (poolRepaid env); [| discriminate].
  intros H. inversion H. subst. split; [reflexivity |].
  apply executeOperation_done in Hop.
  destruct Hop as (_ & _ & arb & Hd & Ha & Hb & Hs & Hr & Hp & Ht & _ & Ho & Hm & ->).
  exists premium, arb. repeat split; auto.
Qed.


Example arbitrage_can_complete :
  exists st',
    executeArbitrage sampleEnv sampleState 9 1 1000 "" = Done (st',
      [CallFlashLoanSimple 100 1 1000 "" 0;
       CallBalanceOf 1;
       CallApprove 1 21 0;
       CallApprove 1 21 1000;
       CallRouter 21 "buy";
       CallRouter 22 "sell";
       CallBalanceOf 1;
       CallApprove 1 200 1001;
       EmitArbitrageExecuted 1 1000 9 100]) /\
    totalProfits st' = 49.
Proof. eexists. split; vm_compute; reflexivity. Qed.

Lemma executeArbitrage_frame env st sender asset amount params st' effects :
  executeArbitrage env st sender asset amount params = Done (st', effects) ->
  owner st' = owner st /\
  totalProfits st <= totalProfits st' /\
  approvedExecutors st' = approvedExecutors st.
Proof.
  intros H. apply executeArbitrage_done in H.
  destruct H as (_ & premium & arb & _ & _ & _ & _ & _ & Hr & _ & Ht & Ho & Ha & _).
  split; [exact Ho |]. split; [lia | exact Ha].
Qed.

(** What a transaction that is not reverted may have changed. *)
Lemma transact_frame env st sender tx st' effects :
  transact env st sender tx = Done (st', effects) ->
  owner st' = owner st /\
  totalProfits st <= totalProfits st' /\
  (approvedExecutors st' = approvedExecutors st \/
   sender = owner st /\
   exists executor,
     (tx = TxAddExecutor executor /\ st' = setApproval st executor true) \/
     (tx = TxRemoveExecutor executor /\ st' = setApproval st executor false)).
Proof.
  destruct tx; cbn [transact].
  - intros H. apply executeArbitrage_frame in H.
    destruct H as (Ho & Ht & Ha). auto.
  - intros H. apply executeOperation_done in H.
    destruct H as (_ & _ & arb & _ & _ & _ & _ & Hr & _ & Ht & _ & Ho & Ha & _).
    split; [exact Ho |]. split; [lia | left; exact Ha].
  - intros H. apply onlyOwner_done in H. destruct H as [Hs H].
    inversion H. subst st' effects. cbn. repeat split; [lia |]. right.
    split; [exact Hs |]. exists executor. left. auto.
  - intros H. apply onlyOwner_done in H. destruct H as [Hs H].
    inversion H. subst st' effects. cbn. repeat split; [lia |]. right.
    split; [exact Hs |]. exists executor. right. auto.
  - intros H. apply onlyOwner_done in H. destruct H as [Hs H].
    inversion H. subst st'. repeat split; [lia | left; reflexivity].
  - intros H. apply onlyOwner_done in H. destruct H as [Hs H]. revert H.
    cbv zeta.
    destruct (Z.ltb 0 (balanceOf env 0 token)); cbn [negb]; [| discriminate].
    intros H. inversion H. subst st'. repeat split; [lia | left; reflexivity].
Qed.

Lemma after_frame env st sender tx :
  owner (after env st sender tx) = owner st /\
  totalProfits st <= totalProfits (after env st sender tx) /\
  (approvedExecutors (after env st sender tx) = approvedExecutors st \/
   sender = owner st /\
   exists executor,
     (tx = TxAddExecutor executor /\
      after env st sender tx = setApproval st executor true) \/
     (tx = TxRemoveExecutor executor /\
      after env st sender tx = setApproval st executor false)).
Proof.
  unfold after.
  destruct (transact env st sender tx) as [f | [st' fx]] eqn:H.
  - split; [reflexivity |]. split; [lia | left; reflexivity].
  - exact (transact_frame _ _ _ _ _ _ H).
Qed.

Lemma mayExecute_after env st sender tx account :
  (sender = owner st ->
     tx <> TxAddExecutor account /\ tx <> TxRemoveExecutor account) ->
  mayExecute (after env st sender tx) account = mayExecute st account.
Proof.
  intros Hother.
  destruct (after_frame env st sender tx) as (Ho & _ & [Ha | (Hs & e & Hcase)]).
  - unfold mayExecute, approved. rewrite Ho, Ha. reflexivity.
  - destruct (Hother Hs) as [Hadd Hrem].
    unfold mayExecute. rewrite Ho.
    destruct Hcase as [[-> ->] | [-> ->]]; rewrite approved_setApproval;
      destruct (decide (e = account)); try reflexivity; subst; congruence.
Qed.

(** X12.  Who may call [executeArbitrage] is decided by the owner alone:
    over any sequence of transactions to the entry points the contract
    declares, an account's permission stays what it was unless the owner
    sent [addExecutor] or [removeExecutor] naming that very account.
    Reverted transactions, transactions of other senders, completed
    arbitrages and withdrawals leave it alone. *)
Theorem X12_only_the_owner_changes_who_may_execute st txs account :
  (forall env sender tx, In (env, sender, tx) txs -> sender = owner st ->
     tx <> TxAddExecutor account /\ tx <> TxRemoveExecutor account) ->
  mayExecute (run st txs) account = mayExecute st account.
Proof.
  revert st. induction txs as [| [[env sender] tx] txs IH]; intros st Hother.
  - reflexivity.
  - cbn [run].
    destruct (after_frame env st sender tx) as (Ho & _).
    rewrite IH.
    + apply mayExecute_after. intros Hs.
      apply (Hother env sender tx); [left; reflexivity | exact Hs].
    + intros env' sender' tx' Hin Hs. rewrite Ho in Hs.
      apply (Hother env' sender' tx'); [right; exact Hin | exact Hs].
Qed.

Lemma X12_witness :
  mayExecute
    (run sampleState
       [(sampleEnv, 9, TxAddExecutor 11);
        (sampleEnv, 7, TxAddExecutor 12);
        (sampleEnv, 9, TxExecuteArbitrage 1 1000 "");
        (sampleEnv, 11, TxRemoveExecutor 9);
        (sampleEnv, 7, TxWithdrawProfits 1)]) 11
  = mayExecute sampleState 11.
Proof.
  apply X12_only_the_owner_changes_who_may_execute.
  intros env sender tx Hin Hs. cbn in Hin, Hs. subst sender.
  destruct Hin as [H | [H | [H | [H | [H | []]]]]]; inversion H;
    split; discriminate.
Defined.

(** X13.  Over any sequence of transactions to the entry points the
    contract declares, the owner stays the same account and always passes
    the check of [executeArbitrage], and [totalProfits] never decreases:
    it is a running total that withdrawals do not reduce. *)
Theorem X13_owner_and_profit_counter st txs :
  owner (run st txs) = owner st /\
  mayExecute (run st txs) (owner st) = true /\
  totalProfits st <= totalProfits (run st txs).
Proof.
  revert st. induction txs as [| [[env sender] tx] txs IH]; intros st.
  - unfold mayExecute. rewrite Z.eqb_refl, orb_true_r. repeat split. cbn. lia.
  - cbn [run].
    destruct (after_frame env st sender tx) as (Ho & Ht & _).
    destruct (IH (after env st sender tx)) as (IHo & IHm & IHt).
    rewrite Ho in IHo, IHm. repeat split; [exact IHo | exact IHm | lia].
Qed.

(** X14.  No call by which funds can leave the contract is open to
    everyone.  Every call a transaction makes, and so every transfer,
    payment of native currency, approval and router call, belongs to a
    transaction sent by the owner or an approved executor, or to the
    pool's callback [executeOperation] with the contract itself as
    initiator.  The contract's own transfers and payments go to the owner
    and occur only in [emergencyWithdraw] and [withdrawProfits] sent by
    the owner; its approvals name the buy router of the caller's
    parameters or the pool.  Where the router calls send the contract's
    tokens is the choice of the authorised caller. *)
Theorem X14_outside_calls_need_authorisation env st sender tx e :
  In e (effectsOf env st sender tx) ->
  (mayExecute st sender = true \/
   sender = POOL env /\
   exists asset amount premium params,
     tx = TxExecuteOperation asset amount premium (this env) params) /\
  (forall recipient, recipientOf e = Some recipient ->
     recipient = owner st /\ sender = owner st /\
     ((exists token amount, tx = TxEmergencyWithdraw token amount) \/
      (exists token, tx = TxWithdrawProfits token))) /\
  (forall token spender amount, e = CallApprove token spender amount ->
     spender = POOL env \/
     exists params arb,
       abiDecode env params = Some arb /\ spender = router (buySwap arb) /\
       ((exists asset loan, tx = TxExecuteArbitrage asset loan params) \/
        (exists asset loan premium initiator,
           tx = TxExecuteOperation asset loan premium initiator params))).
Proof.
  unfold effectsOf.
  destruct (transact env st sender tx) as [f | [st' fx]] eqn:H; [intros [] |].
  assert (Howner : sender = owner st -> mayExecute st sender = true).
  { intros ->. unfold mayExecute. rewrite Z.eqb_refl. apply orb_true_r. }
  destruct tx as [asset amt data | asset amt prem initiator data | executor
                 | executor | token amt | token]; cbn [transact] in H.
  - apply executeArbitrage_done in H.
    destruct H as (Hmay & premium & arb & _ & Hd & _ & _ & _ & _ & _ & _ & _ & _ & ->).
    intros Hin. split; [left; exact Hmay |]. split.
    + intros recipient He. exfalso. cbn in Hin.
      repeat (destruct Hin as [<- | Hin]; [discriminate He |]). exact Hin.
    + intros token spender loan ->. cbn in Hin.
      destruct Hin as [Hin | [Hin | [Hin | [Hin | [Hin | [Hin | [Hin | [Hin | Hin]]]]]]]];
        try discriminate Hin.
      * inversion Hin. right. exists data, arb.
        split; [exact Hd |]. split; [reflexivity |]. left. eauto.
      * inversion Hin. right. exists data, arb.
        split; [exact Hd |]. split; [reflexivity |]. left. eauto.
      * inversion Hin. left. reflexivity.
      * destruct Hin as [Hin | []]. discriminate Hin.
  - apply executeOperation_done in H.
    destruct H as (Hs & Hi & arb & Hd & _ & _ & _ & _ & _ & _ & _ & _ & _ & ->).
    intros Hin. split; [right; subst; eauto 8 |]. split.
    + intros recipient He. exfalso. cbn in Hin.
      repeat (destruct Hin as [<- | Hin]; [discriminate He |]). exact Hin.
    + intros token spender loan ->. cbn in Hin.
      destruct Hin as [Hin | [Hin | [Hin | [Hin | [Hin | [Hin | [Hin | Hin]]]]]]];
        try discriminate Hin.
      * inversion Hin. right. exists data, arb.
        split; [exact Hd |]. split; [reflexivity |]. right. eauto 8.
      * inversion Hin. right. exists data, arb.
        split; [exact Hd |]. split; [reflexivity |]. right. eauto 8.
      * inversion Hin. left. reflexivity.
      * destruct Hin as [Hin | []]. discriminate Hin.
  - apply onlyOwner_done in H. destruct H as [_ H]. inversion H. intros [].
  - apply onlyOwner_done in H. destruct H as [_ H]. inversion H. intros [].
  - apply onlyOwner_done in H. destruct H as [Hs H]. inversion H. subst st' fx.
    intros Hin. cbn in Hin. split; [left; auto |]. split.
    + intros recipient He.
      assert (recipient = owner st).
      { destruct Hin as [<- | [<- | []]]; [| discriminate He].
        destruct (Z.eqb token 0); cbn in He; congruence. }
      repeat split; auto. left. eauto.
    + intros token' spender amount' ->. exfalso.
      destruct Hin as [Hin | [Hin | []]]; [| discriminate Hin].
      destruct (Z.eqb token 0); discriminate Hin.
  - apply onlyOwner_done in H. destruct H as [Hs H]. revert H.
    cbv zeta.
    destruct (Z.ltb 0 (balanceOf env 0 token)); cbn [negb]; [| discriminate].
    intros H. inversion H. subst st' fx. intros Hin. cbn in Hin.
    split; [left; auto |]. split.
    + intros recipient He.
      assert (recipient = owner st).
      { destruct Hin as [<- | [<- | []]]; [discriminate He |]. cbn in He. congruence. }
      repeat split; auto. right. eauto.
    + intros token' spender amount' ->. exfalso.
      destruct Hin as [Hin | [Hin | []]]; discriminate Hin.
Qed.

Lemma X14_witness :
  (mayExecute sampleState 9 = true \/
   9 = POOL sampleEnv /\
   exists asset amount premium params,
     TxExecuteArbitrage 1 1000 ""
     = TxExecuteOperation asset amount premium (this sampleEnv) params) /\
  (forall recipient, recipientOf (CallRouter 21 "buy") = Some recipient ->
     recipient = owner sampleState /\ 9 = owner sampleState /\
     ((exists token amount,
         TxExecuteArbitrage 1 1000 "" = TxEmergencyWithdraw token amount) \/
      (exists token, TxExecuteArbitrage 1 1000 "" = TxWithdrawProfits token))) /\
  (forall token spender amount,
     CallRouter 21 "buy" = CallApprove token spender amount ->
     spender = POOL sampleEnv \/
     exists params arb,
       abiDecode sampleEnv params = Some arb /\ spender = router (buySwap arb) /\
       ((exists asset loan, TxExecuteArbitrage 1 1000 ""
                            = TxExecuteArbitrage asset loan params) \/
        (exists asset loan premium initiator,
           TxExecuteArbitrage 1 1000 ""
           = TxExecuteOperation asset loan premium initiator params))).
Proof.
  apply (X14_outside_calls_need_authorisation sampleEnv sampleState 9
           (TxExecuteArbitrage 1 1000 "") (CallRouter 21 "buy")).
  vm_compute. auto 10.
Defined.

(** ** Executor authorization *)

Section AuthorizationProperties.
Import Authorization.

Lemma truthy_text s : truthy s = true -> s = Some (text s) /\ text s <> ""%string.
Proof.
  destruct s as [[| c s] |]; cbn; try discriminate.
  intros _. split; [reflexivity | discriminate].
Qed.

(** A trace without, or with exactly one, [addExecutor] transaction. *)
Ltac no_send :=
  let Hin := fresh "Hin" in
  cbn; intros Hin;
  repeat (destruct Hin as [Hin | Hin]; [discriminate Hin |]); destruct Hin.

Lemma authorizeExecutor_sends w executor rpcUrl contract key named gas :
  In (SendAddExecutor rpcUrl contract key named gas)
     (fst (authorizeExecutor w executor)) ->
  exists config signer balance contractOwner,
    storedConfig w = Some config /\
    privateKey config = Some key /\ key <> ""%string /\
    flashLoanContract config = Some contract /\ contract <> ""%string /\
    rpcUrlOf config = Some rpcUrl /\ rpcUrl <> ""%string /\
    named = executor /\ gas = 100000 /\
    walletAddress w key = inr signer /\
    getBalance w rpcUrl signer = inr balance /\
    minimumBalance <= balance /\
    readOwner w rpcUrl contract = inr contractOwner /\
    toLowerCase contractOwner = toLowerCase signer /\
    readApprovedExecutors w 0 rpcUrl contract executor = inr false /\
    sent (fst (authorizeExecutor w executor))
    = [SendAddExecutor rpcUrl contract key executor 100000].
Proof.
  unfold authorizeExecutor.
  destruct (storedConfig w) as [config |] eqn:Hconfig; [| no_send].
  cbn [andThen request].
  destruct (truthy (privateKey config)) eqn:Hkey; cbn [negb]; [| no_send].
  destruct (truthy (flashLoanContract config)) eqn:Hcontract; cbn [negb];
    [| no_send].
  destruct (truthy (rpcUrlOf config)) eqn:Hrpc; cbn [negb]; [| no_send].
  destruct (truthy_text _ Hkey) as [Hk1 Hk2].
  destruct (truthy_text _ Hcontract) as [Hc1 Hc2].
  destruct (truthy_text _ Hrpc) as [Hr1 Hr2].
  destruct (walletAddress w (text (privateKey config)))
    as [thrown | signer] eqn:Hsigner; [no_send |].
  cbn [andThen request].
  destruct (getBalance w (text (rpcUrlOf config)) signer)
    as [thrown | balance] eqn:Hbalance; [no_send |].
  destruct (Z.ltb_spec balance minimumBalance) as [Hlow | Hhigh]; [no_send |].
  destruct (readOwner w (text (rpcUrlOf config)) (text (flashLoanContract config)))
    as [thrown | contractOwner] eqn:Howner; [no_send |].
  destruct (String.eqb_spec (toLowerCase contractOwner) (toLowerCase signer))
    as [Hsame | Hdiff]; cbn [negb]; [| no_send].
  destruct (readApprovedExecutors w 0 (text (rpcUrlOf config))
              (text (flashLoanContract config)) executor)
    as [thrown | [|]] eqn:Happroved; [no_send | no_send |].
  assert (Hgoal : forall calls,
            In (SendAddExecutor rpcUrl contract key named gas) calls ->
            sent calls
            = [SendAddExecutor (text (rpcUrlOf config))
                 (text (flashLoanContract config)) (text (privateKey config))
                 executor 100000] ->
            exists config0 signer0 balance0 contractOwner0,
              Some config = Some config0 /\
              privateKey config0 = Some key /\ key <> ""%string /\
              flashLoanContract config0 = Some contract /\ contract <> ""%string /\
              rpcUrlOf config0 = Some rpcUrl /\ rpcUrl <> ""%string /\
              named = executor /\ gas = 100000 /\
              walletAddress w key = inr signer0 /\
              getBalance w rpcUrl signer0 = inr balance0 /\
              minimumBalance <= balance0 /\
              readOwner w rpcUrl contract = inr contractOwner0 /\
              toLowerCase contractOwner0 = toLowerCase signer0 /\
              readApprovedExecutors w 0 rpcUrl contract executor = inr false /\
              sent calls = [SendAddExecutor rpcUrl contract key executor 100000]).
  { intros calls Hin Hsent.
    assert (Hin' : In (SendAddExecutor rpcUrl contract key named gas) (sent calls)).
    { apply filter_In. split; [exact Hin | reflexivity]. }
    rewrite Hsent in Hin'. destruct Hin' as [Heq | []]. inversion Heq. subst.
    exists config, signer, balance, contractOwner.
    rewrite Hsent. repeat split; auto. }
  intros Hin. apply Hgoal; [exact Hin |]. clear Hin Hgoal.
  destruct (sendAddExecutor w _ _ _ executor) as [thrown | tx]; [reflexivity |].
  cbn [andThen request].
  destruct (waitForReceipt w tx) as [thrown | []]; [reflexivity |].
  destruct (readApprovedExecutors w 1 _ _ executor) as [thrown | [|]]; reflexivity.
Qed.

(** X15.  [authorizeExecutor] sends a transaction only behind every one
    of its checks, and at most one.  If an [addExecutor] transaction is
    sent, then the stored configuration has a key, a contract address and
    the RPC URL of its network mode; the wallet of that key holds at
    least 0.01 of the native currency (10^16 wei); the contract reported
    an owner equal to the wallet's address up to letter case; and the
    contract reported the executor as not approved.  The transaction is
    [addExecutor] of the requested executor on the configured contract,
    signed with the configured key, with a gas limit of 100000. *)
Theorem X15_authorization_is_sent_behind_every_check
    w executor rpcUrl contract key named gas :
  In (SendAddExecutor rpcUrl contract key named gas)
     (fst (authorizeExecutor w executor)) ->
  exists config signer balance contractOwner,
    storedConfig w = Some config /\
    privateKey config = Some key /\ key <> ""%string /\
    flashLoanContract config = Some contract /\ contract <> ""%string /\
    rpcUrlOf config = Some rpcUrl /\ rpcUrl <> ""%string /\
    named = executor /\ gas = 100000 /\
    walletAddress w key = inr signer /\
    getBalance w rpcUrl signer = inr balance /\
    10 ^ 16 <= balance /\
    readOwner w rpcUrl contract = inr contractOwner /\
    toLowerCase contractOwner = toLowerCase signer /\
    readApprovedExecutors w 0 rpcUrl contract executor = inr false /\
    sent (fst (authorizeExecutor w executor))
    = [SendAddExecutor rpcUrl contract key executor 100000].
Proof. apply authorizeExecutor_sends. Qed.

Lemma X15_witness :
  exists config signer balance contractOwner,
    storedConfig sampleChain = Some config /\
    privateKey config = Some ownerKey /\ ownerKey <> ""%string /\
    flashLoanContract config = Some contractAt /\ contractAt <> ""%string /\
    rpcUrlOf config = Some "https://rpc.example"%string /\
    "https://rpc.example"%string <> ""%string /\
    ownerAddress = ownerAddress /\ 100000 = 100000 /\
    walletAddress sampleChain ownerKey = inr signer /\
    getBalance sampleChain "https://rpc.example" signer = inr balance /\
    10 ^ 16 <= balance /\
    readOwner sampleChain "https://rpc.example" contractAt = inr contractOwner /\
    toLowerCase contractOwner = toLowerCase signer /\
    readApprovedExecutors sampleChain 0 "https://rpc.example" contractAt ownerAddress
    = inr false /\
    sent (fst (authorizeExecutor sampleChain ownerAddress))
    = [SendAddExecutor "https://rpc.example" contractAt ownerKey ownerAddress 100000].
Proof.
  apply (X15_authorization_is_sent_behind_every_check sampleChain ownerAddress
           "https://rpc.example" contractAt ownerKey ownerAddress 100000).
  vm_compute. auto 10.
Defined.

Ltac early_exit :=
  cbn; eexists; split; [reflexivity |]; cbn;
  split; [split; discriminate |]; split; [discriminate |];
  intros ? ?; discriminate.

Lemma authorizeExecutor_returns w executor :
  exists res, snd (authorizeExecutor w executor) = inr res.
Proof.
  unfold authorizeExecutor, catch.
  destruct (andThen _ _) as [calls [thrown | res]]; cbn; eauto.
Qed.

(** X16.  [authorizeExecutor] never throws: every failure of a
    collaborator ends in a result.  It reports success exactly when it
    reports no error code, and only when the contract itself answered that
    the executor is approved: either the first read, before any
    transaction, or the read that follows the mined transaction.  A
    transaction hash is reported only for a transaction that was sent and
    whose receipt arrived, and the result is then a success exactly when
    the read after it says approved. *)
Theorem X16_authorization_result_follows_the_contract w executor :
  exists res,
    snd (authorizeExecutor w executor) = inr res /\
    (success res = true <-> error res = None) /\
    (success res = true ->
     exists config n,
       storedConfig w = Some config /\
       readApprovedExecutors w n (text (rpcUrlOf config))
         (text (flashLoanContract config)) executor = inr true) /\
    (forall hash, txHash res = Some hash ->
     exists config approvedNow,
       storedConfig w = Some config /\
       sendAddExecutor w (text (rpcUrlOf config)) (text (flashLoanContract config))
         (text (privateKey config)) executor = inr hash /\
       waitForReceipt w hash = inr tt /\
       readApprovedExecutors w 1 (text (rpcUrlOf config))
         (text (flashLoanContract config)) executor = inr approvedNow /\
       success res = approvedNow).
Proof.
  unfold authorizeExecutor.
  destruct (storedConfig w) as [config |] eqn:Hconfig; [| early_exit].
  cbn [andThen request].
  destruct (truthy (privateKey config)); cbn [negb]; [| early_exit].
  destruct (truthy (flashLoanContract config)); cbn [negb]; [| early_exit].
  destruct (truthy (rpcUrlOf config)); cbn [negb]; [| early_exit].
  destruct (walletAddress w (text (privateKey config))) as [thrown | signer];
    [early_exit |].
  cbn [andThen request].
  destruct (getBalance w (text (rpcUrlOf config)) signer) as [thrown | balance];
    [early_exit |].
  destruct (Z.ltb balance minimumBalance); [early_exit |].
  destruct (readOwner w (text (rpcUrlOf config)) (text (flashLoanContract config)))
    as [thrown | contractOwner]; [early_exit |].
  destruct (String.eqb (toLowerCase contractOwner) (toLowerCase signer));
    cbn [negb]; [| early_exit].
  destruct (readApprovedExecutors w 0 (text (rpcUrlOf config))
              (text (flashLoanContract config)) executor)
    as [thrown | [|]] eqn:Hfirst; [early_exit | | ].
  { cbn. eexists. split; [reflexivity |]. cbn.
    split; [split; reflexivity |]. split; [| intros ? ?; discriminate].
    intros _. exists config, 0%nat. split; [reflexivity | exact Hfirst]. }
  destruct (sendAddExecutor w _ _ _ executor) as [thrown | tx] eqn:Hsend;
    [early_exit |].
  cbn [andThen request].
  destruct (waitForReceipt w tx) as [thrown | []] eqn:Hwait; [early_exit |].
  destruct (readApprovedExecutors w 1 _ _ executor) as [thrown | [|]] eqn:Hsecond;
    [early_exit | | ].
  - cbn. eexists. split; [reflexivity |]. cbn.
    split; [split; reflexivity |]. split.
    + intros _. exists config, 1%nat. split; [reflexivity | exact Hsecond].
    + intros hash Hh. inversion Hh. subst hash. exists config, true. auto.
  - cbn. eexists. split; [reflexivity |]. cbn.
    split; [split; discriminate |]. split; [discriminate |].
    intros hash Hh. inversion Hh. subst hash. exists config, false. auto.
Qed.

(** *** The routes *)

Lemma getWalletInfo_returns w address :
  snd (getWalletInfo w) = inr address ->
  fst (getWalletInfo w) = [GetBotConfig] /\
  exists config,
    storedConfig w = Some config /\
    truthy (privateKey config) = true /\
    truthy (rpcUrlOf config) = true /\
    walletAddress w (text (privateKey config)) = inr address.
Proof.
  unfold getWalletInfo. cbn [andThen request].
  destruct (storedConfig w) as [config |]; [| discriminate].
  destruct (truthy (privateKey config)) eqn:Hkey; cbn [negb]; [| discriminate].
  destruct (truthy (rpcUrlOf config)) eqn:Hrpc; cbn [negb]; [| discriminate].
  cbn. intros H. split; [reflexivity |]. exists config. auto.
Qed.

Lemma getWalletInfo_sends_nothing w : sent (fst (getWalletInfo w)) = [].
Proof.
  unfold getWalletInfo. cbn [andThen request].
  destruct (storedConfig w) as [config |]; [| reflexivity].
  destruct (truthy (privateKey config)); cbn [negb]; [| reflexivity].
  destruct (truthy (rpcUrlOf config)); cbn [negb]; reflexivity.
Qed.

(** The route either stops at [getWalletInfo] with 500, or answers with
    the result of [authorizeExecutor] for the wallet's own address. *)
Lemma apiAuthorizeExecutor_shape w :
  (exists thrown,
     snd (getWalletInfo w) = inl thrown /\
     apiAuthorizeExecutor w
     = (fst (getWalletInfo w) ++ [ConsoleError thrown],
        (500, failed thrown "UNKNOWN_ERROR" None))) \/
  (exists address res,
     snd (getWalletInfo w) = inr address /\
     snd (authorizeExecutor w address) = inr res /\
     apiAuthorizeExecutor w
     = (fst (getWalletInfo w) ++ fst (authorizeExecutor w address),
        (if success res then 200 else 400, res))).
Proof.
  unfold apiAuthorizeExecutor.
  destruct (getWalletInfo w) as [calls [thrown | address]] eqn:Hinfo; cbn.
  - left. exists thrown. split; reflexivity.
  - right. destruct (authorizeExecutor_returns w address) as [res Hres].
    exists address, res. split; [reflexivity |]. split; [exact Hres |].
    destruct (authorizeExecutor w address) as [calls' [thrown | res']];
      cbn in Hres; [discriminate |].
    inversion Hres. subst res'. cbn. rewrite app_nil_r. reflexivity.
Qed.

(** [authorizeExecutor] reports a missing key or RPC URL only when they
    are missing. *)
Lemma authorizeExecutor_missing w executor res :
  snd (authorizeExecutor w executor) = inr res ->
  error res = Some "PRIVATE_KEY_MISSING" \/ error res = Some "RPC_URL_MISSING" ->
  exists config,
    storedConfig w = Some config /\
    (truthy (privateKey config) = false \/ truthy (rpcUrlOf config) = false).
Proof.
  unfold authorizeExecutor.
  destruct (storedConfig w) as [config |] eqn:Hconfig.
  2:{ cbn. intros H. inversion H. cbn. intros [E | E]; discriminate. }
  cbn [andThen request].
  destruct (truthy (privateKey config)) eqn:Hkey; cbn [negb];
    [| intros _ _; exists config; auto].
  destruct (truthy (flashLoanContract config)); cbn [negb].
  2:{ cbn. intros H. inversion H. cbn. intros [E | E]; discriminate. }
  destruct (truthy (rpcUrlOf config)) eqn:Hrpc; cbn [negb];
    [| intros _ _; exists config; auto].
  intros Hres [E | E]; exfalso; revert Hres E;
    (destruct (walletAddress w (text (privateKey config))) as [thrown | signer];
     [cbn; intros H; inversion H; discriminate |]);
    cbn [andThen request];
    (destruct (getBalance w (text (rpcUrlOf config)) signer) as [thrown | balance];
     [cbn; intros H; inversion H; discriminate |]);
    (destruct (Z.ltb balance minimumBalance);
     [cbn; intros H; inversion H; discriminate |]);
    (destruct (readOwner w (text (rpcUrlOf config))
                 (text (flashLoanContract config))) as [thrown | contractOwner];
     [cbn; intros H; inversion H; discriminate |]);
    (destruct (String.eqb (toLowerCase contractOwner) (toLowerCase signer));
     cbn [negb]; [| cbn; intros H; inversion H; discriminate]);
    (destruct (readApprovedExecutors w 0 (text (rpcUrlOf config))
                 (text (flashLoanContract config)) executor) as [thrown | [|]];
     [cbn; intros H; inversion H; discriminate
     | cbn; intros H; inversion H; discriminate |]);
    (destruct (sendAddExecutor w _ _ _ executor) as [thrown | tx];
     [cbn; intros H; inversion H; discriminate |]);
    cbn [andThen request];
    (destruct (waitForReceipt w tx) as [thrown | []];
     [cbn; intros H; inversion H; discriminate |]);
    (destruct (readApprovedExecutors w 1 _ _ executor) as [thrown | [|]]);
    cbn; intros H; inversion H; discriminate.
Qed.

(** *** Addresses and letter case *)

Lemma hexValue_lower c : hexValue (lower c) = hexValue c.
Proof. destruct c as [[] [] [] [] [] [] [] []]; reflexivity. Qed.

Lemma hexNumber_toLowerCase s : forall acc,
  hexNumber acc (toLowerCase s) = hexNumber acc s.
Proof.
  induction s as [| c s IH]; intros acc; cbn [toLowerCase hexNumber].
  - reflexivity.
  - rewrite hexValue_lower. destruct (hexValue c); [apply IH | reflexivity].
Qed.

Lemma length_toLowerCase s : String.length (toLowerCase s) = String.length s.
Proof.
  induction s as [| c s IH]; [reflexivity |].
  cbn [toLowerCase]. change (S (String.length (toLowerCase s)) = S (String.length s)).
  rewrite IH. reflexivity.
Qed.

Lemma addressOf_toLowerCase s account :
  addressOf s = Some account -> addressOf (toLowerCase s) = Some account.
Proof.
  destruct s as [| c0 [| c1 digits]]; try discriminate.
  - destruct c0 as [[] [] [] [] [] [] [] []]; discriminate.
  - destruct c0 as [[] [] [] [] [] [] [] []]; try discriminate.
    destruct c1 as [[] [] [] [] [] [] [] []]; try discriminate.
    unfold addressOf. cbn [toLowerCase].
    change (lower "0") with "0"%char. change (lower "x") with "x"%char.
    rewrite length_toLowerCase, hexNumber_toLowerCase. exact (fun H => H).
Qed.

(** Two address strings that agree up to letter case denote one account. *)
Lemma addressOf_agree a b x y :
  toLowerCase a = toLowerCase b ->
  addressOf a = Some x -> addressOf b = Some y -> x = y.
Proof.
  intros Hab Ha Hb. apply addressOf_toLowerCase in Ha, Hb.
  rewrite Hab in Ha. congruence.
Qed.

Lemma owner_self_grant env st a :
  ArbitrageExecutor.mayExecute
    (ArbitrageExecutor.after env st (ArbitrageExecutor.owner st)
       (ArbitrageExecutor.TxAddExecutor (ArbitrageExecutor.owner st))) a
  = ArbitrageExecutor.mayExecute st a.
Proof.
  unfold ArbitrageExecutor.after, ArbitrageExecutor.transact,
    ArbitrageExecutor.addExecutor, ArbitrageExecutor.onlyOwner.
  rewrite Z.eqb_refl. unfold ArbitrageExecutor.mayExecute.
  rewrite approved_setApproval. cbn [ArbitrageExecutor.owner ArbitrageExecutor.setApproval].
  destruct (decide (ArbitrageExecutor.owner st = a)) as [<- | Hne]; [| reflexivity].
  rewrite Z.eqb_refl, !orb_true_r. reflexivity.
Qed.

(** X17.  Through [POST /api/contract/authorize-executor] the executor
    named in an [addExecutor] transaction is always the address of the
    configured wallet itself, which also signs the transaction, and the
    transaction is sent only if the contract reported that address as its
    owner.  On a chain that answers for an [ArbitrageExecutor] contract,
    the transaction is therefore the owner approving itself: it changes
    for no account whether [executeArbitrage] accepts it, since the owner
    is accepted without approval. *)
Theorem X17_authorize_route_approves_the_owner_only
    w st env rpcUrl contract key named gas account :
  In (SendAddExecutor rpcUrl contract key named gas)
     (fst (apiAuthorizeExecutor w)) ->
  reads w st ->
  addressOf named = Some account ->
  walletAddress w key = inr named /\
  account = ArbitrageExecutor.owner st /\
  forall a,
    ArbitrageExecutor.mayExecute
      (ArbitrageExecutor.after env st account
         (ArbitrageExecutor.TxAddExecutor account)) a
    = ArbitrageExecutor.mayExecute st a.
Proof.
  intros Hin Hreads Hnamed.
  destruct (apiAuthorizeExecutor_shape w)
    as [(thrown & Hinfo & Hroute) | (address & res & Hinfo & Hres & Hroute)];
    rewrite Hroute in Hin; cbn [fst] in Hin; apply in_app_or in Hin.
  - exfalso. destruct Hin as [Hin | [Hin | []]]; [| discriminate].
    assert (Hs : In (SendAddExecutor rpcUrl contract key named gas)
                   (sent (fst (getWalletInfo w)))).
    { apply filter_In. split; [exact Hin | reflexivity]. }
    rewrite getWalletInfo_sends_nothing in Hs. destruct Hs.
  - destruct (getWalletInfo_returns w address Hinfo)
      as (Hcalls & config & Hconfig & Hkey & Hrpc & Hwallet).
    destruct Hin as [Hin | Hin];
      [rewrite Hcalls in Hin; destruct Hin as [Hin | []]; discriminate |].
    apply authorizeExecutor_sends in Hin.
    destruct Hin as (config' & signer & balance & contractOwner & Hconfig' & Hk & _
                     & _ & _ & _ & _ & -> & _ & Hsigner & _ & _ & Howner & Hsame
                     & _).
    rewrite Hconfig in Hconfig'. inversion Hconfig'. subst config'.
    rewrite Hk in Hwallet. cbn [text default from_option] in Hwallet.
    unfold Datatypes.id in Hwallet.
    rewrite Hwallet in Hsigner. inversion Hsigner. subst signer.
    split; [exact Hwallet |].
    destruct (Hreads rpcUrl contract) as [Ho _].
    assert (Haccount : account = ArbitrageExecutor.owner st).
    { symmetry. exact (addressOf_agree _ _ _ _ Hsame (Ho _ Howner) Hnamed). }
    split; [exact Haccount |]. subst account. intros a. apply owner_self_grant.
Qed.

Lemma X17_witness :
  walletAddress sampleChain ownerKey = inr ownerAddress /\
  171 = ArbitrageExecutor.owner sampleContract /\
  forall a,
    ArbitrageExecutor.mayExecute
      (ArbitrageExecutor.after ArbitrageExecutor.sampleEnv sampleContract 171
         (ArbitrageExecutor.TxAddExecutor 171)) a
    = ArbitrageExecutor.mayExecute sampleContract a.
Proof.
  apply (X17_authorize_route_approves_the_owner_only sampleChain sampleContract
           ArbitrageExecutor.sampleEnv "https://rpc.example" contractAt ownerKey
           ownerAddress 100000 171).
  - vm_compute. auto 10.
  - intros rpcUrl contract. split.
    + intros o H. inversion H. reflexivity.
    + intros executor b account H _. inversion H. reflexivity.
  - reflexivity.
Defined.

Lemma getWalletInfo_calls w : fst (getWalletInfo w) = [GetBotConfig].
Proof.
  unfold getWalletInfo. cbn [andThen request].
  destruct (storedConfig w) as [config |]; [| reflexivity].
  destruct (truthy (privateKey config)); cbn [negb]; [| reflexivity].
  destruct (truthy (rpcUrlOf config)); cbn [negb]; [| reflexivity].
  cbn. destruct (walletAddress w (text (privateKey config))); reflexivity.
Qed.

(** X18.  [POST /api/contract/authorize-executor] answers 200 exactly
    when the result is a success, and 400 or 500 otherwise.  Because the
    route resolves the wallet first, the codes [PRIVATE_KEY_MISSING] and
    [RPC_URL_MISSING] of [authorizeExecutor] never reach the caller: with
    no stored configuration, no key or no RPC URL for the network mode the
    route answers 500 with [UNKNOWN_ERROR], after reading the
    configuration and nothing else. *)
Theorem X18_authorize_route_status w :
  let r := apiAuthorizeExecutor w in
  let status := fst (snd r) in
  let res := snd (snd r) in
  (status = 200 <-> success res = true) /\
  (status = 200 \/ status = 400 \/ status = 500) /\
  error res <> Some "PRIVATE_KEY_MISSING"%string /\
  error res <> Some "RPC_URL_MISSING"%string /\
  ((forall config, storedConfig w = Some config ->
      truthy (privateKey config) = false \/ truthy (rpcUrlOf config) = false) ->
   status = 500 /\
   error res = Some "UNKNOWN_ERROR"%string /\
   fst r = [GetBotConfig; ConsoleError (message res)]).
Proof.
  cbv zeta.
  destruct (apiAuthorizeExecutor_shape w)
    as [(thrown & Hinfo & ->) | (address & res & Hinfo & Hres & ->)];
    cbn [fst snd].
  - rewrite getWalletInfo_calls. cbn.
    split; [split; discriminate |]. split; [auto |].
    split; [discriminate |]. split; [discriminate |]. auto.
  - destruct (getWalletInfo_returns w address Hinfo)
      as (_ & config & Hconfig & Hkey & Hrpc & _).
    assert (Hpresent : forall code,
              code = "PRIVATE_KEY_MISSING"%string \/ code = "RPC_URL_MISSING"%string ->
              error res <> Some code).
    { intros code Hcode E.
      destruct (authorizeExecutor_missing w address res Hres) as (c & Hc & Hmiss).
      - destruct Hcode as [-> | ->]; auto.
      - rewrite Hconfig in Hc. inversion Hc. subst c.
        destruct Hmiss; congruence. }
    split; [destruct (success res); split; (reflexivity || discriminate) |].
    split; [destruct (success res); auto |].
    split; [apply Hpresent; auto |]. split; [apply Hpresent; auto |].
    intros Hmissing. destruct (Hmissing config Hconfig); congruence.
Qed.

(** *** The status check *)

Ltac unauthorized_exit :=
  cbn; split; [reflexivity |]; eexists; split; [reflexivity |]; cbn;
  split; [discriminate |]; intros ? ? ? ? ?; discriminate.

(** X19.  [checkExecutorStatus] only reads: it sends no transaction and
    never throws.  It answers [isAuthorized = true] only without an error,
    and its flag is the contract's [approvedExecutors] entry and nothing
    else.  On a chain that answers for an [ArbitrageExecutor] contract a
    reported [true] means that [executeArbitrage] accepts the account, but
    not conversely: for the owner, when it is not in the mapping, the
    check reports [false] although the contract accepts it. *)
Theorem X19_status_reports_the_mapping_only w executor :
  let r := checkExecutorStatus w executor in
  sent (fst r) = [] /\
  exists status,
    snd r = inr status /\
    (Status.isAuthorized status = true -> Status.error status = None) /\
    (forall st account,
       reads w st -> addressOf executor = Some account ->
       Status.error status = None ->
       Status.isAuthorized status = ArbitrageExecutor.approved st account /\
       (Status.isAuthorized status = true ->
        ArbitrageExecutor.mayExecute st account = true) /\
       (account = ArbitrageExecutor.owner st ->
        ArbitrageExecutor.approved st account = false ->
        Status.isAuthorized status = false /\
        ArbitrageExecutor.mayExecute st account = true)).
Proof.
  cbv zeta. unfold checkExecutorStatus. cbn [andThen request].
  destruct (storedConfig w) as [config |]; cbn [mbind option_bind];
    [| unauthorized_exit].
  destruct (truthy (flashLoanContract config)); cbn [negb]; [| unauthorized_exit].
  destruct (truthy (rpcUrlOf config)); cbn [negb]; [| unauthorized_exit].
  destruct (getCode w (text (rpcUrlOf config)) (text (flashLoanContract config)))
    as [thrown | code]; [unauthorized_exit |].
  destruct (String.eqb code "0x"); [unauthorized_exit |].
  destruct (readApprovedExecutors w 0 (text (rpcUrlOf config))
              (text (flashLoanContract config)) executor)
    as [thrown | approved] eqn:Happroved; [unauthorized_exit |].
  destruct (readOwner w (text (rpcUrlOf config)) (text (flashLoanContract config)))
    as [thrown | contractOwner]; [unauthorized_exit |].
  cbn. split; [reflexivity |]. eexists. split; [reflexivity |]. cbn.
  split; [reflexivity |].
  intros st account Hreads Haccount _.
  destruct (Hreads (text (rpcUrlOf config)) (text (flashLoanContract config)))
    as [_ Hmapping].
  pose proof (Hmapping executor approved account Happroved Haccount) as ->.
  unfold ArbitrageExecutor.mayExecute. split; [reflexivity |]. split.
  - intros ->. reflexivity.
  - intros -> Hno. rewrite Hno, Z.eqb_refl. split; reflexivity.
Qed.

End AuthorizationProperties.

From Stdlib Require Import Lqa.

(** ** The simulated venues *)

Lemma toFixed6_close x : (Qabs (toFixed6 x - x) <= 1 # 2000000)%Q.
Proof.
  unfold toFixed6.
  destruct (Qle_bool (inject_Z (10 ^ 21)) (Qabs x)).
  - apply Qabs_Qle_condition. split; lra.
  - destruct (Qle_bool 0 x).
    + pose proof (Qfloor_le (x * inject_Z (10 ^ 6) + (1 # 2))) as Hlo.
      pose proof (Qlt_floor (x * inject_Z (10 ^ 6) + (1 # 2))) as Hhi.
      rewrite inject_Z_plus in Hhi.
      set (n := inject_Z (Qfloor (x * inject_Z (10 ^ 6) + (1 # 2)))) in *.
      change (inject_Z (10 ^ 6)) with (1000000 # 1)%Q in *.
      change (inject_Z 1) with 1%Q in Hhi.
      unfold Qdiv. change (/ (1000000 # 1))%Q with (1 # 1000000)%Q.
      apply Qabs_Qle_condition. split; lra.
    + pose proof (Qfloor_le (- x * inject_Z (10 ^ 6) + (1 # 2))) as Hlo.
      pose proof (Qlt_floor (- x * inject_Z (10 ^ 6) + (1 # 2))) as Hhi.
      rewrite inject_Z_plus in Hhi.
      set (n := inject_Z (Qfloor (- x * inject_Z (10 ^ 6) + (1 # 2)))) in *.
      change (inject_Z (10 ^ 6)) with (1000000 # 1)%Q in *.
      change (inject_Z 1) with 1%Q in Hhi.
      unfold Qdiv. change (/ (1000000 # 1))%Q with (1 # 1000000)%Q.
      apply Qabs_Qle_condition. split; lra.
Qed.

(** The adjusted amount of a simulated venue lies off the base amount by
    the drawn deviation, up to the rounding of [toFixed]. *)
Lemma adjusted_amount_off t r span low (up : bool) :
  (0 <= t)%Q -> (0 <= r)%Q -> (r < 1)%Q -> (0 <= span)%Q -> (0 <= low)%Q ->
  let t2 := toFixed6 (t * (1 + (r * span + low) * (if up then 1 else -1)))%Q in
  (t * low - (1 # 2000000) <= Qabs (t - t2))%Q /\
  (Qabs (t - t2) <= t * (span + low) + (1 # 2000000))%Q /\
  (t - t2 <= Qabs (t - t2))%Q /\ (t2 - t <= Qabs (t - t2))%Q.
Proof.
  intros Ht Hr0 Hr1 Hspan Hlow. cbv zeta.
  set (x := (t * (1 + (r * span + low) * (if up then 1 else -1)))%Q).
  pose proof (toFixed6_close x) as Hclose.
  apply Qabs_Qle_condition in Hclose. destruct Hclose as [Hc1 Hc2].
  set (t2 := toFixed6 x) in *.
  assert (Hrs0 : (0 <= r * span)%Q) by (apply Qmult_le_0_compat; assumption).
  assert (Hrs1 : (r * span <= span)%Q) by nra.
  set (rs := (r * span)%Q) in *.
  assert (Htl : (0 <= t * low)%Q) by (apply Qmult_le_0_compat; lra).
  assert (Hts : (0 <= t * (span + low))%Q) by (apply Qmult_le_0_compat; lra).
  assert (Hu1 : (t * low <= t * (rs + low))%Q) by nra.
  assert (Hu2 : (t * (rs + low) <= t * (span + low))%Q) by nra.
  pose proof (Qle_Qabs (t - t2)) as Ha1.
  pose proof (Qle_Qabs (t2 - t)) as Ha2.
  rewrite (Qabs_Qminus t2 t) in Ha2.
  assert (Hx : (x == t + (if up then 1 else -1) * (t * (rs + low)))%Q).
  { unfold x. destruct up; ring. }
  split; [| split; [| split; assumption]].
  - destruct up; lra.
  - apply Qabs_Qle_condition. destruct up; split; lra.
Qed.

Lemma grossPercent_amounts t1 t2 f :
  (0 < f)%Q -> (0 < t1 + t2)%Q ->
  (grossPercent (t1 / f) (t2 / f) == Qabs (t1 - t2) * 200 / (t1 + t2))%Q.
Proof.
  intros Hf Hsum. unfold grossPercent, priceDiff, avgPrice.
  assert (Hd : (t1 / f - t2 / f == (t1 - t2) * / f)%Q) by (unfold Qdiv; ring).
  rewrite Hd, Qabs_Qmult, (Qabs_pos (/ f)) by (apply Qlt_le_weak, Qinv_lt_0_compat, Hf).
  field. split; lra.
Qed.

Lemma grossPercent_simulated q t2 :
  (0 < fromAmount q)%Q -> (0 < toAmount q + t2)%Q ->
  (grossPercent (price q) (t2 / fromAmount q)
   == Qabs (toAmount q - t2) * 200 / (toAmount q + t2))%Q.
Proof. intros Hf Hsum. unfold price. apply grossPercent_amounts; assumption. Qed.



Lemma gasCostUsd_le gasGwei : (gasGwei <= 500)%Q -> (gasCostUsd gasGwei <= 175 # 1000)%Q.
Proof.
  intros Hg. unfold gasCostUsd, gasCostEth, gasCostWei, estimatedGas, maticPriceUsd.
  pose proof (Qfloor_le (gasGwei * inject_Z (10 ^ 9))) as Hfloor.
  rewrite inject_Z_mult.
  set (n := inject_Z (Qfloor (gasGwei * inject_Z (10 ^ 9)))) in *.
  change (inject_Z (10 ^ 9)) with (1000000000 # 1)%Q in Hfloor.
  change (inject_Z 500000) with (500000 # 1)%Q.
  unfold Qdiv. change (/ inject_Z (10 ^ 18))%Q with (1 # 1000000000000000000)%Q.
  lra.
Qed.

Lemma netPercent_ge T loanAmount gasUsd price1 price2 :
  0 < loanAmount ->
  (T * inject_Z loanAmount <= netProfitUsd loanAmount gasUsd price1 price2 * 100)%Q ->
  (T <= netPercent loanAmount gasUsd price1 price2)%Q.
Proof.
  intros HL H. unfold netPercent.
  assert (Hl : (0 < inject_Z loanAmount)%Q).
  { change 0%Q with (inject_Z 0). rewrite <- Zlt_Qlt. exact HL. }
  assert (E : (netProfitUsd loanAmount gasUsd price1 price2
               / inject_Z loanAmount * 100
               == netProfitUsd loanAmount gasUsd price1 price2 * 100
                  / inject_Z loanAmount)%Q) by (field; lra).
  rewrite E. apply Qle_shift_div_l; assumption.
Qed.

(** X21.  With the default thresholds the scanner finds an opportunity in
    every pair near parity.  If the quote source answers the first two
    requests of a pair with the same quote, at a price of at least 0.99
    and an input amount of at least one unit, then for a loan of at least
    1000 and a gas price of at most 500 Gwei the pair of the real quote
    and the simulated second venue passes all three default thresholds
    (0.3 %, 0.15 %, 1.50 USD), whatever [Math.random()] returns: the
    opportunity between them is among those [scanTokenPair] returns. *)
Theorem X21_default_scan_finds_the_simulated_spread
    w config gasGwei k tp q getQuote random2 random3 :
  settledQuotes w k = dexQuotes getQuote random2 random3 ->
  getQuote 0%nat = Some q -> getQuote 1%nat = Some q ->
  (0 <= random2 0%nat)%Q -> (random2 0%nat < 1)%Q ->
  (1 <= fromAmount q)%Q -> ((99 # 100) * fromAmount q <= toAmount q)%Q ->
  defaultThresholds config ->
  1000 <= configuredLoanAmount (botConfig w) ->
  (gasGwei <= 500)%Q ->
  exists q2,
    simulateSecondDexQuote (Some q) random2 = Some q2 /\
    In (mkOpportunity (fst tp) (snd tp) (configuredLoanAmount (botConfig w))
          (gasCostUsd gasGwei) (fresh w k 0%nat 1%nat) q q2)
       (fst (scanTokenPair w config gasGwei k tp)).
Proof.
  intros Hsettled H0 H1 Hr0 Hr1 Hf Hp (Tgross & Tnet & Tusd) HL Hgas.
  eexists. split; [reflexivity |].
  apply In_scanTokenPair. exists 0%nat, 1%nat, q. eexists.
  split; [lia |].
  split; [rewrite Hsettled; unfold dexQuotes; rewrite H0; reflexivity |].
  split; [rewrite Hsettled; unfold dexQuotes; rewrite H1; reflexivity |].
  split; [| reflexivity].
  set (L := configuredLoanAmount (botConfig w)) in *.
  destruct (adjusted_amount_off (toAmount q) (random2 0%nat) (15 # 1000) (5 # 1000)
              (js_gt (random2 1%nat) (1 # 2)))
    as (Hlo & Hhi & Ha1 & Ha2); try lra.
  cbv zeta in Hlo, Hhi, Ha1, Ha2.
  set (t2 := toFixed6 _) in *.
  set (A := Qabs (toAmount q - t2)) in *.
  set (q2 := adjusted q t2 _).
  assert (Hsum : (0 < toAmount q + t2)%Q) by lra.
  assert (Hf0 : (0 < fromAmount q)%Q) by lra.
  pose proof (grossPercent_simulated q t2 Hf0 Hsum) as Hgross.
  change (t2 / fromAmount q)%Q with (price q2) in Hgross. fold A in Hgross.
  assert (Hdiff : (priceDiff (price q) (price q2) == A / fromAmount q)%Q).
  { unfold priceDiff, price, q2. cbn [toAmount fromAmount adjusted].
    assert (Hd : (toAmount q / fromAmount q - t2 / fromAmount q
                  == (toAmount q - t2) * / fromAmount q)%Q)
      by (unfold Qdiv; ring).
    rewrite Hd, Qabs_Qmult, (Qabs_pos (/ fromAmount q))
      by (apply Qlt_le_weak, Qinv_lt_0_compat, Hf0).
    reflexivity. }
  assert (Hpd : (49495 # 10000000 <= priceDiff (price q) (price q2))%Q).
  { rewrite Hdiff. apply Qle_shift_div_l; [exact Hf0 | lra]. }
  pose proof (gasCostUsd_le gasGwei Hgas) as Hg.
  assert (Hl : (1000 <= inject_Z L)%Q).
  { change 1000%Q with (inject_Z 1000). rewrite <- Zle_Qle. exact HL. }
  assert (Hnet : ((44495 # 10000000) * inject_Z L - (175 # 1000)
                  <= netProfitUsd L (gasCostUsd gasGwei) (price q) (price q2))%Q).
  { unfold netProfitUsd, grossProfitUsd, flashLoanFee, flashLoanFeePercent.
    set (pd := priceDiff (price q) (price q2)) in *.
    set (g := gasCostUsd gasGwei) in *. set (l := inject_Z L) in *. nra. }
  apply qualifies_iff. rewrite Tgross, Tnet, Tusd. split; [| split].
  - rewrite Hgross. apply Qle_shift_div_l; [exact Hsum | lra].
  - apply netPercent_ge; [lia |]. fold L. lra.
  - lra.
Qed.

Lemma X21_witness :
  exists q2,
    simulateSecondDexQuote (Some Sample.quoteLow) (fun _ => 0%Q) = Some q2 /\
    In (mkOpportunity (fst (Sample.USDC, Sample.USDT)) (snd (Sample.USDC, Sample.USDT))
          (configuredLoanAmount (botConfig simulatedWorld))
          (gasCostUsd 30) (fresh simulatedWorld 0%nat 0%nat 1%nat)
          Sample.quoteLow q2)
       (fst (scanTokenPair simulatedWorld Sample.config 30 0%nat
               (Sample.USDC, Sample.USDT))).
Proof.
  apply (X21_default_scan_finds_the_simulated_spread simulatedWorld Sample.config
           30 0%nat (Sample.USDC, Sample.USDT) Sample.quoteLow
           (fun _ => Some Sample.quoteLow) (fun _ => 0%Q) (fun _ => 0%Q)).
  - reflexivity.
  - reflexivity.
  - reflexivity.
  - vm_compute. discriminate.
  - reflexivity.
  - vm_compute. discriminate.
  - vm_compute. discriminate.
  - repeat split; reflexivity.
  - vm_compute. discriminate.
  - vm_compute. discriminate.
Defined.
